(** * pycli: the generation-to-execution pipeline of [pycli.py]

    A shallow embedding of [call_ollama_api_stream], [extract_code_block],
    [handle_response] and the interactive loop of [main], with the
    environment (terminal, HTTP endpoint, shell, file system) made
    explicit.

    Text is modelled as Rocq [string]s whose characters are the code
    points below 256; [str.strip] and [str.lower] follow Python on that
    range. *)

From Stdlib Require Import ZArith Ascii String Lia.
From stdpp Require Import base option list gmap strings pretty.

Open Scope string_scope.

(** ** Text primitives *)

Module Text.

Definition nl : ascii := "010"%char.
Definition NL : string := String nl "".

(** [str.isspace] on one character: U+0009..U+000D, U+001C..U+0020,
    U+0085 and U+00A0. *)
Definition isspace (c : ascii) : bool :=
  let n := N_of_ascii c in
  ((9 <=? n) && (n <=? 13) || (28 <=? n) && (n <=? 32)
   || (n =? 133) || (n =? 160))%N.

(** [str.lower] on one character: A..Z and the Latin-1 capitals
    U+00C0..U+00DE (without the multiplication sign U+00D7). *)
Definition lower_char (c : ascii) : ascii :=
  let n := N_of_ascii c in
  if ((65 <=? n) && (n <=? 90)
      || (192 <=? n) && (n <=? 222) && negb (n =? 215))%N
  then ascii_of_N (n + 32) else c.

Fixpoint lower (s : string) : string :=
  match s with
  | "" => ""
  | String c s' => String (lower_char c) (lower s')
  end.

Fixpoint lstrip (s : string) : string :=
  match s with
  | "" => ""
  | String c s' => if isspace c then lstrip s' else s
  end.

Fixpoint rstrip (s : string) : string :=
  match s with
  | "" => ""
  | String c s' =>
      match rstrip s' with
      | "" => if isspace c then "" else String c ""
      | r => String c r
      end
  end.

(** [s.strip()] *)
Definition strip (s : string) : string := rstrip (lstrip s).

(** Truthiness of a Python [str]: only the empty string is falsy. *)
Definition truthy (s : string) : bool :=
  match s with "" => false | _ => true end.

(** [x or d] on strings. *)
Definition str_or (x d : string) : string := if truthy x then x else d.

(** Truthiness of an optional string ([None] and the empty string are
    falsy). *)
Definition truthy_opt (o : option string) : bool :=
  match o with Some s => truthy s | None => false end.

(** [s.removeprefix(p)] when [s] starts with [p], [None] otherwise. *)
Fixpoint chop (p s : string) : option string :=
  match p, s with
  | "", _ => Some s
  | String a p', String b s' => if (a =? b)%char then chop p' s' else None
  | String _ _, "" => None
  end.

(** [first_at p a]: in the text [a +:+ p], the pattern [p] starts at no
    position inside [a], so its first occurrence is the one right after
    [a]. *)
Fixpoint first_at (p a : string) : bool :=
  match a with
  | "" => true
  | String _ a' =>
      match chop p (a +:+ p) with
      | Some _ => false
      | None => first_at p a'
      end
  end.

End Text.

(** ** The fragment of [re] the program uses

    Both patterns of [extract_code_block] are made of literal characters
    and the capturing group [(.*?)].  [match_here] is the backtracking
    matcher anchored at the start of the text: a lazy group first tries to
    match nothing and grows by one character each time the rest of the
    pattern fails.  [search] is [re.search]: the match at the leftmost
    start position.  The result is the list of the groups' texts. *)

Module Re.
Import Text.

Inductive atom : Type :=
| Chr (c : ascii)      (* a literal character *)
| LazyAny.             (* the group (.*?) *)

Definition regex : Type := list atom.

Fixpoint lit (s : string) : regex :=
  match s with
  | "" => []
  | String c s' => Chr c :: lit s'
  end.

(** What [.] matches: every character but the newline, and the newline
    too under [re.DOTALL]. *)
Definition dot (dotall : bool) (c : ascii) : bool :=
  dotall || negb (c =? nl)%char.

Fixpoint match_here (dotall : bool) (r : regex) : string -> option (list string) :=
  match r with
  | [] => fun _ => Some []
  | Chr c :: r' => fun s =>
      match s with
      | String x s' => if (x =? c)%char then match_here dotall r' s' else None
      | "" => None
      end
  | LazyAny :: r' =>
      fix lazy (s : string) : option (list string) :=
        match match_here dotall r' s with
        | Some gs => Some ("" :: gs)
        | None =>
            match s with
            | String x s' =>
                if dot dotall x then
                  match lazy s' with
                  | Some (g :: gs) => Some (String x g :: gs)
                  | _ => None
                  end
                else None
            | "" => None
            end
        end
  end.

(** Every character of the text is one that [.] matches. *)
Fixpoint dots (dotall : bool) (a : string) : bool :=
  match a with
  | "" => true
  | String c a' => dot dotall c && dots dotall a'
  end.

Fixpoint search (dotall : bool) (r : regex) (s : string) : option (list string) :=
  match match_here dotall r s with
  | Some gs => Some gs
  | None =>
      match s with
      | String _ s' => search dotall r s'
      | "" => None
      end
  end.

End Re.

(** ** [extract_code_block] *)

Import Text.

Definition fence : string := "```".
Definition marker : string := "filename: ".

(** r"filename: (.*?)\n" *)
Definition filename_re : Re.regex :=
  (Re.lit marker ++ [Re.LazyAny; Re.Chr nl])%list.

(** r"```(.*?)\n(.*?)```", used with [re.DOTALL] *)
Definition code_re : Re.regex :=
  (Re.lit fence ++ [Re.LazyAny; Re.Chr nl; Re.LazyAny] ++ Re.lit fence)%list.

Definition extract_code_block (response_text : string)
  : option string * option string * option string :=
  let filename :=
    match Re.search false filename_re response_text with
    | Some (g1 :: _) => Some (strip g1)
    | _ => None
    end in
  match Re.search true code_re response_text with
  | Some (g1 :: g2 :: _) =>
      let language := str_or (lower (strip g1)) "python" in
      let code := strip g2 in
      (filename, Some language, Some code)
  | _ => (filename, None, None)
  end.

(** ** Exceptions, chat messages and the streamed response *)

Inductive oserror : Type :=
| FileNotFoundError | FileExistsError | NotADirectoryError | IsADirectoryError.

(** The exceptions that can leave the modelled functions.
    [requests.exceptions.RequestException] and
    [subprocess.CalledProcessError] are not among them: the program catches
    both where they are raised. *)
Inductive exn : Type :=
| OSError (kind : oserror) (path : string)
| EOFError
| UnicodeDecodeError
| JSONDecodeError
| AttributeError
| TypeError.

Inductive res (A : Type) : Type :=
| Ok (a : A)
| Raise (e : exn).
Arguments Ok {A} a.
Arguments Raise {A} e.

Inductive Role : Type := system | user | assistant.

Record ChatMessage : Type := {
  role : Role;
  content : string;
  images : option (list string)
}.

Definition msg (r : Role) (c : string) : ChatMessage :=
  {| role := r; content := c; images := None |}.

(** A parsed JSON value, as [json.loads] returns it. *)
#[warnings="-register-all"]
Inductive json : Type :=
| JNull
| JBool (b : bool)
| JNum (z : Z)
| JStr (s : string)
| JArr (l : list json)
| JObj (kv : list (string * json)).   (* the members, each key once *)

(** What [json.loads(chunk.decode('utf-8'))] does with one non-empty line. *)
Inductive Parsed : Type :=
| NotUtf8                (* chunk.decode raises *)
| NotJson                (* json.loads raises *)
| Json (j : json).

(** One item of [response.iter_lines()]. *)
Inductive Line : Type :=
| Blank                  (* an empty line: [if chunk] is false *)
| Payload (p : Parsed).

(** One HTTP attempt, as the endpoint and the network decide it. *)
Inductive Attempt : Type :=
| TransportError (str_e : string)
    (* requests.post or raise_for_status raises a RequestException *)
| Stream (lines : list Line) (broken : option string).
    (* a success status; the body's lines, and the RequestException that
       ends the iteration early, if any *)

(** One [subprocess.run(..., shell=True, check=True, capture_output=True,
    text=True)], as the host decides it. *)
Record Completed : Type := {
  returncode : Z;
  stdout : string;
  stderr : string;
  str_e : string       (* str() of the CalledProcessError, when raised *)
}.

(** ** The file system

    Paths are taken as the program spells them: a set of directory names
    and a map from file names to contents.  The current directory, its
    parent and the root always exist.  The errors are those of the names
    themselves (a missing or empty name, a file where a directory is
    needed, a directory where a file is); links, permissions and a full
    disk are left out. *)

Module Fs.

Record t : Type := { dirs : gset string; files : gmap string string }.

Definition empty : t := {| dirs := ∅; files := ∅ |}.

Definition slash : ascii := "/"%char.

Fixpoint all_slashes (p : string) : bool :=
  match p with
  | "" => true
  | String c p' => (c =? slash)%char && all_slashes p'
  end.

Fixpoint rstrip_slash (p : string) : string :=
  match p with
  | "" => ""
  | String c p' =>
      match rstrip_slash p' with
      | "" => if (c =? slash)%char then "" else String c ""
      | r => String c r
      end
  end.

(** [p[:i], p[i:]] for [i = p.rfind('/') + 1] *)
Fixpoint cut (p : string) : string * string :=
  match p with
  | "" => ("", "")
  | String c p' =>
      let '(h, t) := cut p' in
      if Text.truthy h then (String c h, t)
      else if (c =? slash)%char then (String c "", p')
      else ("", String c t)
  end.

(** [posixpath.split] *)
Definition split (p : string) : string * string :=
  let '(head, tail) := cut p in
  if Text.truthy head && negb (all_slashes head)
  then (rstrip_slash head, tail) else (head, tail).

(** [os.path.dirname] *)
Definition dirname (p : string) : string := fst (split p).

Definition isfile (fs : t) (p : string) : bool :=
  bool_decide (is_Some (files fs !! p)).

Definition isdir (fs : t) (p : string) : bool :=
  match p with
  | "" => false
  | _ => all_slashes p || bool_decide (p = ".") || bool_decide (p = "..")
         || bool_decide (p ∈ dirs fs)
  end.

(** [os.path.exists] *)
Definition exists_ (fs : t) (p : string) : bool := isdir fs p || isfile fs p.

Definition ends_with_slash (p : string) : bool :=
  match cut p with
  | (String _ _, "") => true
  | _ => false
  end.

(** The proper ancestors of a path, outermost first: the text before each
    slash that ends a name. *)
Fixpoint ancestors_from (acc p : string) : list string :=
  match p with
  | "" => []
  | String c p' =>
      let rest := ancestors_from (acc +:+ String c "") p' in
      if (c =? slash)%char && Text.truthy acc && negb (ends_with_slash acc)
      then acc :: rest else rest
  end.

Definition ancestors (p : string) : list string := ancestors_from "" p.

(** One directory of [os.makedirs(name, exist_ok=True)]: an existing
    directory is kept and anything missing is created.  A regular file in
    the way is an error: [mkdir] of the name itself finds it existing, and
    [mkdir] of the [child] to make under an ancestor finds that the
    ancestor is no directory. *)
Definition mkdir_ok (child : option string) (p : string) (fs : t) : res t :=
  if isdir fs p then Ok fs
  else if isfile fs p
       then match child with
            | None => Raise (OSError FileExistsError p)
            | Some q => Raise (OSError NotADirectoryError q)
            end
       else Ok {| dirs := {[ p ]} ∪ dirs fs; files := files fs |}.

Fixpoint mkdir_all (ps : list string) (fs : t) : res unit * t :=
  match ps with
  | [] => (Ok tt, fs)
  | p :: ps' =>
      match mkdir_ok (head ps') p fs with
      | Ok fs' => mkdir_all ps' fs'
      | Raise e => (Raise e, fs)
      end
  end.

(** [os.makedirs(name, exist_ok=True)].  The empty name is refused:
    [mkdir('')] fails with ENOENT and [os.path.isdir('')] is false, so the
    error is raised again. *)
Definition makedirs (name : string) (fs : t) : res unit * t :=
  match name with
  | "" => (Raise (OSError FileNotFoundError ""), fs)
  | _ => mkdir_all (ancestors name ++ [name])%list fs
  end.

(** Can a file be created or opened for writing under this name? *)
Definition writable (fs : t) (name : string) : res unit :=
  match name with
  | "" => Raise (OSError FileNotFoundError name)
  | _ =>
      if isdir fs name || ends_with_slash name
      then Raise (OSError IsADirectoryError name)
      else
        let parent := dirname name in
        if negb (Text.truthy parent) || isdir fs parent then Ok tt
        else if isfile fs parent then Raise (OSError NotADirectoryError name)
             else Raise (OSError FileNotFoundError name)
  end.

(** [with open(name, "w") as f: f.write(text)] *)
Definition write_text (name text : string) (fs : t) : res unit * t :=
  match writable fs name with
  | Ok _ => (Ok tt, {| dirs := dirs fs; files := <[ name := text ]> (files fs) |})
  | Raise e => (Raise e, fs)
  end.

(** [with open(name, "r") as f: f.read()] *)
Definition read_text (name : string) (fs : t) : res string :=
  match files fs !! name with
  | Some text => Ok text
  | None => if isdir fs name then Raise (OSError IsADirectoryError name)
            else Raise (OSError FileNotFoundError name)
  end.

End Fs.

(** ** The world the program runs in

    [World] is the mutable state the program reads and writes: the file
    system, the global [file_counter], the list object [messages] of the
    main conversation, and a [trace] of what the program did to its
    surroundings, newest event first.  [Env] is what the surroundings
    answer: the outcome of the n-th HTTP attempt and of the n-th
    subprocess, and what that subprocess did to the file system. *)

(** The four places where the program calls [input]. *)
Inductive Site : Type := YouPrompt | RunConfirm | ExecConfirm | DebugConfirm.

Inductive Event : Type :=
| Input (site : Site) (prompt answer : string)  (* input(prompt) returned answer *)
| InputEOF (site : Site) (prompt : string)      (* input(prompt) hit end of file *)
| Print (text : string)
| Post (model : string) (msgs : list ChatMessage)
| Exec (cmd : string)
| MakeDirs (path : string)
| OpenW (path : string).

Record World : Type := {
  fs : Fs.t;
  file_counter : nat;
  messages : list ChatMessage;
  posts : nat;                  (* HTTP attempts made so far *)
  runs : nat;                   (* subprocesses started so far *)
  trace : list Event
}.

Record Env : Type := {
  net : nat -> Attempt;
  shell : nat -> Completed;
  shell_fs : nat -> Fs.t -> Fs.t
}.

(** State and exceptions: a computation returns a value or raises, and
    either way leaves a world behind. *)
Definition M (A : Type) : Type := World -> res A * World.

Definition ret {A} (a : A) : M A := fun w => (Ok a, w).
Definition raise {A} (e : exn) : M A := fun w => (Raise e, w).
Definition bind {A B} (m : M A) (k : A -> M B) : M B :=
  fun w => match m w with
           | (Ok a, w') => k a w'
           | (Raise e, w') => (Raise e, w')
           end.

Notation "'let*' x ':=' m 'in' k" := (bind m (fun x => k))
  (at level 10, x pattern, m at level 100, k at level 200).
Notation "m ';;' k" := (bind m (fun _ => k))
  (at level 100, k at level 200, right associativity).

Definition log (e : Event) : M unit :=
  fun w => (Ok tt, {| fs := fs w; file_counter := file_counter w;
                      messages := messages w; posts := posts w;
                      runs := runs w; trace := e :: trace w |}).

(** [print(text, end="")]; a call with the default [end] passes the text
    with its newline. *)
Definition print (text : string) : M unit := log (Print text).

Definition get_messages : M (list ChatMessage) := fun w => (Ok (messages w), w).

(** [messages.append(m)] / [messages.extend(ms)] on the main list. *)
Definition extend_messages (ms : list ChatMessage) : M unit :=
  fun w => (Ok tt, {| fs := fs w; file_counter := file_counter w;
                      messages := (messages w ++ ms)%list; posts := posts w;
                      runs := runs w; trace := trace w |}).
Definition append_message (m : ChatMessage) : M unit := extend_messages [m].

Definition set_fs (f : Fs.t) (w : World) : World :=
  {| fs := f; file_counter := file_counter w; messages := messages w;
     posts := posts w; runs := runs w; trace := trace w |}.

Definition set_counter (c : nat) (w : World) : World :=
  {| fs := fs w; file_counter := c; messages := messages w;
     posts := posts w; runs := runs w; trace := trace w |}.

(** Lift a file-system operation, keeping the file system it leaves. *)
Definition fs_op {A} (op : Fs.t -> res A * Fs.t) : M A :=
  fun w => let '(r, f) := op (fs w) in (r, set_fs f w).

Section Program.
Variable env : Env.

(** [requests.post(url, json=data, stream=True, timeout=30)] and
    [response.raise_for_status()]: one attempt. *)
Definition post (model : string) (msgs : list ChatMessage) : M Attempt :=
  fun w => (Ok (net env (posts w)),
            {| fs := fs w; file_counter := file_counter w;
               messages := messages w; posts := S (posts w);
               runs := runs w; trace := Post model msgs :: trace w |}).

(** [subprocess.run(cmd, shell=True, check=True, capture_output=True,
    text=True)], without the [check]: the caller looks at the return code,
    and a non-zero one is the [CalledProcessError] of the source. *)
Definition subprocess_run (cmd : string) : M Completed :=
  fun w => (Ok (shell env (runs w)),
            {| fs := shell_fs env (runs w) (fs w);
               file_counter := file_counter w;
               messages := messages w; posts := posts w;
               runs := S (runs w); trace := Exec cmd :: trace w |}).

(** *** [call_ollama_api_stream] *)

Fixpoint assoc (k : string) (kv : list (string * json)) : option json :=
  match kv with
  | [] => None
  | (k', v) :: kv' => if bool_decide (k' = k) then Some v else assoc k kv'
  end.

(** [json_chunk.get("message", {}).get("content", "")], then the
    [full_response += content] that needs a [str]. *)
Definition delta (json_chunk : json) : res string :=
  match json_chunk with
  | JObj kv =>
      match default (JObj []) (assoc "message" kv) with
      | JObj kv' =>
          match default (JStr "") (assoc "content" kv') with
          | JStr s => Ok s
          | _ => Raise TypeError
          end
      | _ => Raise AttributeError
      end
  | _ => Raise AttributeError
  end.

(** The body of [for chunk in response.iter_lines()]. *)
Fixpoint consume (lines : list Line) (full_response : string) : M string :=
  match lines with
  | [] => ret full_response
  | Blank :: lines' => consume lines' full_response
  | Payload NotUtf8 :: _ => raise UnicodeDecodeError
  | Payload NotJson :: _ => raise JSONDecodeError
  | Payload (Json json_chunk) :: lines' =>
      match delta json_chunk with
      | Raise e => raise e
      | Ok content =>
          print content ;;
          consume lines' (full_response +:+ content)
      end
  end.

Definition retry_message (attempt max_retries : Z) (e : string) : string :=
  NL +:+ "Error calling Ollama API (attempt " +:+ pretty (attempt + 1)%Z
     +:+ "/" +:+ pretty max_retries +:+ "): " +:+ e +:+ NL.

(** [for attempt in range(max_retries)], with [todo] iterations left. *)
Fixpoint attempts (model : string) (msgs : list ChatMessage) (max_retries : Z)
    (todo : nat) (attempt : Z) : M (option string) :=
  match todo with
  | O => ret None
  | S todo' =>
      let on_request_exception (e : string) : M (option string) :=
        print (retry_message attempt max_retries e) ;;
        if (attempt =? max_retries - 1)%Z then ret None
        else attempts model msgs max_retries todo' (attempt + 1)%Z in
      let* a := post model msgs in
      match a with
      | TransportError e => on_request_exception e
      | Stream lines broken =>
          let* full_response := consume lines "" in
          match broken with
          | Some e => on_request_exception e
          | None => ret (Some full_response)
          end
      end
  end.

Definition call_ollama_api_stream (msgs : list ChatMessage) (model : string)
    (max_retries : Z) : M (option string) :=
  attempts model msgs max_retries (Z.to_nat max_retries) 0%Z.

(** [max_retries: int = 3]; no caller passes another value. *)
Definition default_max_retries : Z := 3.

(** *** [handle_response] *)

(** The answers that pass a confirmation gate:
    [input(...).strip().lower() == 'y']. *)
Definition affirmative (answer : string) : bool :=
  bool_decide (lower (strip answer) = "y").

(** f"generated_py_script_{file_counter}.py" *)
Definition generated_name (counter : nat) : string :=
  "generated_py_script_" +:+ pretty counter +:+ ".py".

(** The [while True] search for an unused generated name, with [fuel]
    iterations at most; it returns the counter it stops at. *)
Fixpoint next_free (fuel : nat) (f : Fs.t) (counter : nat) : nat :=
  match fuel with
  | O => counter
  | S fuel' =>
      if Fs.exists_ f (generated_name counter)
      then next_free fuel' f (S counter)
      else counter
  end.

(** More iterations than the file system has entries are never needed
    (see [next_free_unused]). *)
Definition enough_fuel (f : Fs.t) : nat :=
  S (size (Fs.dirs f) + size (Fs.files f)).

Definition auto_name : M string :=
  fun w =>
    let c := next_free (enough_fuel (fs w)) (fs w) (file_counter w) in
    (Ok (generated_name c), set_counter c w).

Definition run_prompt (language : string) : string :=
  NL +:+ "Run this " +:+ language +:+ " code? [y/N]: ".
Definition exec_prompt (run_command : string) : string :=
  NL +:+ "Execute: '" +:+ run_command +:+ "'? [y/N]: ".
Definition debug_prompt : string := NL +:+ "Debug this error? [y/N]: ".

Definition run_messages (filename language : string) : list ChatMessage :=
  [ msg system "Provide a shell command to run the given file, preferring Python execution (e.g., python3 file.py).";
    msg user ("Command to run '" +:+ filename +:+ "' in " +:+ language +:+ "?") ].

(** The synthetic correction request of a debug round. *)
Definition correction_request (stderr_text : string) : ChatMessage :=
  msg user ("Command failed: " +:+ stderr_text +:+ NL +:+ "Provide corrected command.").

(** The third component of [extract_code_block]. *)
Definition extract_command (text : string) : option string :=
  snd (extract_code_block text).

(** Its first and second components. *)
Definition extract_filename (text : string) : option string :=
  fst (fst (extract_code_block text)).
Definition extract_language (text : string) : option string :=
  snd (fst (extract_code_block text)).

(** The execution loop (lines 204-225).  Every iteration starts with an
    [input], so the loop is a recursion on the lines still to be read from
    the terminal; it returns the lines it leaves unread. *)
Fixpoint exec_loop (model run_command : string) (stdin : list string)
    {struct stdin} : M (list string) :=
  match stdin with
  | [] => log (InputEOF ExecConfirm (exec_prompt run_command)) ;; raise EOFError
  | confirm :: stdin1 =>
      log (Input ExecConfirm (exec_prompt run_command) confirm) ;;
      if negb (affirmative confirm) then ret stdin1 else
      let* result := subprocess_run run_command in
      if (returncode result =? 0)%Z then
        print (NL +:+ "Success! Output:" +:+ NL +:+ " " +:+ stdout result +:+ NL) ;;
        ret stdin1
      else
        print (NL +:+ "Error: " +:+ str_e result +:+ NL +:+ "Stderr:" +:+ NL
                  +:+ stderr result +:+ NL) ;;
        match stdin1 with
        | [] => log (InputEOF DebugConfirm debug_prompt) ;; raise EOFError
        | debug_confirm :: stdin2 =>
            log (Input DebugConfirm debug_prompt debug_confirm) ;;
            if negb (affirmative debug_confirm) then ret stdin2 else
            let* main_messages := get_messages in
            let debug_messages :=
              (main_messages ++ [correction_request (stderr result)])%list in
            print (NL +:+ "Debugging: ") ;;
            let* debug_response := call_ollama_api_stream debug_messages model default_max_retries in
            if truthy_opt debug_response then
              let debug_text := default "" debug_response in
              append_message (msg assistant debug_text) ;;
              let run_command' := extract_command debug_text in
              if negb (truthy_opt run_command') then
                print (NL +:+ "No fix provided." +:+ NL) ;;
                ret stdin2
              else exec_loop model (default "" run_command') stdin2
            else exec_loop model run_command stdin2
        end
  end.

(** Lines 169-175: the explicit name when there is one, a generated name
    otherwise. *)
Definition choose_name (filename : option string) : M string :=
  if truthy_opt filename then ret (default "" filename) else auto_name.

(** Lines 177-181: create the parent directories, write the file, report. *)
Definition save_code (filename code : string) : M unit :=
  log (MakeDirs (Fs.dirname filename)) ;;
  fs_op (Fs.makedirs (Fs.dirname filename)) ;;
  log (OpenW filename) ;;
  fs_op (Fs.write_text filename code) ;;
  print (NL +:+ "Code saved to " +:+ filename +:+ NL).

(** Lines 183-225: the run confirmation, the run-command exchange and the
    execution loop. *)
Definition run_flow (model filename language : string) (stdin : list string)
  : M (list string) :=
  match stdin with
  | [] => log (InputEOF RunConfirm (run_prompt language)) ;; raise EOFError
  | run_confirm :: stdin1 =>
      log (Input RunConfirm (run_prompt language) run_confirm) ;;
      if negb (affirmative run_confirm) then ret stdin1 else
      print (NL +:+ "Generating run command: ") ;;
      let* run_command_response :=
        call_ollama_api_stream (run_messages filename language) model default_max_retries in
      if negb (truthy_opt run_command_response) then ret stdin1 else
      let run_command := extract_command (default "" run_command_response) in
      if negb (truthy_opt run_command) then
        print (NL +:+ "No valid run command generated." +:+ NL) ;;
        ret stdin1
      else exec_loop model (default "" run_command) stdin1
  end.

Definition handle_response (ai_response model : string) (stdin : list string)
  : M (list string) :=
  let '(filename, language, code) := extract_code_block ai_response in
  if negb (truthy_opt code) then ret stdin else
  let code := default "" code in
  let language := if truthy_opt language then default "" language else "python" in
  let* filename := choose_name filename in
  save_code filename code ;;
  run_flow model filename language stdin.

(** *** [save_history], [load_history] and [main]

    [json.dump] of a conversation and [json.load] of a file's text are
    taken as given; [json_load] answers with the text of the exception when
    it raises.  The session is one started without [--image]. *)

Variable json_dump : list ChatMessage -> string.
Variable json_load : string -> string + list ChatMessage.

Definition errno (k : oserror) : string :=
  match k with
  | FileNotFoundError => "[Errno 2] No such file or directory"
  | FileExistsError => "[Errno 17] File exists"
  | NotADirectoryError => "[Errno 20] Not a directory"
  | IsADirectoryError => "[Errno 21] Is a directory"
  end.

(** [str(e)] for the exceptions of the file system. *)
Definition str_oserror (k : oserror) (path : string) : string :=
  errno k +:+ ": '" +:+ path +:+ "'".

Definition history_file : string := "chat_history.json".

Definition save_history : M unit :=
  let* ms := get_messages in
  fun w =>
    match Fs.write_text history_file (json_dump ms) (fs w) with
    | (Ok _, f) =>
        print (NL +:+ "Chat history saved to " +:+ history_file +:+ NL) (set_fs f w)
    | (Raise (OSError k path), f) =>
        print ("Error saving history: " +:+ str_oserror k path +:+ NL) (set_fs f w)
    | (Raise _, f) => (Ok tt, set_fs f w)   (* no other exception is raised *)
    end.

Definition load_history : M (list ChatMessage) :=
  fun w =>
    match Fs.read_text history_file (fs w) with
    | Ok text =>
        match json_load text with
        | inr loaded => (Ok loaded, w)
        | inl e => (print ("Error loading history: " +:+ e +:+ NL) ;; ret []) w
        end
    | Raise (OSError FileNotFoundError _) => (Ok [], w)
    | Raise (OSError k path) =>
        (print ("Error loading history: " +:+ str_oserror k path +:+ NL) ;; ret []) w
    | Raise _ => (Ok [], w)
    end.

Record Args : Type := {
  arg_model : string;
  arg_prompt : option string;
  arg_load_history : bool;
  arg_save_history : bool
}.

Definition is_nil {A} (l : list A) : bool :=
  match l with [] => true | _ => false end.

(** The interactive loop (lines 124-156); [None] when [fuel] iterations
    were not enough, [Some] of the unread lines when the user left. *)
Fixpoint interactive (args : Args) (fuel : nat) (stdin : list string)
  : M (option (list string)) :=
  match fuel with
  | O => ret None
  | S fuel' =>
      match stdin with
      | [] => log (InputEOF YouPrompt (NL +:+ "You: ")) ;; raise EOFError
      | line :: stdin1 =>
          log (Input YouPrompt (NL +:+ "You: ") line) ;;
          let prompt := strip line in
          if bool_decide (lower prompt = "exit") || bool_decide (lower prompt = "quit")
          then
            (if arg_save_history args then save_history else ret tt) ;;
            ret (Some stdin1)
          else if bool_decide (prompt = "/save") then
            save_history ;;
            interactive args fuel' stdin1
          else if bool_decide (prompt = "/load") then
            let* loaded := load_history in
            (if is_nil loaded then ret tt
             else extend_messages loaded ;; print ("Chat history loaded." +:+ NL)) ;;
            interactive args fuel' stdin1
          else
            append_message (msg user prompt) ;;
            print (NL +:+ "AI: ") ;;
            let* ms := get_messages in
            let* ai_response := call_ollama_api_stream ms (arg_model args) default_max_retries in
            if truthy_opt ai_response then
              let ai_text := default "" ai_response in
              append_message (msg assistant ai_text) ;;
              let* stdin2 := handle_response ai_text (arg_model args) stdin1 in
              interactive args fuel' stdin2
            else interactive args fuel' stdin1
      end
  end.

Definition system_message : ChatMessage :=
  msg system "You are a helpful assistant focused on Python programming. Respond concisely. Prefer Python for code solutions. For shell commands, use ```bash blocks. For code, specify 'filename: path/to/file.py' before ```python blocks.".

Definition set_messages (ms : list ChatMessage) : M unit :=
  fun w => (Ok tt, {| fs := fs w; file_counter := file_counter w;
                      messages := ms; posts := posts w;
                      runs := runs w; trace := trace w |}).

(** [main], after the arguments are parsed.  Every turn of the interactive
    loop reads a line, so one more iteration than there are lines is never
    needed (see [main_fuel]). *)
Definition main (args : Args) (stdin : list string) : M (option (list string)) :=
  print (NL +:+ "Welcome to Ollama CLI (Gemini-inspired)! Using model: "
            +:+ arg_model args +:+ NL) ;;
  print ("Type 'exit' or 'quit' to end. Use '/save' to save history, '/load' to load."
            +:+ NL) ;;
  set_messages [system_message] ;;
  (if arg_load_history args then
     let* loaded := load_history in
     if is_nil loaded then ret tt
     else extend_messages loaded ;; print ("Loaded previous chat history." +:+ NL)
   else ret tt) ;;
  if truthy_opt (arg_prompt args) then
    append_message (msg user (default "" (arg_prompt args))) ;;
    print (NL +:+ "AI: ") ;;
    let* ms := get_messages in
    let* ai_response := call_ollama_api_stream ms (arg_model args) default_max_retries in
    if truthy_opt ai_response then
      let* rest := handle_response (default "" ai_response) (arg_model args) stdin in
      ret (Some rest)
    else ret (Some stdin)
  else interactive args (S (length stdin)) stdin.

End Program.

(** ** Vocabulary of the statements *)

(** The exception that the loop body raises on a line: a line that is not
    UTF-8, not JSON, or JSON of another shape than an object whose
    [message] is an object whose [content] is a string. *)
Definition line_error (l : Line) : option exn :=
  match l with
  | Blank => None
  | Payload NotUtf8 => Some UnicodeDecodeError
  | Payload NotJson => Some JSONDecodeError
  | Payload (Json j) => match delta j with Ok _ => None | Raise e => Some e end
  end.

(** A line that the loop body takes without raising. *)
Definition well_formed (l : Line) : bool :=
  match line_error l with None => true | Some _ => false end.

(** An attempt that ends in a [RequestException]: at the request, or in
    the middle of a body whose lines so far were taken. *)
Definition transport_failure (a : Attempt) : bool :=
  match a with
  | TransportError _ => true
  | Stream lines (Some _) => forallb well_formed lines
  | Stream _ None => false
  end.

(** The events that are neither an execution nor an answer of the user. *)
Definition silent (e : Event) : bool :=
  match e with Exec _ | Input _ _ _ => false | _ => true end.

(** Nothing but the trace and the count of posts has changed. *)
Definition quiet (w w' : World) : Prop :=
  fs w' = fs w /\ file_counter w' = file_counter w
  /\ messages w' = messages w /\ runs w' = runs w.

(** Every execution comes right after an affirmative answer to the
    question showing that very command (the trace is newest first, so the
    answer is the next element). *)
Fixpoint gated (t : list Event) : bool :=
  match t with
  | [] => true
  | Exec cmd :: t' =>
      match t' with
      | Input ExecConfirm p a :: _ => bool_decide (p = exec_prompt cmd) && affirmative a
      | _ => false
      end && gated t'
  | _ :: t' => gated t'
  end.

(** An answer at one of the three confirmation gates that is not an
    affirmative. *)
Definition decline (e : Event) : bool :=
  match e with
  | Input YouPrompt _ _ => false
  | Input _ _ a => negb (affirmative a)
  | _ => false
  end.

Definition no_decline (t : list Event) : bool := forallb (fun e => negb (decline e)) t.

(** No decline, except possibly as the newest event. *)
Definition decline_final (t : list Event) : bool :=
  match t with
  | [] => true
  | _ :: t' => no_decline t'
  end.

(** The newer trace keeps everything of the older one. *)
Definition extends (t t' : list Event) : Prop := exists added, t' = (added ++ t)%list.

(** What a run of the flow from world [w] with the terminal lines [stdin]
    ends in: the conversation has grown by assistant replies only, at most
    one per subprocess started; the events it added to the trace are gated
    and hold no decline, except possibly as the last thing that happened;
    no line was read twice. *)
Definition summary (stdin : list string) (w : World)
    (out : res (list string) * World) : Prop :=
  (exists replies,
      messages (snd out) = (messages w ++ map (msg assistant) replies)%list
      /\ forallb truthy replies = true
      /\ runs w + length replies <= runs (snd out))
  /\ posts w <= posts (snd out)
  /\ (exists added,
        trace (snd out) = (added ++ trace w)%list
        /\ gated added = true /\ decline_final added = true)
  /\ (forall rest, fst out = Ok rest -> length rest <= length stdin).

(** No slash in the name. *)
Fixpoint bare (p : string) : bool :=
  match p with
  | "" => true
  | String c p' => negb (c =? Fs.slash)%char && bare p'
  end.

(** The text printed last. *)
Definition last_printed (t : list Event) : option string :=
  head (omap (fun e => match e with Print s => Some s | _ => None end) t).

(** ** Sample runs *)

Module Sample.

(** A streamed line carrying one text delta. *)
Definition chunk (s : string) : Line :=
  Payload (Json (JObj [("message", JObj [("role", JStr "assistant"); ("content", JStr s)])])).

(** The reply of the specification's example, a bare file name. *)
Definition reply_bare : string :=
  "filename: run.py" +:+ NL +:+ "```python" +:+ NL +:+ "print(1)" +:+ NL +:+ "```".

(** The same reply with a directory in the name. *)
Definition reply_dir : string :=
  "filename: out/run.py" +:+ NL +:+ "```python" +:+ NL +:+ "print(1)" +:+ NL +:+ "```".

(** A reply with no directive. *)
Definition reply_anon : string :=
  "```python" +:+ NL +:+ "print(1)" +:+ NL +:+ "```".

Definition run_reply : string :=
  "```bash" +:+ NL +:+ "python3 out/run.py" +:+ NL +:+ "```".
Definition fix_reply : string :=
  "```bash" +:+ NL +:+ "python out/run.py" +:+ NL +:+ "```".

Definition boom : Completed :=
  {| returncode := 1; stdout := ""; stderr := "boom";
     str_e := "Command 'python3 out/run.py' returned non-zero exit status 1." |}.

(** A world in the middle of a session: an empty directory, one
    exchange in the conversation. *)
Definition start (reply : string) : World :=
  {| fs := Fs.empty; file_counter := 1;
     messages := [system_message; msg user "write it"; msg assistant reply];
     posts := 0; runs := 0; trace := [] |}.

(** The endpoint answers the run-command request, then the debug request,
    and is unreachable afterwards; every command fails. *)
Definition env_debug : Env :=
  {| net := fun n => match n with
                     | 0 => Stream [chunk run_reply] None
                     | 1 => Stream [chunk fix_reply] None
                     | _ => TransportError "connection refused"
                     end;
     shell := fun _ => boom;
     shell_fs := fun _ f => f |}.

(** The endpoint is unreachable. *)
Definition env_down : Env :=
  {| net := fun _ => TransportError "connection refused";
     shell := fun _ => boom;
     shell_fs := fun _ f => f |}.

(** One failed attempt, then a body whose second line is not JSON. *)
Definition env_garbled : Env :=
  {| net := fun n => match n with
                     | 0 => TransportError "timed out"
                     | _ => Stream [chunk "pri"; Payload NotJson; chunk "nt"] None
                     end;
     shell := fun _ => boom;
     shell_fs := fun _ f => f |}.

(** The endpoint answers the user's request with [reply]. *)
Definition env_reply (reply : string) : Env :=
  {| net := fun n => match n with
                     | 0 => Stream [chunk reply] None
                     | _ => TransportError "connection refused"
                     end;
     shell := fun _ => boom;
     shell_fs := fun _ f => f |}.

(** A directory in which [out] is a regular file. *)
Definition fs_blocked : Fs.t := {| Fs.dirs := ∅; Fs.files := {[ "out" := "notes" ]} |}.

Definition blocked : World :=
  {| fs := fs_blocked; file_counter := 1; messages := [];
     posts := 0; runs := 0; trace := [] |}.

Definition fresh : World :=
  {| fs := Fs.empty; file_counter := 1; messages := [];
     posts := 0; runs := 0; trace := [] |}.

Definition args : Args :=
  {| arg_model := "gemma3:latest"; arg_prompt := None;
     arg_load_history := false; arg_save_history := false |}.

Definition dump (ms : list ChatMessage) : string := "[]".
Definition load (text : string) : string + list ChatMessage := inr [].

(** What was typed, oldest first. *)
Definition typed (t : list Event) : list string :=
  rev (omap (fun e => match e with Input _ _ a => Some a | _ => None end) t).

End Sample.

Import Sample.

(** ** Sessions with [--image]

    [encode_image] and the two places of [main] that attach an image to
    the user's message (lines 105-116 and 140-150).  [main_image] is
    [main] with the [--image] argument; [args.image] is the one argument
    the program assigns to, so the loop carries it along. *)

Definition b64_alphabet : string :=
  "ABCDEFGHIJKLMNOPQRSTUVWXYZabcdefghijklmnopqrstuvwxyz0123456789+/".

Definition b64_digit (n : N) : ascii :=
  default "="%char (String.get (N.to_nat n) b64_alphabet).

(** [base64.b64encode(data).decode('utf-8')]: three bytes give four
    digits, and a last group of one or two bytes is padded with [=]. *)
Fixpoint b64encode (data : string) : string :=
  match data with
  | "" => ""
  | String a "" =>
      let x := N_of_ascii a in
      String (b64_digit (x / 4)) (String (b64_digit (x mod 4 * 16)) "==")
  | String a (String b "") =>
      let x := N_of_ascii a in
      let y := N_of_ascii b in
      String (b64_digit (x / 4))
        (String (b64_digit (x mod 4 * 16 + y / 16))
           (String (b64_digit (y mod 16 * 4)) "="))
  | String a (String b (String c rest)) =>
      let x := N_of_ascii a in
      let y := N_of_ascii b in
      let z := N_of_ascii c in
      String (b64_digit (x / 4))
        (String (b64_digit (x mod 4 * 16 + y / 16))
           (String (b64_digit (y mod 16 * 4 + z / 64))
              (String (b64_digit (z mod 64)) (b64encode rest))))
  end.

(** [encode_image]: the file's bytes in base64, or [None] after a printed
    error when the file cannot be opened. *)
Definition encode_image (image_path : string) : M (option string) :=
  fun w =>
    match Fs.read_text image_path (fs w) with
    | Ok data => (Ok (Some (b64encode data)), w)
    | Raise (OSError k path) =>
        (print ("Error encoding image: " +:+ str_oserror k path +:+ NL) ;; ret None) w
    | Raise _ => (Ok None, w)   (* no other exception is raised *)
    end.

Definition image_message (user_content base64_image : string) : ChatMessage :=
  {| role := user; content := user_content; images := Some [base64_image] |}.

(** The user's message of a turn: with the image and the [note] when there
    is an image to attach and it could be encoded, plain otherwise.  The
    result tells whether the image went out. *)
Definition append_user_message (note : string) (image : option string)
    (user_content : string) : M bool :=
  if truthy_opt image then
    let* base64_image := encode_image (default "" image) in
    if truthy_opt base64_image then
      append_message (image_message (user_content +:+ note) (default "" base64_image)) ;;
      ret true
    else append_message (msg user user_content) ;; ret false
  else append_message (msg user user_content) ;; ret false.

Definition interactive_note : string := NL +:+ "[Image attached.]".
Definition one_shot_note : string := NL +:+ "[Image attached: Analyze this image.]".

Section Images.
Variable env : Env.
Variable json_dump : list ChatMessage -> string.
Variable json_load : string -> string + list ChatMessage.

(** The interactive loop (lines 124-156) with [args.image]. *)
Fixpoint interactive_image (args : Args) (fuel : nat) (image : option string)
    (stdin : list string) : M (option (list string)) :=
  match fuel with
  | O => ret None
  | S fuel' =>
      match stdin with
      | [] => log (InputEOF YouPrompt (NL +:+ "You: ")) ;; raise EOFError
      | line :: stdin1 =>
          log (Input YouPrompt (NL +:+ "You: ") line) ;;
          let prompt := strip line in
          if bool_decide (lower prompt = "exit") || bool_decide (lower prompt = "quit")
          then
            (if arg_save_history args then save_history json_dump else ret tt) ;;
            ret (Some stdin1)
          else if bool_decide (prompt = "/save") then
            save_history json_dump ;;
            interactive_image args fuel' image stdin1
          else if bool_decide (prompt = "/load") then
            let* loaded := load_history json_load in
            (if is_nil loaded then ret tt
             else extend_messages loaded ;; print ("Chat history loaded." +:+ NL)) ;;
            interactive_image args fuel' image stdin1
          else
            let* attached := append_user_message interactive_note image prompt in
            let image := if attached then None else image in
            print (NL +:+ "AI: ") ;;
            let* ms := get_messages in
            let* ai_response := call_ollama_api_stream env ms (arg_model args) default_max_retries in
            if truthy_opt ai_response then
              let ai_text := default "" ai_response in
              append_message (msg assistant ai_text) ;;
              let* stdin2 := handle_response env ai_text (arg_model args) stdin1 in
              interactive_image args fuel' image stdin2
            else interactive_image args fuel' image stdin1
      end
  end.

(** [main] with [--image]. *)
Definition main_image (args : Args) (image : option string) (stdin : list string)
  : M (option (list string)) :=
  print (NL +:+ "Welcome to Ollama CLI (Gemini-inspired)! Using model: "
            +:+ arg_model args +:+ NL) ;;
  print ("Type 'exit' or 'quit' to end. Use '/save' to save history, '/load' to load."
            +:+ NL) ;;
  set_messages [system_message] ;;
  (if arg_load_history args then
     let* loaded := load_history json_load in
     if is_nil loaded then ret tt
     else extend_messages loaded ;; print ("Loaded previous chat history." +:+ NL)
   else ret tt) ;;
  if truthy_opt (arg_prompt args) then
    append_user_message one_shot_note image (default "" (arg_prompt args)) ;;
    print (NL +:+ "AI: ") ;;
    let* ms := get_messages in
    let* ai_response := call_ollama_api_stream env ms (arg_model args) default_max_retries in
    if truthy_opt ai_response then
      let* rest := handle_response env (default "" ai_response) (arg_model args) stdin in
      ret (Some rest)
    else ret (Some stdin)
  else interactive_image args (S (length stdin)) image stdin.

End Images.

(** ** Further vocabulary *)

(** The pieces in order, as one text. *)
Definition joined (pieces : list string) : string := fold_right String.append "" pieces.

(** The text deltas of the lines of a body. *)
Definition deltas (lines : list Line) : list string :=
  omap (fun l => match l with
                 | Payload (Json j) => match delta j with Ok c => Some c | Raise _ => None end
                 | _ => None
                 end) lines.

(** What has been printed since the newest event that is not a print, as
    one text. *)
Fixpoint echoed (t : list Event) : string :=
  match t with
  | Print s :: t' => echoed t' +:+ s
  | _ => ""
  end.

(** The lines that end the interactive loop. *)
Definition leaves (line : string) : bool :=
  bool_decide (lower (strip line) = "exit") || bool_decide (lower (strip line) = "quit").

Definition has_image (m : ChatMessage) : bool :=
  match images m with Some _ => true | None => false end.

(** How many messages of a conversation carry an image. *)
Definition images_sent (ms : list ChatMessage) : nat :=
  length (List.filter has_image ms).

(** The history that can be loaded holds no image. *)
Definition plain_history (json_load : string -> string + list ChatMessage) : Prop :=
  forall text ms, json_load text = inr ms -> images_sent ms = 0.

(** The commands executed, oldest first. *)
Definition executed (t : list Event) : list string :=
  rev (omap (fun e => match e with Exec cmd => Some cmd | _ => None end) t).

(** The conversations posted, oldest first. *)
Definition posted (t : list Event) : list (list ChatMessage) :=
  rev (omap (fun e => match e with Post _ msgs => Some msgs | _ => None end) t).

(** The texts printed, oldest first. *)
Definition printed (t : list Event) : list string :=
  rev (omap (fun e => match e with Print s => Some s | _ => None end) t).

(** The worlds of one turn of the execution loop (lines 205-219): after
    the command was run, after its failure was reported, and the debug
    call that an accepted debug round makes. *)
Definition after_run (env : Env) (run_command confirm : string) (w : World) : World :=
  snd (subprocess_run env run_command
         (snd (log (Input ExecConfirm (exec_prompt run_command) confirm) w))).

Definition after_failure (env : Env) (run_command confirm : string) (w : World) : World :=
  let result := shell env (runs w) in
  snd (print (NL +:+ "Error: " +:+ str_e result +:+ NL +:+ "Stderr:" +:+ NL
                +:+ stderr result +:+ NL)
         (after_run env run_command confirm w)).

Definition debug_call (env : Env) (model run_command confirm debug_confirm : string)
    (w : World) : res (option string) * World :=
  call_ollama_api_stream env
    (messages w ++ [correction_request (stderr (shell env (runs w)))])%list
    model default_max_retries
    (snd (print (NL +:+ "Debugging: ")
            (snd (log (Input DebugConfirm debug_prompt debug_confirm)
                    (after_failure env run_command confirm w))))).

(** The run-command call of lines 193-194, from the world the save left. *)
Definition run_call (env : Env) (model filename language run_confirm : string)
    (w : World) : res (option string) * World :=
  call_ollama_api_stream env (run_messages filename language) model default_max_retries
    (snd (print (NL +:+ "Generating run command: ")
            (snd (log (Input RunConfirm (run_prompt language) run_confirm) w)))).

(** Lines 166-167. *)
Definition flow_language (ai_response : string) : string :=
  if truthy_opt (extract_language ai_response)
  then default "" (extract_language ai_response) else "python".

(** The worlds of one turn of the interactive loop (lines 125-153): after
    the line was read, after a [/load], after the user's message went
    into the conversation, and the call that the turn makes. *)
Definition after_line (line : string) (w : World) : World :=
  snd (log (Input YouPrompt (NL +:+ "You: ") line) w).

Definition after_load (json_load : string -> string + list ChatMessage) (line : string)
    (w : World) : World :=
  snd ((let* loaded := load_history json_load in
        if is_nil loaded then ret tt
        else extend_messages loaded ;; print ("Chat history loaded." +:+ NL))
         (after_line line w)).

Definition after_user_message (image : option string) (line : string) (w : World) : World :=
  snd (print (NL +:+ "AI: ")
         (snd (append_user_message interactive_note image (strip line) (after_line line w)))).

(** [args.image] after the turn. *)
Definition image_left (image : option string) (line : string) (w : World) : option string :=
  match fst (append_user_message interactive_note image (strip line) (after_line line w)) with
  | Ok true => None
  | _ => image
  end.

Definition turn_call (env : Env) (args : Args) (image : option string) (line : string)
    (w : World) : res (option string) * World :=
  call_ollama_api_stream env (messages (after_user_message image line w))
    (arg_model args) default_max_retries (after_user_message image line w).

(** ** Further sample runs *)

Module Sample2.

(** A directory holding a small image and an empty one. *)
Definition fs_images : Fs.t :=
  {| Fs.dirs := ∅; Fs.files := {[ "cat.png" := "Man"; "empty.png" := "" ]} |}.

Definition studio : World :=
  {| fs := fs_images; file_counter := 1; messages := [system_message];
     posts := 0; runs := 0; trace := [] |}.

(** The endpoint answers every request with a text without code. *)
Definition env_chat : Env :=
  {| net := fun _ => Stream [chunk "It is "; Blank; chunk "a cat."] None;
     shell := fun _ => boom;
     shell_fs := fun _ f => f |}.

(** Two failures, the second in the middle of the body, then an answer. *)
Definition env_flaky : Env :=
  {| net := fun n => match n with
                     | 0 => TransportError "timed out"
                     | 1 => Stream [chunk "par"] (Some "connection reset")
                     | _ => Stream [chunk "It is "; Blank; chunk "a cat."] None
                     end;
     shell := fun _ => boom;
     shell_fs := fun _ f => f |}.



(** A serialisation that tells the empty conversation from the others and
    reads back the one with the system message alone. *)
Definition dump1 (ms : list ChatMessage) : string :=
  if is_nil ms then "[]" else "[{...}]".
Definition load1 (text : string) : string + list ChatMessage :=
  if bool_decide (text = "[]") then inr []
  else if bool_decide (text = "[{...}]") then inr [system_message]
  else inl "Expecting value: line 1 column 1 (char 0)".

Definition args_save : Args :=
  {| arg_model := "gemma3:latest"; arg_prompt := None;
     arg_load_history := false; arg_save_history := true |}.


End Sample2.

#[local] Arguments String.append !_ _ / : simpl nomatch.
#[local] Arguments Ascii.eqb : simpl never.

(** ** Facts about text *)

Section TextFacts.

Lemma append_assoc (a b c : string) : (a +:+ b) +:+ c = a +:+ b +:+ c.
Proof. induction a as [|x a IH]; simpl; [reflexivity | f_equal; exact IH]. Qed.

Lemma append_nil_r (a : string) : a +:+ "" = a.
Proof. induction a as [|x a IH]; simpl; [reflexivity | f_equal; exact IH]. Qed.

Lemma length_append (a b : string) :
  String.length (a +:+ b) = String.length a + String.length b.
Proof. induction a as [|x a IH]; simpl; [reflexivity | f_equal; exact IH]. Qed.

Lemma chop_app (p s : string) : chop p (p +:+ s) = Some s.
Proof.
  induction p as [|x p IH]; simpl; [reflexivity |].
  now rewrite Ascii.eqb_refl.
Qed.

Lemma chop_Some (p s r : string) : chop p s = Some r -> s = p +:+ r.
Proof.
  revert s; induction p as [|x p IH]; intros s; simpl.
  - now intros [= ->].
  - destruct s as [|y s]; [discriminate |].
    destruct (Ascii.eqb_spec x y) as [-> | _]; [| discriminate].
    intros H. now rewrite (IH _ H).
Qed.

(** A failed prefix test is decided within the first [length p] characters. *)
Lemma chop_None_app (p s r : string) :
  chop p s = None -> String.length p <= String.length s -> chop p (s +:+ r) = None.
Proof.
  revert s; induction p as [|x p IH]; intros s; simpl; [discriminate |].
  destruct s as [|y s]; simpl; [lia |].
  destruct (x =? y)%char; [| reflexivity].
  intros H Hlen. apply IH; [exact H | lia].
Qed.

Lemma first_at_cons (p a : string) (c : ascii) :
  first_at p (String c a) = true ->
  chop p (String c a +:+ p) = None /\ first_at p a = true.
Proof.
  change (first_at p (String c a))
    with (match chop p (String c a +:+ p) with
          | Some _ => false
          | None => first_at p a
          end).
  destruct (chop p (String c a +:+ p)); [discriminate | now split].
Qed.

(** What [first_at] says: [p] occurs in [a +:+ p] only at the end. *)
Lemma first_at_spec (p a x y : string) :
  first_at p a = true -> a +:+ p = x +:+ p +:+ y -> x = a.
Proof.
  revert x; induction a as [|c a IH]; intros x Hf He.
  - destruct x as [|d x]; [reflexivity |].
    apply (f_equal String.length) in He.
    simpl in He. rewrite !length_append in He. simpl in He. lia.
  - apply first_at_cons in Hf as [Hc Hf].
    destruct x as [|d x].
    + change (String c a +:+ p = p +:+ y) in He.
      rewrite He, chop_app in Hc. discriminate.
    + simpl in He. injection He as -> He. f_equal. now apply IH.
Qed.

Lemma first_at_nl (a : string) (c : ascii) :
  first_at NL (String c a) = true -> (c =? nl)%char = false /\ first_at NL a = true.
Proof.
  intros H. apply first_at_cons in H as [Hc Hf]. split; [| exact Hf].
  unfold NL in Hc. simpl in Hc. rewrite Ascii.eqb_sym.
  destruct (nl =? c)%char; [discriminate | reflexivity].
Qed.

End TextFacts.

(** ** Facts about the matcher *)

Section ReFacts.
Import Re.
#[local] Arguments match_here : simpl never.
#[local] Arguments search : simpl never.

Lemma match_lit (d : bool) (p : string) (r : regex) (s : string) :
  match_here d (lit p ++ r)%list s
  = match chop p s with
    | Some s' => match_here d r s'
    | None => None
    end.
Proof.
  revert s; induction p as [|x p IH]; intros s; [reflexivity |].
  destruct s as [|y s]; [reflexivity |].
  change (match_here d (lit (String x p) ++ r)%list (String y s))
    with (if (y =? x)%char then match_here d (lit p ++ r)%list s else None).
  simpl. rewrite Ascii.eqb_sym. destruct (x =? y)%char; [apply IH | reflexivity].
Qed.

Lemma match_lazy (d : bool) (r : regex) (s : string) :
  match_here d (LazyAny :: r) s
  = match match_here d r s with
    | Some gs => Some ("" :: gs)
    | None =>
        match s with
        | String x s' =>
            if dot d x then
              match match_here d (LazyAny :: r) s' with
              | Some (g :: gs) => Some (String x g :: gs)
              | _ => None
              end
            else None
        | "" => None
        end
    end.
Proof. destruct s; reflexivity. Qed.

Lemma search_step (d : bool) (r : regex) (s : string) :
  search d r s
  = match match_here d r s with
    | Some gs => Some gs
    | None => match s with String _ s' => search d r s' | "" => None end
    end.
Proof. destruct s; reflexivity. Qed.

Lemma dots_dotall (a : string) : dots true a = true.
Proof. induction a as [|c a IH]; simpl; [reflexivity | exact IH]. Qed.

Lemma dots_no_nl (d : bool) (a : string) : first_at NL a = true -> dots d a = true.
Proof.
  induction a as [|c a IH]; intros H; simpl; [reflexivity |].
  apply first_at_nl in H as [Hc Hf]. rewrite (IH Hf).
  unfold dot. rewrite Hc. now destruct d.
Qed.

(** A lazy group followed by the literal [p] takes the text up to the first
    [p] after which the rest of the pattern matches. *)
Lemma lazy_found (d : bool) (p : string) (r : regex) (a b : string) (gs : list string) :
  first_at p a = true -> dots d a = true ->
  match_here d (lit p ++ r)%list (p +:+ b) = Some gs ->
  match_here d (LazyAny :: lit p ++ r)%list (a +:+ p +:+ b) = Some (a :: gs).
Proof.
  intros Hf Hd Hm. induction a as [|c a IH].
  - simpl. rewrite match_lazy, Hm. reflexivity.
  - apply first_at_cons in Hf as [Hc Hf].
    simpl in Hd. apply andb_prop in Hd as [Hdc Hd].
    rewrite match_lazy, match_lit.
    assert (Hn : chop p (String c a +:+ p +:+ b) = None).
    { rewrite <- append_assoc. apply chop_None_app; [exact Hc |].
      rewrite length_append. lia. }
    rewrite Hn. simpl. rewrite Hdc.
    change (match_here d (LazyAny :: (lit p ++ r)%list) (a +:+ p +:+ b))
      with (match_here d (LazyAny :: lit p ++ r)%list (a +:+ p +:+ b)).
    rewrite (IH Hf Hd). reflexivity.
Qed.

(** [re.search] finds the match at the first occurrence of the pattern's
    literal head when the rest matches there. *)
Lemma search_found (d : bool) (p : string) (r : regex) (pre b : string) (gs : list string) :
  first_at p pre = true ->
  match_here d (lit p ++ r)%list (p +:+ b) = Some gs ->
  search d (lit p ++ r)%list (pre +:+ p +:+ b) = Some gs.
Proof.
  intros Hf Hm. induction pre as [|c pre IH].
  - simpl. rewrite search_step, Hm. reflexivity.
  - apply first_at_cons in Hf as [Hc Hf].
    rewrite search_step, match_lit.
    assert (Hn : chop p (String c pre +:+ p +:+ b) = None).
    { rewrite <- append_assoc. apply chop_None_app; [exact Hc |].
      rewrite length_append. lia. }
    rewrite Hn. simpl. exact (IH Hf).
Qed.

End ReFacts.

Section ExtractFacts.
Import Re.
#[local] Arguments match_here : simpl never.
#[local] Arguments search : simpl never.

Lemma match_nil (d : bool) (s : string) : match_here d [] s = Some [].
Proof. reflexivity. Qed.

Lemma match_lit_app (d : bool) (p : string) (r : regex) (b : string) :
  match_here d (lit p ++ r)%list (p +:+ b) = match_here d r b.
Proof. now rewrite match_lit, chop_app. Qed.

(** The code pattern on a text whose first fence opens a block. *)
Lemma code_re_found (pre tag body rest : string) :
  first_at fence pre = true -> first_at NL tag = true -> first_at fence body = true ->
  search true code_re (pre +:+ fence +:+ tag +:+ NL +:+ body +:+ fence +:+ rest)
  = Some [tag; body].
Proof.
  intros Hpre Htag Hbody.
  change code_re
    with (lit fence ++ (LazyAny :: lit NL ++ (LazyAny :: lit fence ++ [])))%list.
  apply search_found; [exact Hpre |].
  rewrite match_lit_app.
  apply lazy_found; [exact Htag | now apply dots_no_nl |].
  rewrite match_lit_app.
  apply lazy_found; [exact Hbody | apply dots_dotall |].
  now rewrite match_lit_app, match_nil.
Qed.

(** The filename pattern on a text whose first marker is followed by a
    newline-terminated value. *)
Lemma filename_re_found (pre val rest : string) :
  first_at marker pre = true -> first_at NL val = true ->
  search false filename_re (pre +:+ marker +:+ val +:+ NL +:+ rest) = Some [val].
Proof.
  intros Hpre Hval.
  change filename_re with (lit marker ++ (LazyAny :: lit NL ++ []))%list.
  apply search_found; [exact Hpre |].
  rewrite match_lit_app.
  apply lazy_found; [exact Hval | now apply dots_no_nl |].
  now rewrite match_lit_app, match_nil.
Qed.

(** Without [re.DOTALL] the lazy group before a newline stops at the first
    newline, and there must be one. *)
Lemma lazy_nl_sound (s : string) (gs : list string) :
  match_here false (LazyAny :: lit NL ++ [])%list s = Some gs ->
  exists val rest, s = val +:+ NL +:+ rest /\ gs = [val] /\ first_at NL val = true.
Proof.
  revert gs; induction s as [|c s IH]; intros gs; rewrite match_lazy, match_lit.
  - simpl. discriminate.
  - unfold NL at 1. simpl chop. rewrite Ascii.eqb_sym.
    destruct (c =? nl)%char eqn:Hc.
    + rewrite match_nil. apply Ascii.eqb_eq in Hc as ->. intros [= <-].
      exists "", s. now repeat split.
    + unfold dot. rewrite Hc. cbn [orb negb].
      destruct (match_here false (LazyAny :: lit NL ++ [])%list s) as [[|g gs']|] eqn:Hs;
        try discriminate.
      intros [= <-]. destruct (IH _ eq_refl) as (val & rest & -> & [= -> ->] & Hf).
      exists (String c val), rest. repeat split.
      change (first_at NL (String c val))
        with (match chop NL (String c val +:+ NL) with
              | Some _ => false
              | None => first_at NL val
              end).
      unfold NL at 1. simpl chop. rewrite Ascii.eqb_sym, Hc. exact Hf.
Qed.

Lemma lazy_nl_complete (mid rest : string) :
  exists g, match_here false (LazyAny :: lit NL ++ [])%list (mid +:+ NL +:+ rest) = Some [g].
Proof.
  induction mid as [|c mid [g IH]]; rewrite match_lazy, match_lit.
  - change ("" +:+ NL +:+ rest) with (NL +:+ rest). rewrite chop_app, match_nil.
    now exists "".
  - change (String c mid +:+ NL +:+ rest) with (String c (mid +:+ NL +:+ rest)).
    unfold NL at 1. simpl chop. rewrite Ascii.eqb_sym.
    destruct (c =? nl)%char eqn:Hc.
    + rewrite match_nil. now exists "".
    + unfold dot. rewrite Hc. cbn [orb negb]. rewrite IH. now exists (String c g).
Qed.

Lemma filename_re_sound (s : string) (gs : list string) :
  search false filename_re s = Some gs ->
  exists pre val rest,
    s = pre +:+ marker +:+ val +:+ NL +:+ rest /\ gs = [val]
    /\ first_at NL val = true.
Proof.
  change filename_re with (lit marker ++ (LazyAny :: lit NL ++ []))%list.
  induction s as [|c s IH]; rewrite search_step, match_lit.
  - simpl. discriminate.
  - destruct (chop marker (String c s)) as [s'|] eqn:Hchop.
    + destruct (match_here false (LazyAny :: lit NL ++ [])%list s') as [gs'|] eqn:Hm.
      * intros [= <-]. apply chop_Some in Hchop.
        destruct (lazy_nl_sound _ _ Hm) as (val & rest & -> & -> & Hf).
        exists "", val, rest. now repeat split.
      * intros H. destruct (IH H) as (pre & val & rest & -> & -> & Hf).
        exists (String c pre), val, rest. now repeat split.
    + intros H. destruct (IH H) as (pre & val & rest & -> & -> & Hf).
      exists (String c pre), val, rest. now repeat split.
Qed.

Lemma filename_re_complete (pre mid rest : string) :
  search false filename_re (pre +:+ marker +:+ mid +:+ NL +:+ rest) <> None.
Proof.
  change filename_re with (lit marker ++ (LazyAny :: lit NL ++ []))%list.
  induction pre as [|c pre IH]; rewrite search_step.
  - change ("" +:+ marker +:+ mid +:+ NL +:+ rest) with (marker +:+ mid +:+ NL +:+ rest).
    rewrite match_lit_app. destruct (lazy_nl_complete mid rest) as [g ->]. discriminate.
  - destruct (match_here false _ _); [discriminate | exact IH].
Qed.

End ExtractFacts.

Section CallFacts.
Variable env : Env.

Lemma consume_frame (lines : list Line) (full : string) (w : World) :
  exists added,
    trace (snd (consume lines full w)) = (added ++ trace w)%list
    /\ forallb silent added = true
    /\ quiet w (snd (consume lines full w))
    /\ posts (snd (consume lines full w)) = posts w.
Proof.
  revert full w; induction lines as [|l lines IH]; intros full w.
  - exists []. now repeat split.
  - destruct l as [|[| |j]]; simpl.
    + apply IH.
    + exists []. now repeat split.
    + exists []. now repeat split.
    + destruct (delta j) as [content|e].
      * unfold bind, print, log. simpl.
        destruct (IH (full +:+ content)
                    {| fs := fs w; file_counter := file_counter w;
                       messages := messages w; posts := posts w; runs := runs w;
                       trace := Print content :: trace w |})
          as (added & Ht & Hn & Hq & Hp).
        exists (added ++ [Print content])%list. simpl in *.
        rewrite Ht, <- app_assoc. split; [reflexivity |].
        split; [rewrite forallb_app, Hn; reflexivity |].
        split; [exact Hq | exact Hp].
      * exists []. now repeat split.
Qed.

Lemma consume_well_formed (lines : list Line) (full : string) (w : World) :
  forallb well_formed lines = true ->
  exists text, fst (consume lines full w) = Ok text.
Proof.
  revert full w; induction lines as [|l lines IH]; intros full w H.
  - now exists full.
  - simpl in H. apply andb_prop in H as [Hl H]. unfold well_formed in Hl.
    destruct l as [|[| |j]]; simpl in *; try discriminate.
    + now apply IH.
    + destruct (delta j) as [content|e]; [| discriminate].
      unfold bind, print, log. simpl. now apply IH.
Qed.

Lemma attempts_step (model : string) (msgs : list ChatMessage) (max_retries : Z)
    (todo : nat) (attempt : Z) (w : World) :
  attempts env model msgs max_retries (S todo) attempt w
  = let w1 := snd (post env model msgs w) in
    let retry (e : string) (w2 : World) :=
      let w3 := snd (print (retry_message attempt max_retries e) w2) in
      if (attempt =? max_retries - 1)%Z then (Ok None, w3)
      else attempts env model msgs max_retries todo (attempt + 1)%Z w3 in
    match net env (posts w) with
    | TransportError e => retry e w1
    | Stream lines broken =>
        match consume lines "" w1 with
        | (Ok full_response, w2) =>
            match broken with
            | Some e => retry e w2
            | None => (Ok (Some full_response), w2)
            end
        | (Raise e, w2) => (Raise e, w2)
        end
    end.
Proof.
  simpl. unfold bind, post. simpl. destruct (net env (posts w)) as [e|lines broken].
  - unfold print, log, ret. simpl. now destruct (attempt =? max_retries - 1)%Z.
  - destruct (consume lines "" _) as [[full|e] w2]; [| reflexivity].
    destruct broken as [e|]; [| reflexivity].
    unfold print, log, ret. simpl. now destruct (attempt =? max_retries - 1)%Z.
Qed.

Lemma quiet_refl (w : World) : quiet w w.
Proof. now repeat split. Qed.

Lemma quiet_trans (w1 w2 w3 : World) : quiet w1 w2 -> quiet w2 w3 -> quiet w1 w3.
Proof.
  intros (A1 & A2 & A3 & A4) (B1 & B2 & B3 & B4).
  repeat split; congruence.
Qed.

(** A completion call only prints and posts. *)
Lemma attempts_frame (model : string) (msgs : list ChatMessage) (max_retries : Z)
    (todo : nat) (attempt : Z) (w : World) :
  let w' := snd (attempts env model msgs max_retries todo attempt w) in
  exists added,
    trace w' = (added ++ trace w)%list /\ forallb silent added = true
    /\ quiet w w' /\ posts w <= posts w' <= posts w + todo.
Proof.
  revert attempt w; induction todo as [|todo IH]; intros attempt w; cbv zeta.
  - exists []. simpl. repeat split; lia.
  - rewrite attempts_step. cbv zeta.
    set (w1 := snd (post env model msgs w)).
    assert (H1 : trace w1 = Post model msgs :: trace w /\ quiet w w1
                 /\ posts w1 = S (posts w)) by now repeat split.
    destruct H1 as (Ht1 & Hq1 & Hp1).
    assert (Hretry : forall e w2 added2,
               trace w2 = (added2 ++ trace w)%list -> forallb silent added2 = true ->
               quiet w w2 -> posts w2 = S (posts w) ->
               let w' := snd (let w3 := snd (print (retry_message attempt max_retries e) w2) in
                              if (attempt =? max_retries - 1)%Z then (Ok None, w3)
                              else attempts env model msgs max_retries todo (attempt + 1)%Z w3) in
               exists added,
                 trace w' = (added ++ trace w)%list /\ forallb silent added = true
                 /\ quiet w w' /\ posts w <= posts w' <= posts w + S todo).
    { intros e w2 added2 Ht2 Hn2 Hq2 Hp2. cbv zeta.
      set (w3 := snd (print (retry_message attempt max_retries e) w2)).
      assert (H3 : trace w3 = Print (retry_message attempt max_retries e) :: trace w2
                   /\ quiet w2 w3 /\ posts w3 = posts w2) by now repeat split.
      destruct H3 as (Ht3 & Hq3 & Hp3).
      destruct (attempt =? max_retries - 1)%Z.
      - exists (Print (retry_message attempt max_retries e) :: added2). cbn [snd].
        rewrite Ht3, Ht2. repeat split; try (apply (quiet_trans _ _ _ Hq2 Hq3)); try lia.
        exact Hn2.
      - destruct (IH (attempt + 1)%Z w3) as (added & Ht & Hn & Hq & Hp).
        exists (added ++ Print (retry_message attempt max_retries e) :: added2)%list.
        rewrite Ht, Ht3, Ht2, <- List.app_assoc. simpl.
        repeat split; try (apply (quiet_trans _ _ _ (quiet_trans _ _ _ Hq2 Hq3) Hq)); try lia.
        rewrite forallb_app, Hn. exact Hn2. }
    destruct (net env (posts w)) as [e|lines broken].
    + apply (Hretry e w1 [Post model msgs]); auto.
    + destruct (consume_frame lines "" w1) as (added1 & Htc & Hnc & Hqc & Hpc).
      destruct (consume lines "" w1) as [[full|e] w2]; cbn [snd fst] in *.
      * destruct broken as [e|].
        -- apply (Hretry e w2 (added1 ++ [Post model msgs])%list).
           ++ rewrite Htc, Ht1, <- List.app_assoc. reflexivity.
           ++ rewrite forallb_app, Hnc. reflexivity.
           ++ apply (quiet_trans _ _ _ Hq1 Hqc).
           ++ lia.
        -- exists (added1 ++ [Post model msgs])%list. cbn [snd].
           rewrite Htc, Ht1, <- List.app_assoc.
           repeat split; try (apply (quiet_trans _ _ _ Hq1 Hqc)); try lia.
           rewrite forallb_app, Hnc. reflexivity.
      * exists (added1 ++ [Post model msgs])%list. cbn [snd].
        rewrite Htc, Ht1, <- List.app_assoc.
        repeat split; try (apply (quiet_trans _ _ _ Hq1 Hqc)); try lia.
        rewrite forallb_app, Hnc. reflexivity.
Qed.

Lemma consume_malformed (pre rest : list Line) (l : Line) (e : exn) (full : string)
    (w : World) :
  forallb well_formed pre = true -> line_error l = Some e ->
  fst (consume (pre ++ l :: rest)%list full w) = Raise e.
Proof.
  intros H He. revert full w; induction pre as [|l' pre IH]; intros full w.
  - destruct l as [|[| |j]]; simpl in *; try congruence.
    destruct (delta j) as [content|e']; simpl; congruence.
  - simpl in H. apply andb_prop in H as [Hl H]. unfold well_formed in Hl.
    destruct l' as [|[| |j]]; simpl in *; try discriminate.
    + now apply IH.
    + destruct (delta j) as [content|e']; [| discriminate].
      unfold bind, print, log. simpl. now apply IH.
Qed.

(** One attempt that fails at the transport level: the handler prints and
    either gives up (last attempt) or goes on. *)
Lemma attempts_failed_step (model : string) (msgs : list ChatMessage)
    (max_retries : Z) (todo : nat) (attempt : Z) (w : World) :
  transport_failure (net env (posts w)) = true ->
  exists w3,
    posts w3 = S (posts w) /\
    attempts env model msgs max_retries (S todo) attempt w
    = if (attempt =? max_retries - 1)%Z then (Ok None, w3)
      else attempts env model msgs max_retries todo (attempt + 1)%Z w3.
Proof.
  intros Hfail. rewrite attempts_step. cbv zeta.
  set (w1 := snd (post env model msgs w)).
  destruct (net env (posts w)) as [e|lines [e|]]; simpl in Hfail; try discriminate.
  - eexists. split; [| reflexivity]. reflexivity.
  - destruct (consume_well_formed lines "" w1 Hfail) as [text Htext].
    destruct (consume_frame lines "" w1) as (_ & _ & _ & _ & Hp).
    destruct (consume lines "" w1) as [[full|e'] w2]; cbn [fst snd] in *; [| discriminate].
    eexists. split; [| reflexivity]. cbn [snd print log posts]. exact Hp.
Qed.

Lemma attempts_all_fail (model : string) (msgs : list ChatMessage) (max_retries : Z)
    (todo : nat) (attempt : Z) (w : World) :
  (attempt + Z.of_nat todo = max_retries)%Z ->
  (forall i, i < todo -> transport_failure (net env (posts w + i)) = true) ->
  fst (attempts env model msgs max_retries todo attempt w) = Ok None
  /\ posts (snd (attempts env model msgs max_retries todo attempt w)) = posts w + todo.
Proof.
  revert attempt w; induction todo as [|todo IH]; intros attempt w Hmax Hfail.
  - simpl. split; [reflexivity | lia].
  - destruct (attempts_failed_step model msgs max_retries todo attempt w) as (w3 & Hp3 & ->).
    { rewrite <- (Nat.add_0_r (posts w)). apply Hfail. lia. }
    destruct (Z.eqb_spec attempt (max_retries - 1)) as [Heq | Hne].
    + cbn [fst snd]. split; [reflexivity | lia].
    + destruct (IH (attempt + 1)%Z w3) as [Hr Hp]; [lia | |].
      * intros i Hi. rewrite Hp3.
        replace (S (posts w) + i) with (posts w + S i) by lia. apply Hfail. lia.
      * split; [exact Hr | lia].
Qed.

Lemma call_all_fail (msgs : list ChatMessage) (model : string) (max_retries : Z)
    (w : World) :
  (forall i, i < Z.to_nat max_retries ->
             transport_failure (net env (posts w + i)) = true) ->
  fst (call_ollama_api_stream env msgs model max_retries w) = Ok None
  /\ posts (snd (call_ollama_api_stream env msgs model max_retries w))
     = posts w + Z.to_nat max_retries.
Proof.
  intros Hfail. unfold call_ollama_api_stream.
  destruct (Z.le_gt_cases 0 max_retries) as [Hpos | Hneg].
  - apply attempts_all_fail; [lia | exact Hfail].
  - assert (Z.to_nat max_retries = 0) as -> by lia. cbn. split; [reflexivity | lia].
Qed.

Lemma attempts_malformed (model : string) (msgs : list ChatMessage) (max_retries : Z)
    (k todo : nat) (attempt : Z) (w : World) (pre rest : list Line) (l : Line)
    (e : exn) (broken : option string) :
  k < todo ->
  (attempt + Z.of_nat todo = max_retries)%Z ->
  (forall i, i < k -> transport_failure (net env (posts w + i)) = true) ->
  net env (posts w + k) = Stream (pre ++ l :: rest)%list broken ->
  forallb well_formed pre = true -> line_error l = Some e ->
  fst (attempts env model msgs max_retries todo attempt w) = Raise e
  /\ posts (snd (attempts env model msgs max_retries todo attempt w)) = posts w + S k.
Proof.
  revert todo attempt w; induction k as [|k IH];
    intros todo attempt w Hk Hmax Hfail Hnet Hpre He.
  - destruct todo as [|todo]; [lia |].
    rewrite attempts_step. cbv zeta. rewrite Nat.add_0_r in Hnet. rewrite Hnet.
    set (w1 := snd (post env model msgs w)).
    pose proof (consume_malformed pre rest l e "" w1 Hpre He) as Hc.
    destruct (consume_frame (pre ++ l :: rest)%list "" w1) as (_ & _ & _ & _ & Hp).
    destruct (consume _ "" w1) as [[full|e'] w2]; cbn [fst snd] in *; [discriminate |].
    injection Hc as ->. split; [reflexivity |]. rewrite Hp. cbn. lia.
  - destruct todo as [|todo]; [lia |].
    destruct (attempts_failed_step model msgs max_retries todo attempt w) as (w3 & Hp3 & ->).
    { rewrite <- (Nat.add_0_r (posts w)). apply Hfail. lia. }
    destruct (Z.eqb_spec attempt (max_retries - 1)) as [Heq | Hne]; [lia |].
    destruct (IH todo (attempt + 1)%Z w3) as [Hr Hp]; try lia; auto.
    + intros i Hi. rewrite Hp3.
      replace (S (posts w) + i) with (posts w + S i) by lia. apply Hfail. lia.
    + rewrite Hp3. replace (S (posts w) + k) with (posts w + S k) by lia. exact Hnet.
    + split; [exact Hr | lia].
Qed.

End CallFacts.

Lemma extends_refl (t : list Event) : extends t t.
Proof. now exists []. Qed.

Lemma extends_cons (t t' : list Event) (e : Event) : extends t t' -> extends t (e :: t').
Proof. intros [added ->]. now exists (e :: added). Qed.

Lemma extends_app (t t' : list Event) (added : list Event) :
  extends t t' -> extends t (added ++ t')%list.
Proof. intros [added' ->]. exists (added ++ added')%list. now rewrite List.app_assoc. Qed.

Lemma extends_trans (t1 t2 t3 : list Event) :
  extends t1 t2 -> extends t2 t3 -> extends t1 t3.
Proof. intros [a ->] [b ->]. exists (b ++ a)%list. now rewrite List.app_assoc. Qed.


#[local] Hint Resolve extends_refl extends_cons extends_app : core.

Lemma gated_silent (added t : list Event) :
  forallb silent added = true -> gated (added ++ t)%list = gated t.
Proof.
  induction added as [|e added IH]; intros H; [reflexivity |].
  simpl in H. apply andb_prop in H as [He H].
  destruct e; try discriminate; simpl; auto.
Qed.

Lemma no_decline_silent (added t : list Event) :
  forallb silent added = true -> no_decline (added ++ t)%list = no_decline t.
Proof.
  induction added as [|e added IH]; intros H; [reflexivity |].
  simpl in H. apply andb_prop in H as [He H].
  destruct e; try discriminate; simpl; auto.
Qed.

Lemma decline_final_silent (added t : list Event) :
  forallb silent added = true -> no_decline t = true ->
  decline_final (added ++ t)%list = true.
Proof.
  intros Hs Ht. destruct added as [|e added]; simpl.
  - destruct t as [|e t]; [reflexivity |]. simpl in Ht. now apply andb_prop in Ht as [_ Ht].
  - simpl in Hs. apply andb_prop in Hs as [_ Hs]. now rewrite no_decline_silent.
Qed.

Lemma no_decline_final (t : list Event) : no_decline t = true -> decline_final t = true.
Proof.
  destruct t as [|e t]; [reflexivity |]. simpl. intros H.
  now apply andb_prop in H as [_ H].
Qed.

(** Gated segments compose: a gated segment never ends on an execution. *)
Lemma gated_app (a1 a0 : list Event) :
  gated a1 = true -> gated a0 = true -> gated (a1 ++ a0)%list = true.
Proof.
  intros H1 H0. induction a1 as [|e a1 IH]; [exact H0 |].
  destruct e; simpl in *; auto.
  apply andb_prop in H1 as [Hc H1]. rewrite (IH H1), andb_true_r.
  destruct a1 as [|[[]| | | | | |] a1]; try discriminate. exact Hc.
Qed.

Lemma decline_final_app (a1 a0 : list Event) :
  decline_final a1 = true -> no_decline a0 = true ->
  decline_final (a1 ++ a0)%list = true.
Proof.
  intros H1 H0. destruct a1 as [|e a1]; simpl.
  - now apply no_decline_final.
  - unfold no_decline. rewrite forallb_app. simpl in H1. unfold no_decline in H1, H0.
    now rewrite H1, H0.
Qed.

Ltac use_trues :=
  repeat match goal with
         | H : ?x = true |- context [?x] => rewrite H
         end.

Ltac trace_ok :=
  solve [ intros; cbn; use_trues; cbn;
          rewrite ?bool_decide_eq_true_2 by reflexivity; cbn; auto ].

Ltac rest_ok := solve [ intros ? [= <-]; simpl; lia ].

(** The events between the older trace [t] and the newer trace [l]. *)
Ltac prefix_of l t :=
  lazymatch l with
  | t => constr:(@nil Event)
  | (?e :: ?r) => let p := prefix_of r t in constr:(e :: p)
  | (?a ++ ?r)%list => let p := prefix_of r t in constr:((a ++ p)%list)
  end.

Ltac find_added :=
  lazymatch goal with
  | |- exists added, ?l = (added ++ ?t)%list /\ _ =>
      let p := prefix_of l t in exists p
  end.

(** The added events are gated and hold no decline but the newest. *)
Ltac added_ok :=
  find_added; split; [ reflexivity | split; trace_ok ].

(** The same, when the added events start with those of a completion
    call, silent by [Hs]. *)
Ltac added_by Hs :=
  find_added; split; [ rewrite <- ?List.app_assoc; reflexivity | ];
  split;
  [ rewrite ?gated_silent by exact Hs; trace_ok
  | first [ rewrite no_decline_silent by exact Hs; trace_ok
          | apply decline_final_silent; [ exact Hs | trace_ok ] ] ].

Section LoopFacts.
Variable env : Env.

Lemma call_step (msgs : list ChatMessage) (model : string) (w : World) :
  let out := call_ollama_api_stream env msgs model default_max_retries w in
  exists added,
    trace (snd out) = (added ++ trace w)%list /\ forallb silent added = true
    /\ quiet w (snd out) /\ posts w <= posts (snd out).
Proof.
  cbv zeta. unfold call_ollama_api_stream.
  destruct (attempts_frame env model msgs default_max_retries (Z.to_nat default_max_retries) 0 w) as (added & Ht & Hn & Hq & Hp).
  exists added. repeat split; try apply Hq; auto. lia.
Qed.

Lemma exec_loop_step (model run_command confirm : string) (stdin1 : list string) (w : World) :
  exec_loop env model run_command (confirm :: stdin1) w
  = let w1 := snd (log (Input ExecConfirm (exec_prompt run_command) confirm) w) in
    if negb (affirmative confirm) then (Ok stdin1, w1) else
    let result := shell env (runs w) in
    let w2 := snd (subprocess_run env run_command w1) in
    if (returncode result =? 0)%Z then
      (Ok stdin1,
       snd (print (NL +:+ "Success! Output:" +:+ NL +:+ " " +:+ stdout result +:+ NL) w2))
    else
      let w3 := snd (print (NL +:+ "Error: " +:+ str_e result +:+ NL +:+ "Stderr:" +:+ NL
                              +:+ stderr result +:+ NL) w2) in
      match stdin1 with
      | [] => (Raise EOFError, snd (log (InputEOF DebugConfirm debug_prompt) w3))
      | debug_confirm :: stdin2 =>
          let w4 := snd (log (Input DebugConfirm debug_prompt debug_confirm) w3) in
          if negb (affirmative debug_confirm) then (Ok stdin2, w4) else
          let w5 := snd (print (NL +:+ "Debugging: ") w4) in
          match call_ollama_api_stream env
                  (messages w ++ [correction_request (stderr result)])%list model default_max_retries w5 with
          | (Raise e, w6) => (Raise e, w6)
          | (Ok debug_response, w6) =>
              if truthy_opt debug_response then
                let debug_text := default "" debug_response in
                let w7 := snd (append_message (msg assistant debug_text) w6) in
                if negb (truthy_opt (extract_command debug_text)) then
                  (Ok stdin2, snd (print (NL +:+ "No fix provided." +:+ NL) w7))
                else exec_loop env model (default "" (extract_command debug_text)) stdin2 w7
              else exec_loop env model run_command stdin2 w6
          end
      end.
Proof.
  cbn [exec_loop]. unfold bind. cbn [log snd fst].
  destruct (negb (affirmative confirm)); [reflexivity |].
  cbn [subprocess_run runs]. cbv zeta.
  destruct (returncode (shell env (runs w)) =? 0)%Z; [reflexivity |].
  cbn [print log]. destruct stdin1 as [|debug_confirm stdin2]; [reflexivity |].
  cbn [log snd]. destruct (negb (affirmative debug_confirm)); [reflexivity |].
  cbn [get_messages messages].
  destruct (call_ollama_api_stream env _ model default_max_retries _) as [[debug_response|e] w6];
    [| reflexivity].
  destruct (truthy_opt debug_response); [| reflexivity].
  cbn [append_message extend_messages].
  destruct (negb (truthy_opt (extract_command (default "" debug_response))));
    reflexivity.
Qed.

Lemma summary_via (stdin stdin2 : list string) (w wm : World)
    (out : res (list string) * World) (replies0 : list string) :
  messages wm = (messages w ++ map (msg assistant) replies0)%list ->
  forallb truthy replies0 = true ->
  runs w + length replies0 <= runs wm ->
  posts w <= posts wm ->
  (exists added0,
      trace wm = (added0 ++ trace w)%list
      /\ gated added0 = true /\ no_decline added0 = true) ->
  length stdin2 <= length stdin ->
  summary stdin2 wm out -> summary stdin w out.
Proof.
  intros Hm Ht Hr Hp (added0 & He0 & Hg0 & Hd0) Hl
         ((replies & Hm' & Ht' & Hr') & Hp' & (added1 & He1 & Hg1 & Hd1) & Hl').
  repeat split.
  - exists (replies0 ++ replies)%list. rewrite Hm', Hm, map_app, <- List.app_assoc.
    split; [reflexivity |]. rewrite forallb_app, Ht, Ht', length_app. split; [reflexivity | lia].
  - lia.
  - exists (added1 ++ added0)%list. rewrite He1, He0, List.app_assoc.
    split; [reflexivity |]. split; [now apply gated_app | now apply decline_final_app].
  - intros rest Hrest. specialize (Hl' rest Hrest). lia.
Qed.

(** A world reached without touching the conversation ends the flow. *)
Lemma summary_end (stdin : list string) (w w' : World) (r : res (list string)) :
  messages w' = messages w -> runs w <= runs w' -> posts w <= posts w' ->
  (exists added,
      trace w' = (added ++ trace w)%list
      /\ gated added = true /\ decline_final added = true) ->
  (forall rest, r = Ok rest -> length rest <= length stdin) ->
  summary stdin w (r, w').
Proof.
  intros Hm Hr Hp Hg Hl. repeat split; cbn [fst snd]; auto.
  exists []. rewrite Hm, app_nil_r. repeat split. simpl. lia.
Qed.


Lemma exec_loop_summary (model : string) (n : nat) :
  forall (stdin : list string) (run_command : string) (w : World),
    length stdin <= n ->
    summary stdin w (exec_loop env model run_command stdin w).
Proof.
  induction n as [|n IH]; intros stdin run_command w Hn.
  - destruct stdin; [| simpl in Hn; lia].
    apply summary_end; cbn; auto; try discriminate. added_ok.
  - destruct stdin as [|confirm stdin1].
    { apply summary_end; cbn; auto; try discriminate. added_ok. }
    rewrite exec_loop_step. cbv zeta.
    destruct (affirmative confirm) eqn:Hconfirm; cbn [negb].
    2:{ apply summary_end; cbn; auto; try rest_ok. added_ok. }
    destruct (returncode (shell env (runs w)) =? 0)%Z.
    { apply summary_end; cbn; auto; try rest_ok. added_ok. }
    destruct stdin1 as [|debug_confirm stdin2].
    { apply summary_end; cbn; auto; try discriminate. added_ok. }
    destruct (affirmative debug_confirm) eqn:Hdebug; cbn [negb].
    2:{ apply summary_end; cbn; auto; try rest_ok. added_ok. }
    match goal with
    | |- context [call_ollama_api_stream env ?ms model default_max_retries ?w5] =>
        destruct (call_step ms model w5) as (added & Ht & Hnet & (Hq1 & Hq2 & Hq3 & Hq4) & Hp);
        destruct (call_ollama_api_stream env ms model default_max_retries w5) as [[debug_response|e] w6]
    end; cbn [fst snd] in *; cbn in Ht, Hq3, Hq4, Hp.
    + assert (Hinv : exists added0,
                 trace w6 = (added0 ++ trace w)%list
                 /\ gated added0 = true /\ no_decline added0 = true)
        by (rewrite Ht; added_by Hnet).
      destruct (truthy_opt debug_response) eqn:Htruthy.
      * destruct debug_response as [text|]; [| discriminate].
        change (default "" (Some text)) with text.
        cbn in Htruthy.
        destruct (truthy_opt (extract_command text)); cbn [negb].
        -- apply (summary_via _ stdin2 _ (snd (append_message (msg assistant text) w6))
                    _ [text]); cbn; auto; try lia.
           ++ now rewrite Hq3.
           ++ now rewrite Htruthy.
           ++ apply IH. simpl in Hn. lia.
        -- apply (summary_via _ stdin2 _ (snd (append_message (msg assistant text) w6))
                    _ [text]); cbn; auto; try lia.
           ++ now rewrite Hq3.
           ++ now rewrite Htruthy.
           ++ apply summary_end; cbn; auto; try rest_ok. added_ok.
      * apply (summary_via _ stdin2 _ w6 _ []); cbn; auto; try lia.
        -- now rewrite Hq3, app_nil_r.
        -- apply IH. simpl in Hn. lia.
    + apply summary_end; cbn; auto; try lia; try discriminate.
      rewrite Ht. added_by Hnet.
Qed.

End LoopFacts.

Section FlowFacts.
Variable env : Env.

Lemma run_flow_summary (model filename language : string) (stdin : list string) (w : World) :
  summary stdin w (run_flow env model filename language stdin w).
Proof.
  destruct stdin as [|run_confirm stdin1].
  { apply summary_end; cbn; auto; try discriminate. added_ok. }
  cbn [run_flow]. unfold bind. cbn [log fst snd].
  destruct (affirmative run_confirm) eqn:Hrun; cbn [negb].
  2:{ apply summary_end; cbn; auto; try rest_ok. added_ok. }
  cbn [print log].
  match goal with
  | |- context [call_ollama_api_stream env ?ms model default_max_retries ?w2] =>
      destruct (call_step env ms model w2) as (added & Ht & Hs & (Hq1 & Hq2 & Hq3 & Hq4) & Hp);
      destruct (call_ollama_api_stream env ms model default_max_retries w2) as [[response|e] w3]
  end; cbn [fst snd] in *; cbn in Ht, Hq3, Hq4, Hp.
  - assert (Hinv : exists added0,
               trace w3 = (added0 ++ trace w)%list
               /\ gated added0 = true /\ no_decline added0 = true)
      by (rewrite Ht; added_by Hs).
    destruct (truthy_opt response); cbn [negb].
    2:{ apply summary_end; cbn; auto; try lia; try rest_ok.
        destruct Hinv as (added0 & He & Hg & Hd). exists added0.
        repeat split; auto using no_decline_final. }
    destruct (truthy_opt (extract_command (default "" response))); cbn [negb].
    + apply (summary_via _ stdin1 _ w3 _ []); cbn; auto; try lia.
      * now rewrite Hq3, app_nil_r.
      * apply (exec_loop_summary env model (length stdin1)). lia.
    + apply (summary_via _ stdin1 _ w3 _ []); cbn; auto; try lia.
      * now rewrite Hq3, app_nil_r.
      * apply summary_end; cbn; auto; try rest_ok. added_ok.
  - apply summary_end; cbn; auto; try lia; try discriminate.
    rewrite Ht. added_by Hs.
Qed.

(** Saving touches the file system and the trace only, and adds no
    execution and no answer to the trace. *)
Lemma save_code_frame (filename code : string) (w : World) :
  let w' := snd (save_code filename code w) in
  exists added,
    trace w' = (added ++ trace w)%list /\ forallb silent added = true
    /\ messages w' = messages w /\ posts w' = posts w /\ runs w' = runs w
    /\ file_counter w' = file_counter w.
Proof.
  cbv zeta. unfold save_code, bind, fs_op. cbn [log fst snd].
  destruct (Fs.makedirs (Fs.dirname filename) _) as [[[]|e] f1]; cbn [fs set_fs].
  - destruct (Fs.write_text filename code _) as [[[]|e] f2]; cbn.
    + exists [Print (NL +:+ "Code saved to " +:+ filename +:+ NL); OpenW filename;
              MakeDirs (Fs.dirname filename)]. now repeat split.
    + exists [OpenW filename; MakeDirs (Fs.dirname filename)]. now repeat split.
  - exists [MakeDirs (Fs.dirname filename)]. now repeat split.
Qed.

Lemma choose_name_frame (filename : option string) (w : World) :
  let w' := snd (choose_name filename w) in
  trace w' = trace w /\ messages w' = messages w /\ posts w' = posts w
  /\ runs w' = runs w /\ fs w' = fs w
  /\ exists name, fst (choose_name filename w) = Ok name.
Proof.
  unfold choose_name. destruct (truthy_opt filename); cbn; repeat split; eauto.
Qed.

Lemma handle_response_summary (ai_response model : string) (stdin : list string)
    (w : World) :
  summary stdin w (handle_response env ai_response model stdin w).
Proof.
  unfold handle_response.
  destruct (extract_code_block ai_response) as [[filename language] code].
  destruct (truthy_opt code); cbn [negb].
  2:{ apply summary_end; cbn; auto; try rest_ok. added_ok. }
  unfold bind.
  destruct (choose_name_frame filename w) as (Ht1 & Hm1 & Hp1 & Hr1 & _ & name & Hname).
  destruct (choose_name filename w) as [[name'|e] w1]; cbn [fst snd] in *; [| discriminate].
  destruct (save_code_frame name' (default "" code) w1) as (added & Ht2 & Hs & Hm2 & Hp2 & Hr2 & _).
  destruct (save_code name' (default "" code) w1) as [[[]|e] w2]; cbn [fst snd] in *.
  - apply (summary_via _ stdin _ w2 _ []); cbn; auto; try lia.
    + now rewrite Hm2, Hm1, app_nil_r.
    + exists added. rewrite Ht2, Ht1. split; [reflexivity |].
      rewrite <- (app_nil_r added), gated_silent, no_decline_silent by exact Hs.
      now split.
    + apply run_flow_summary.
  - apply summary_end; cbn; auto; try lia; try discriminate.
    + congruence.
    + exists added. rewrite Ht2, Ht1. split; [reflexivity |].
      rewrite <- (app_nil_r added), gated_silent by exact Hs.
      split; [reflexivity | now apply decline_final_silent].
Qed.

End FlowFacts.

Lemma next_free_spec (fuel : nat) (f : Fs.t) (c : nat) :
  c <= next_free fuel f c <= c + fuel
  /\ (forall k, c <= k < next_free fuel f c -> Fs.exists_ f (generated_name k) = true)
  /\ (next_free fuel f c < c + fuel ->
      Fs.exists_ f (generated_name (next_free fuel f c)) = false).
Proof.
  revert c; induction fuel as [|fuel IH]; intros c; simpl.
  - repeat split; try lia.
  - destruct (Fs.exists_ f (generated_name c)) eqn:He.
    + destruct (IH (S c)) as (Hle & Hall & Hfree). repeat split; try lia.
      * intros k Hk. destruct (decide (k = c)) as [-> | Hne]; [exact He |].
        apply Hall. lia.
      * intros H. apply Hfree. lia.
    + repeat split; try lia. intros _. exact He.
Qed.

Lemma append_inj_r (a b s : string) : a +:+ s = b +:+ s -> a = b.
Proof.
  revert b; induction a as [|c a IH]; intros [|d b] H; simpl in H.
  - reflexivity.
  - apply (f_equal String.length) in H. simpl in H. rewrite length_append in H. lia.
  - apply (f_equal String.length) in H. simpl in H. rewrite length_append in H. lia.
  - injection H as -> H. f_equal. now apply IH.
Qed.

Lemma generated_name_inj (a b : nat) : generated_name a = generated_name b -> a = b.
Proof.
  unfold generated_name. intros H.
  apply (inj (String.append "generated_py_script_")) in H.
  apply append_inj_r in H. now apply (inj pretty) in H.
Qed.

(** A generated name that exists is an entry of the directory set or of
    the file map. *)
Lemma exists_generated (f : Fs.t) (k : nat) :
  Fs.exists_ f (generated_name k) = true ->
  generated_name k ∈ Fs.dirs f ∪ dom (Fs.files f).
Proof.
  unfold Fs.exists_, Fs.isdir, Fs.isfile, generated_name. simpl.
  intros H. apply orb_prop in H as [H | H].
  - apply bool_decide_eq_true in H. set_solver.
  - apply bool_decide_eq_true in H. apply elem_of_dom in H. set_solver.
Qed.

(** The search for an unused generated name always ends on one: more
    candidates are tried than the file system has entries. *)
Lemma next_free_unused (f : Fs.t) (c : nat) :
  Fs.exists_ f (generated_name (next_free (enough_fuel f) f c)) = false.
Proof.
  destruct (next_free_spec (enough_fuel f) f c) as (Hle & Hall & Hfree).
  destruct (decide (next_free (enough_fuel f) f c < c + enough_fuel f)) as [Hlt | Hge];
    [now apply Hfree |].
  exfalso.
  set (names := generated_name <$> seq c (enough_fuel f)).
  assert (Hnodup : NoDup names).
  { apply NoDup_fmap_2_strong; [| apply NoDup_seq].
    intros a b _ _. apply generated_name_inj. }
  assert (Hsub : (list_to_set names : gset string) ⊆ Fs.dirs f ∪ dom (Fs.files f)).
  { intros x Hx. apply elem_of_list_to_set, list_elem_of_fmap in Hx as (k & -> & Hk).
    apply elem_of_seq in Hk. apply exists_generated, Hall. lia. }
  apply subseteq_size in Hsub.
  rewrite size_list_to_set in Hsub by exact Hnodup.
  unfold names in Hsub. rewrite length_fmap, length_seq in Hsub.
  pose proof (size_union_alt (Fs.dirs f) (dom (Fs.files f))) as Hu.
  assert (Hd : size (dom (Fs.files f) ∖ Fs.dirs f) <= size (dom (Fs.files f)))
    by (apply subseteq_size; intros x Hx; now apply elem_of_difference in Hx as [Hx _]).
  rewrite size_dom in Hd. unfold enough_fuel in Hsub. lia.
Qed.

(** The name chosen for a reply without a directive is unused, and every
    generated name from the old counter up to it is taken. *)
Lemma auto_name_unused (w : World) :
  let out := auto_name w in
  fst out = Ok (generated_name (file_counter (snd out)))
  /\ Fs.exists_ (fs w) (generated_name (file_counter (snd out))) = false
  /\ file_counter w <= file_counter (snd out)
  /\ (forall k, file_counter w <= k < file_counter (snd out) ->
                Fs.exists_ (fs w) (generated_name k) = true).
Proof.
  cbv zeta. unfold auto_name. cbn [fst snd set_counter file_counter].
  destruct (next_free_spec (enough_fuel (fs w)) (fs w) (file_counter w)) as (Hle & Hall & _).
  repeat split; [apply next_free_unused | lia | exact Hall].
Qed.

Section SessionFacts.
Variable env : Env.
Variable json_dump : list ChatMessage -> string.
Variable json_load : string -> string + list ChatMessage.

(** The interactive loop reads a line in every turn, so it never uses up
    more iterations than there are lines, plus one. *)
Lemma interactive_total (args : Args) (fuel : nat) :
  forall (stdin : list string) (w : World),
    length stdin < fuel ->
    fst (interactive env json_dump json_load args fuel stdin w) <> Ok None.
Proof.
  induction fuel as [|fuel IH]; intros stdin w Hlen; [lia |].
  destruct stdin as [|line stdin1]; cbn [interactive]; [discriminate |].
  simpl in Hlen. unfold bind at 1. cbn [log fst snd].
  destruct (bool_decide (lower (strip line) = "exit")
            || bool_decide (lower (strip line) = "quit")).
  { unfold bind.
    destruct ((if arg_save_history args then save_history json_dump else ret tt) _)
      as [[[]|e] w1]; discriminate. }
  destruct (bool_decide (strip line = "/save")).
  { unfold bind. destruct (save_history json_dump _) as [[[]|e] w1]; [| discriminate].
    apply IH. lia. }
  destruct (bool_decide (strip line = "/load")).
  { unfold bind. destruct (load_history json_load _) as [[loaded|e] w1]; [| discriminate].
    destruct ((if is_nil loaded then ret tt else _) w1) as [[[]|e] w2]; [| discriminate].
    apply IH. lia. }
  unfold bind. cbn [append_message extend_messages print log get_messages fst snd].
  destruct (call_ollama_api_stream env _ (arg_model args) default_max_retries _)
    as [[ai_response|e] w1]; [| discriminate].
  destruct (truthy_opt ai_response); [| apply IH; lia].
  cbn [append_message extend_messages].
  match goal with
  | |- context [handle_response env ?ai ?m stdin1 ?w2] =>
      destruct (handle_response_summary env ai m stdin1 w2) as (_ & _ & _ & Hrest);
      destruct (handle_response env ai m stdin1 w2) as [[stdin2|e] w3]
  end; [| discriminate].
  apply IH. specialize (Hrest stdin2 eq_refl). lia.
Qed.

(** [main] in interactive mode ends with the user leaving or with an
    exception, never for lack of iterations. *)
Lemma main_fuel (args : Args) (stdin : list string) (w : World) :
  fst (main env json_dump json_load args stdin w) <> Ok None.
Proof.
  unfold main, bind. cbn [print log set_messages fst snd].
  destruct ((if arg_load_history args then _ else ret tt) _) as [[[]|e] w1];
    [| discriminate].
  destruct (truthy_opt (arg_prompt args)).
  - cbn [append_message extend_messages print log get_messages fst snd].
    destruct (call_ollama_api_stream env _ (arg_model args) default_max_retries _)
      as [[ai_response|e] w2]; [| discriminate].
    destruct (truthy_opt ai_response); [| discriminate].
    destruct (handle_response env _ _ stdin w2) as [[rest|e] w3]; discriminate.
  - apply interactive_total. lia.
Qed.

End SessionFacts.

(** ** What a successful save leaves behind *)





(** ** The completion client *)

(** C5: when every attempt fails at the transport level the client makes
    exactly [max_retries] attempts (none for a negative bound) and returns
    [None], which is not the empty reply of a successful call. *)
Theorem all_attempts_fail (env : Env) (msgs : list ChatMessage) (model : string)
    (max_retries : Z) (w : World) :
  (forall i, i < Z.to_nat max_retries ->
             transport_failure (net env (posts w + i)) = true) ->
  let out := call_ollama_api_stream env msgs model max_retries w in
  fst out = Ok None
  /\ posts (snd out) = posts w + Z.to_nat max_retries
  /\ ((0 <= max_retries)%Z -> Z.of_nat (posts (snd out) - posts w) = max_retries)
  /\ fst out <> Ok (Some "").
Proof.
  intros Hfail. cbv zeta.
  destruct (call_all_fail env msgs model max_retries w Hfail) as [Hr Hp].
  rewrite Hr, Hp. repeat split; [lia | discriminate].
Qed.

Lemma all_attempts_fail_witness :
  let out := call_ollama_api_stream env_down (run_messages "out/run.py" "python")
               "gemma3:latest" default_max_retries fresh in
  fst out = Ok None /\ posts (snd out) = 3.
Proof.
  destruct (all_attempts_fail env_down (run_messages "out/run.py" "python")
              "gemma3:latest" default_max_retries fresh) as (Hr & Hp & _).
  - intros i _. reflexivity.
  - split; [exact Hr | exact Hp].
Defined.

(** A successful call with an empty body returns the empty string, not
    [None]. *)
Example empty_reply_is_not_failure :
  fst (call_ollama_api_stream
         {| net := fun _ => Stream [] None; shell := fun _ => boom;
            shell_fs := fun _ f => f |}
         [] "gemma3:latest" default_max_retries fresh)
  = Ok (Some "").
Proof. reflexivity. Qed.

(** C9: a streamed line that cannot be read as the expected delta (not
    UTF-8, not JSON, or JSON of another shape) makes the call raise the
    error of that line at once: the handler of transport failures does not
    catch it, the line is not skipped, no further attempt is made and
    [None] is not returned.  A line that is not JSON raises
    [JSONDecodeError]. *)
Theorem malformed_increment_escapes (env : Env) (msgs : list ChatMessage)
    (model : string) (max_retries : Z) (w : World) (k : nat)
    (pre rest : list Line) (l : Line) (e : exn) (broken : option string) :
  k < Z.to_nat max_retries ->
  (forall i, i < k -> transport_failure (net env (posts w + i)) = true) ->
  net env (posts w + k) = Stream (pre ++ l :: rest)%list broken ->
  forallb well_formed pre = true ->
  line_error l = Some e ->
  let out := call_ollama_api_stream env msgs model max_retries w in
  fst out = Raise e /\ posts (snd out) = posts w + S k
  /\ line_error (Payload NotJson) = Some JSONDecodeError.
Proof.
  intros Hk Hfail Hnet Hpre He. cbv zeta. unfold call_ollama_api_stream.
  destruct (attempts_malformed env model msgs max_retries k (Z.to_nat max_retries) 0 w
              pre rest l e broken) as [Hr Hp]; auto. lia.
Qed.

Lemma malformed_increment_escapes_witness :
  let out := call_ollama_api_stream env_garbled (run_messages "out/run.py" "python")
               "gemma3:latest" default_max_retries fresh in
  fst out = Raise JSONDecodeError /\ posts (snd out) = 2.
Proof.
  destruct (malformed_increment_escapes env_garbled (run_messages "out/run.py" "python")
              "gemma3:latest" default_max_retries fresh 1 [chunk "pri"] [chunk "nt"]
              (Payload NotJson) JSONDecodeError None) as (Hr & Hp & _).
  - vm_compute. lia.
  - intros i Hi. assert (i = 0) as -> by lia. reflexivity.
  - reflexivity.
  - reflexivity.
  - reflexivity.
  - split; [exact Hr | exact Hp].
Defined.

(** ** The run and debug flow *)

(** C6: whatever the model, the endpoint, the shell and the user do, among
    the events that [handle_response] adds to the trace every executed
    command comes right after an affirmative answer to the question that
    shows this command, and an answer at a confirmation gate that is not
    affirmative is the last of them: the flow ends there. *)
Theorem confirmation_gates_fail_closed (env : Env) (ai_response model : string)
    (stdin : list string) (w : World) :
  let w' := snd (handle_response env ai_response model stdin w) in
  exists added,
    trace w' = (added ++ trace w)%list
    /\ gated added = true /\ decline_final added = true.
Proof.
  destruct (handle_response_summary env ai_response model stdin w)
    as (_ & _ & Hgate & _). exact Hgate.
Qed.



Section DebugRequest.
Variable env : Env.



End DebugRequest.




(** ** Extraction *)

(** The example of the specification. *)
Example extract_example :
  extract_code_block reply_bare = (Some "run.py", Some "python", Some "print(1)").
Proof. vm_compute. reflexivity. Qed.

(** A fence without a newline and a closing fence after it is no block. *)
Example extract_no_block :
  extract_code_block "use ```ls``` here" = (None, None, None).
Proof. vm_compute. reflexivity. Qed.

Lemma extract_filename_search (text : string) :
  extract_filename text
  = match Re.search false filename_re text with
    | Some (g1 :: _) => Some (strip g1)
    | _ => None
    end.
Proof.
  unfold extract_filename, extract_code_block.
  destruct (Re.search true code_re text) as [[|g1 [|g2 gs]]|]; reflexivity.
Qed.

Lemma extract_code_search (text : string) :
  (extract_language text, extract_command text)
  = match Re.search true code_re text with
    | Some (g1 :: g2 :: _) => (Some (str_or (lower (strip g1)) "python"), Some (strip g2))
    | _ => (None, None)
    end.
Proof.
  unfold extract_language, extract_command, extract_code_block.
  destruct (Re.search true code_re text) as [[|g1 [|g2 gs]]|]; reflexivity.
Qed.

(** C7: extraction is a function of the text alone, and on a text whose
    first fence opens a block (a tag up to the first newline, a body up to
    the next fence) the language and the code are those of that block,
    whatever follows it, further blocks included. *)
Theorem extract_first_fenced_block (pre tag body rest : string) :
  first_at fence pre = true -> first_at NL tag = true -> first_at fence body = true ->
  let text := pre +:+ fence +:+ tag +:+ NL +:+ body +:+ fence +:+ rest in
  (forall text', text' = text -> extract_code_block text' = extract_code_block text)
  /\ extract_language text = Some (str_or (lower (strip tag)) "python")
  /\ extract_command text = Some (strip body).
Proof.
  intros Hpre Htag Hbody text. split; [now intros text' -> |].
  pose proof (extract_code_search text) as H. unfold text in H.
  rewrite (code_re_found pre tag body rest Hpre Htag Hbody) in H.
  now injection H.
Qed.

Lemma extract_first_fenced_block_witness :
  let text := "Run " +:+ fence +:+ "Bash" +:+ NL +:+ " ls -l " +:+ NL +:+ fence
              +:+ " then " +:+ fence +:+ "python" +:+ NL +:+ "print(2)" +:+ NL +:+ fence in
  extract_language text = Some "bash" /\ extract_command text = Some "ls -l".
Proof.
  destruct (extract_first_fenced_block "Run " "Bash" (" ls -l " +:+ NL)
              (" then " +:+ fence +:+ "python" +:+ NL +:+ "print(2)" +:+ NL +:+ fence))
    as (_ & Hl & Hc); try reflexivity.
  split; [exact Hl | exact Hc].
Defined.

(** C8 (as the code has it): the filename is absent exactly when the text
    has no marker [filename: ] with a newline somewhere after it, and
    otherwise it is the trimmed text between the first marker and the
    newline that ends its line.  A marker on a last line without a newline
    is not seen. *)
Theorem filename_directive_needs_newline (text : string) :
  (extract_filename text = None <->
   ~ exists pre mid rest, text = pre +:+ marker +:+ mid +:+ NL +:+ rest)
  /\ (forall pre val rest,
        first_at marker pre = true -> first_at NL val = true ->
        text = pre +:+ marker +:+ val +:+ NL +:+ rest ->
        extract_filename text = Some (strip val)).
Proof.
  rewrite extract_filename_search. split; [split |].
  - intros Hnone (pre & mid & rest & ->).
    destruct (Re.search false filename_re _) as [gs|] eqn:Hs.
    + destruct (filename_re_sound _ _ Hs) as (_ & val & _ & _ & -> & _). discriminate.
    + now apply filename_re_complete in Hs.
  - intros Hno. destruct (Re.search false filename_re text) as [gs|] eqn:Hs; [| reflexivity].
    destruct (filename_re_sound _ _ Hs) as (pre & val & rest & -> & _).
    exfalso. apply Hno. now exists pre, val, rest.
  - intros pre val rest Hpre Hval ->.
    now rewrite (filename_re_found pre val rest Hpre Hval).
Qed.

Lemma filename_directive_needs_newline_witness :
  extract_filename ("Save as filename:  out/run.py " +:+ NL +:+ "```python" +:+ NL
                      +:+ "print(1)```")
  = Some "out/run.py".
Proof.
  destruct (filename_directive_needs_newline
              ("Save as filename:  out/run.py " +:+ NL +:+ "```python" +:+ NL
                 +:+ "print(1)```")) as [_ H].
  apply (H "Save as " " out/run.py " ("```python" +:+ NL +:+ "print(1)```"));
    reflexivity.
Defined.

(** C8, as stated, fails: a directive on the last line of the text, with no
    newline after it, is not extracted; the same text with the newline
    gives the filename. *)
Lemma filename_on_last_line_is_missed :
  let text := "```python" +:+ NL +:+ "print(1)" +:+ NL +:+ "```" +:+ NL
              +:+ "filename: run.py" in
  extract_filename text = None /\ extract_filename (text +:+ NL) = Some "run.py".
Proof. vm_compute. split; reflexivity. Qed.

(** ** Saving the artifact *)

Lemma cut_bare (p : string) : bare p = true -> Fs.cut p = ("", p).
Proof.
  induction p as [|c p IH]; [reflexivity |]. simpl.
  intros H. apply andb_prop in H as [Hc Hp]. rewrite (IH Hp). simpl.
  apply negb_true_iff in Hc. now rewrite Hc.
Qed.

(** [os.path.dirname] of a name without a slash is the empty string. *)
Lemma dirname_bare (p : string) : bare p = true -> Fs.dirname p = "".
Proof. intros H. unfold Fs.dirname, Fs.split. now rewrite (cut_bare p H). Qed.

Lemma bare_app (a b : string) : bare (a +:+ b) = bare a && bare b.
Proof.
  induction a as [|c a IH]; [reflexivity |]. simpl. rewrite IH.
  now rewrite andb_assoc.
Qed.

Lemma bare_pretty_go (x : N) (s : string) : bare s = true -> bare (pretty_N_go x s) = true.
Proof.
  revert s. induction (N.lt_wf_0 x) as [x _ IH]; intros s Hs.
  assert (x = 0 \/ 0 < x)%N as [-> | Hx] by lia.
  - now rewrite pretty_N_go_0.
  - rewrite pretty_N_go_step by exact Hx. apply IH.
    + now apply N.div_lt.
    + simpl. rewrite Hs. unfold pretty_N_char.
      repeat case_match; reflexivity.
Qed.

Lemma bare_generated_name (counter : nat) : bare (generated_name counter) = true.
Proof.
  unfold generated_name. rewrite !bare_app.
  assert (bare (pretty counter) = true) as ->.
  { unfold pretty, pretty_nat, pretty, pretty_N.
    case_decide; [reflexivity | now apply bare_pretty_go]. }
  reflexivity.
Qed.

Section SaveFacts.
Variable env : Env.

(** Saving under a name without a directory stops at [os.makedirs('')]:
    nothing is written and nothing is printed. *)
Lemma save_code_bare (filename code : string) (w : World) :
  bare filename = true ->
  save_code filename code w
  = (Raise (OSError FileNotFoundError ""), snd (log (MakeDirs "") w)).
Proof.
  intros H. unfold save_code, bind, fs_op. rewrite (dirname_bare filename H).
  destruct w; reflexivity.
Qed.

(** An explicit name without a directory is never saved. *)
Lemma handle_response_bare (ai_response model filename code : string)
    (language : option string) (stdin : list string) (w : World) :
  extract_code_block ai_response = (Some filename, language, Some code) ->
  truthy filename = true -> truthy code = true -> bare filename = true ->
  handle_response env ai_response model stdin w
  = (Raise (OSError FileNotFoundError ""), snd (log (MakeDirs "") w)).
Proof.
  intros He Hf Hc Hb. unfold handle_response. rewrite He. cbn [truthy_opt].
  rewrite Hc. cbn [negb]. unfold bind, choose_name. cbn [truthy_opt]. rewrite Hf.
  cbn [ret default from_option id]. now rewrite save_code_bare.
Qed.

(** A generated name is never saved either: every generated name is
    without a directory. *)
Lemma handle_response_generated (ai_response model code : string)
    (filename language : option string) (stdin : list string) (w : World) :
  extract_code_block ai_response = (filename, language, Some code) ->
  truthy_opt filename = false -> truthy code = true ->
  fst (handle_response env ai_response model stdin w)
  = Raise (OSError FileNotFoundError "")
  /\ fs (snd (handle_response env ai_response model stdin w)) = fs w.
Proof.
  intros He Hf Hc. unfold handle_response. rewrite He. cbn [truthy_opt].
  rewrite Hc. cbn [negb]. unfold bind, choose_name. rewrite Hf.
  unfold auto_name. rewrite save_code_bare by apply bare_generated_name.
  split; reflexivity.
Qed.

(** An error of [os.makedirs] or [open] leaves [handle_response] as it was
    raised: nothing is printed, asked, posted or run after it. *)
Lemma handle_response_save_error (ai_response model name code : string)
    (filename language : option string) (stdin : list string) (w w1 w2 : World)
    (e : exn) :
  extract_code_block ai_response = (filename, language, Some code) ->
  truthy code = true ->
  choose_name filename w = (Ok name, w1) ->
  save_code name code w1 = (Raise e, w2) ->
  handle_response env ai_response model stdin w = (Raise e, w2)
  /\ (trace w2 = MakeDirs (Fs.dirname name) :: trace w
      \/ trace w2 = OpenW name :: MakeDirs (Fs.dirname name) :: trace w).
Proof.
  intros He Hc Hn Hs. split.
  - unfold handle_response. rewrite He. cbn [truthy_opt]. rewrite Hc. cbn [negb].
    unfold bind. rewrite Hn. cbn [default from_option id]. now rewrite Hs.
  - destruct (choose_name_frame filename w) as (Ht & _). rewrite Hn in Ht. cbn in Ht.
    revert Hs. unfold save_code, bind, fs_op. cbn [log fst snd].
    destruct (Fs.makedirs (Fs.dirname name) _) as [[[]|e1] f1]; cbn [fs set_fs].
    + destruct (Fs.write_text name code _) as [[[]|e2] f2]; cbn.
      * discriminate.
      * intros [= <- <-]. cbn. rewrite Ht. now right.
    + intros [= <- <-]. cbn. rewrite Ht. now left.
Qed.

End SaveFacts.

(** C1, on the reply of the specification's own example: the directive
    names [run.py], [os.path.dirname] of it is empty, [os.makedirs('')]
    raises and [handle_response] ends with that error before the file is
    opened: no [run.py] exists afterwards. *)
Theorem bare_filename_is_not_saved :
  let out := handle_response env_debug reply_bare "gemma3:latest"
               ["y"; "y"; "n"] (start reply_bare) in
  extract_code_block reply_bare = (Some "run.py", Some "python", Some "print(1)")
  /\ fst out = Raise (OSError FileNotFoundError "")
  /\ trace (snd out) = [MakeDirs ""]
  /\ Fs.files (fs (snd out)) !! "run.py" = None.
Proof. vm_compute. repeat split. Qed.

(** C4, on a reply without a directive in an empty directory: the name
    [generated_py_script_1.py] is chosen, [os.makedirs('')] raises and
    nothing is written; a second reply would be given the same name. *)
Theorem generated_name_is_not_saved :
  let w := start reply_anon in
  let out := handle_response env_debug reply_anon "gemma3:latest" ["y"; "y"; "n"] w in
  extract_code_block reply_anon = (None, Some "python", Some "print(1)")
  /\ fst (choose_name None w) = Ok "generated_py_script_1.py"
  /\ fst out = Raise (OSError FileNotFoundError "")
  /\ trace (snd out) = [MakeDirs ""]
  /\ Fs.files (fs (snd out)) = ∅
  /\ fst (choose_name None (snd out)) = Ok "generated_py_script_1.py".
Proof. vm_compute. repeat split. Qed.

(** C3, in a directory where [out] is a regular file: the reply asks for
    [out/run.py], [os.makedirs] raises [FileExistsError], nothing is
    printed after the streamed reply, and [main] ends with that error
    without reading the next line. *)
Theorem write_error_ends_session :
  let out := main (env_reply reply_dir) dump load args ["write it"; "exit"] blocked in
  fst out = Raise (OSError FileExistsError "out")
  /\ last_printed (trace (snd out)) = Some reply_dir
  /\ typed (trace (snd out)) = ["write it"]
  /\ Fs.files (fs (snd out)) !! "out/run.py" = None.
Proof. vm_compute. repeat split. Qed.

(** ** More about extraction *)

Section TrimFacts.







Lemma rstrip_keeps_head (c : ascii) (s : string) :
  isspace c = false -> rstrip (String c s) = String c (rstrip s).
Proof. intros Hc. cbn [rstrip]. rewrite Hc. now destruct (rstrip s). Qed.

Lemma rstrip_idem (s : string) : rstrip (rstrip s) = rstrip s.
Proof.
  induction s as [|c s IH]; [reflexivity |].
  cbn [rstrip]. destruct (rstrip s) as [|d r] eqn:Hr.
  - destruct (isspace c) eqn:Hc; [reflexivity |]. cbn [rstrip]. now rewrite Hc.
  - change (rstrip (String c (String d r)))
      with (match rstrip (String d r) with
            | "" => if isspace c then "" else String c ""
            | r' => String c r'
            end).
    rewrite IH. reflexivity.
Qed.

(** What [lstrip] leaves is empty or starts with a character that is no
    white space. *)
Lemma lstrip_head (s : string) :
  lstrip s = "" \/ exists c r, lstrip s = String c r /\ isspace c = false.
Proof.
  induction s as [|c s IH]; [now left |].
  cbn [lstrip]. destruct (isspace c) eqn:Hc; [exact IH |].
  right. now exists c, s.
Qed.

Lemma strip_idem (s : string) : strip (strip s) = strip s.
Proof.
  unfold strip. destruct (lstrip_head s) as [-> | (c & r & -> & Hc)]; [reflexivity |].
  rewrite (rstrip_keeps_head _ _ Hc). cbn [lstrip]. rewrite Hc.
  rewrite (rstrip_keeps_head _ _ Hc). now rewrite rstrip_idem.
Qed.

Lemma first_at_nl_cons (c : ascii) (a : string) :
  (c =? nl)%char = false -> first_at NL a = true -> first_at NL (String c a) = true.
Proof.
  intros Hc Ha.
  change (first_at NL (String c a))
    with (match chop NL (String c a +:+ NL) with
          | Some _ => false
          | None => first_at NL a
          end).
  unfold NL at 1. simpl chop. rewrite Ascii.eqb_sym, Hc. exact Ha.
Qed.

Lemma lstrip_no_nl (s : string) : first_at NL s = true -> first_at NL (lstrip s) = true.
Proof.
  induction s as [|c s IH]; intros H; [reflexivity |].
  cbn [lstrip]. destruct (isspace c); [| exact H].
  apply first_at_nl in H as [_ H]. exact (IH H).
Qed.

Lemma rstrip_no_nl (s : string) : first_at NL s = true -> first_at NL (rstrip s) = true.
Proof.
  induction s as [|c s IH]; intros H; [reflexivity |].
  apply first_at_nl in H as [Hc H]. specialize (IH H).
  cbn [rstrip]. destruct (rstrip s) as [|d r].
  - destruct (isspace c); [reflexivity | now apply first_at_nl_cons].
  - now apply first_at_nl_cons.
Qed.

Lemma strip_no_nl (s : string) : first_at NL s = true -> first_at NL (strip s) = true.
Proof. intros H. unfold strip. now apply rstrip_no_nl, lstrip_no_nl. Qed.

End TrimFacts.

Section BlockFacts.
Import Re.
#[local] Arguments match_here : simpl never.
#[local] Arguments search : simpl never.

(** A lazy group followed by the literal [p]: what it matched ends right
    before an occurrence of [p] after which the rest of the pattern
    matched. *)
Lemma lazy_sound (d : bool) (p : string) (r : regex) (s : string) (gs : list string) :
  match_here d (LazyAny :: lit p ++ r)%list s = Some gs ->
  exists a b gs', s = a +:+ p +:+ b /\ gs = a :: gs' /\ match_here d r b = Some gs'.
Proof.
  revert gs; induction s as [|c s IH]; intros gs; rewrite match_lazy, match_lit.
  - destruct (chop p "") as [s'|] eqn:Hchop; [| discriminate].
    destruct (match_here d r s') as [gs'|] eqn:Hm; [| discriminate].
    intros [= <-]. apply chop_Some in Hchop. exists "", s', gs'. now repeat split.
  - destruct (chop p (String c s)) as [s'|] eqn:Hchop.
    + destruct (match_here d r s') as [gs'|] eqn:Hm.
      * intros [= <-]. apply chop_Some in Hchop. exists "", s', gs'. now repeat split.
      * destruct (dot d c); [| discriminate].
        destruct (match_here d (LazyAny :: (lit p ++ r)%list) s) as [[|g gs']|] eqn:Hs;
          try discriminate.
        intros [= <-]. destruct (IH _ eq_refl) as (a & b & gs2 & -> & [= -> ->] & Hb).
        exists (String c a), b, gs2. now repeat split.
    + destruct (dot d c); [| discriminate].
      destruct (match_here d (LazyAny :: (lit p ++ r)%list) s) as [[|g gs']|] eqn:Hs;
        try discriminate.
      intros [= <-]. destruct (IH _ eq_refl) as (a & b & gs2 & -> & [= -> ->] & Hb).
      exists (String c a), b, gs2. now repeat split.
Qed.

(** Backtracking finds a match whenever some occurrence of [p] admits
    one. *)
Lemma lazy_complete (d : bool) (p : string) (r : regex) (a b : string) :
  dots d a = true -> match_here d r b <> None ->
  exists g gs, match_here d (LazyAny :: lit p ++ r)%list (a +:+ p +:+ b) = Some (g :: gs).
Proof.
  intros Hd Hb. induction a as [|c a IH]; rewrite match_lazy.
  - change ("" +:+ p +:+ b) with (p +:+ b). rewrite match_lit_app.
    destruct (match_here d r b) as [gs|]; [| contradiction]. now exists "", gs.
  - simpl in Hd. apply andb_prop in Hd as [Hc Hd].
    destruct (match_here d (lit p ++ r)%list (String c a +:+ p +:+ b)) as [gs|];
      [now exists "", gs |].
    change (String c a +:+ p +:+ b) with (String c (a +:+ p +:+ b)). cbv iota.
    rewrite Hc. destruct (IH Hd) as (g & gs & ->). now exists (String c g), gs.
Qed.

Lemma search_sound (d : bool) (p : string) (r : regex) (s : string) (gs : list string) :
  search d (lit p ++ r)%list s = Some gs ->
  exists pre b, s = pre +:+ p +:+ b /\ match_here d r b = Some gs.
Proof.
  induction s as [|c s IH]; rewrite search_step, match_lit.
  - destruct (chop p "") as [s'|] eqn:Hchop; [| discriminate].
    destruct (match_here d r s') as [gs'|] eqn:Hm; [| discriminate].
    intros [= <-]. apply chop_Some in Hchop. now exists "", s'.
  - destruct (chop p (String c s)) as [s'|] eqn:Hchop.
    + destruct (match_here d r s') as [gs'|] eqn:Hm.
      * intros [= <-]. apply chop_Some in Hchop. now exists "", s'.
      * intros H. destruct (IH H) as (pre & b & -> & Hb). now exists (String c pre), b.
    + intros H. destruct (IH H) as (pre & b & -> & Hb). now exists (String c pre), b.
Qed.

Lemma search_complete (d : bool) (p : string) (r : regex) (pre b : string) :
  match_here d r b <> None -> search d (lit p ++ r)%list (pre +:+ p +:+ b) <> None.
Proof.
  intros Hb. induction pre as [|c pre IH]; rewrite search_step.
  - change ("" +:+ p +:+ b) with (p +:+ b). rewrite match_lit_app.
    destruct (match_here d r b); [discriminate | contradiction].
  - destruct (match_here d (lit p ++ r)%list (String c pre +:+ p +:+ b));
      [discriminate | exact IH].
Qed.

Lemma code_re_sound (s : string) (gs : list string) :
  search true code_re s = Some gs ->
  exists pre tag body rest,
    s = pre +:+ fence +:+ tag +:+ NL +:+ body +:+ fence +:+ rest /\ gs = [tag; body].
Proof.
  change code_re
    with (lit fence ++ (LazyAny :: lit NL ++ (LazyAny :: lit fence ++ [])))%list.
  intros H. apply search_sound in H as (pre & b & -> & H).
  apply lazy_sound in H as (tag & b' & gs' & -> & -> & H).
  apply lazy_sound in H as (body & rest & gs2 & -> & -> & H).
  rewrite match_nil in H. injection H as <-.
  now exists pre, tag, body, rest.
Qed.

Lemma code_re_complete (pre tag body rest : string) :
  search true code_re (pre +:+ fence +:+ tag +:+ NL +:+ body +:+ fence +:+ rest) <> None.
Proof.
  change code_re
    with (lit fence ++ (LazyAny :: lit NL ++ (LazyAny :: lit fence ++ [])))%list.
  apply search_complete.
  destruct (lazy_complete true NL (LazyAny :: lit fence ++ [])%list tag
              (body +:+ fence +:+ rest)) as (g & gs & ->);
    [apply dots_dotall | | discriminate].
  destruct (lazy_complete true fence [] body rest) as (g & gs & ->);
    [apply dots_dotall | now rewrite match_nil | discriminate].
Qed.

End BlockFacts.

(** X1: the code is absent exactly when the text has no opening fence
    followed, later, by a newline and, after it, by a closing fence; the
    language is absent exactly when the code is. *)
Theorem code_needs_fence_newline_fence (text : string) :
  (extract_command text = None <->
   ~ exists pre tag body rest,
       text = pre +:+ fence +:+ tag +:+ NL +:+ body +:+ fence +:+ rest)
  /\ (extract_language text = None <-> extract_command text = None).
Proof.
  pose proof (extract_code_search text) as E.
  destruct (Re.search true code_re text) as [gs|] eqn:Hs.
  - destruct (code_re_sound _ _ Hs) as (pre & tag & body & rest & Ht & ->).
    injection E as El Ec. rewrite El, Ec. split; split; try discriminate.
    intros H. exfalso. apply H. now exists pre, tag, body, rest.
  - injection E as El Ec. rewrite El, Ec. split; split; try reflexivity.
    intros _ (pre & tag & body & rest & ->).
    now apply (code_re_complete pre tag body rest).
Qed.



(** X3: a file name and a code that are returned have no white space
    around them, and the file name holds no newline. *)
Theorem extracted_texts_are_trimmed (text : string) :
  (forall filename, extract_filename text = Some filename ->
                    strip filename = filename /\ first_at NL filename = true)
  /\ (forall code, extract_command text = Some code -> strip code = code).
Proof.
  split.
  - intros filename. rewrite extract_filename_search.
    destruct (Re.search false filename_re text) as [gs|] eqn:Hs; [| discriminate].
    destruct (filename_re_sound _ _ Hs) as (pre & val & rest & _ & -> & Hf).
    intros [= <-]. split; [apply strip_idem | now apply strip_no_nl].
  - intros code. pose proof (extract_code_search text) as E.
    destruct (Re.search true code_re text) as [gs|] eqn:Hs.
    + destruct (code_re_sound _ _ Hs) as (pre & tag & body & rest & _ & ->).
      injection E as _ Ec. rewrite Ec. intros [= <-]. apply strip_idem.
    + injection E as _ Ec. rewrite Ec. discriminate.
Qed.

Lemma extracted_texts_are_trimmed_witness :
  strip "out/run.py" = "out/run.py" /\ strip "print(1)" = "print(1)".
Proof.
  destruct (extracted_texts_are_trimmed reply_dir) as [Hf Hc].
  split; [apply (Hf "out/run.py") | apply (Hc "print(1)")]; reflexivity.
Defined.

(** ** More about the completion call *)

Import Sample2.

Lemma echoed_prints (ds : list string) (t : list Event) :
  echoed (rev (map Print ds) ++ t)%list = echoed t +:+ joined ds.
Proof.
  revert t; induction ds as [|d ds IH]; intros t.
  - simpl. now rewrite append_nil_r.
  - change (rev (map Print (d :: ds))) with (rev (map Print ds) ++ [Print d])%list.
    rewrite <- List.app_assoc, IH. cbn [app echoed joined fold_right].
    apply append_assoc.
Qed.

Section ReplyFacts.
Variable env : Env.

(** A body of well-formed lines: every delta is printed as it comes, and
    the text grows by all of them. *)
Lemma consume_ok (lines : list Line) (full : string) (w : World) :
  forallb well_formed lines = true ->
  fst (consume lines full w) = Ok (full +:+ joined (deltas lines))
  /\ trace (snd (consume lines full w)) = (rev (map Print (deltas lines)) ++ trace w)%list.
Proof.
  revert full w; induction lines as [|l lines IH]; intros full w H.
  - simpl. now rewrite append_nil_r.
  - simpl in H. apply andb_prop in H as [Hl H]. unfold well_formed in Hl.
    destruct l as [|[| |j]]; simpl in Hl; try discriminate.
    + exact (IH full w H).
    + unfold deltas. cbn [omap list_omap consume].
      destruct (delta j) as [content|e]; [| discriminate].
      unfold bind, print, log. cbn [fst snd].
      destruct (IH (full +:+ content)
                  {| fs := fs w; file_counter := file_counter w;
                     messages := messages w; posts := posts w; runs := runs w;
                     trace := Print content :: trace w |} H) as [Hr Ht].
      fold (deltas lines). rewrite Hr, Ht. cbn [trace]. split.
      * cbn [joined fold_right]. now rewrite append_assoc.
      * change (rev (map Print (content :: deltas lines)))
          with (rev (map Print (deltas lines)) ++ [Print content])%list.
        now rewrite <- List.app_assoc.
Qed.

(** Only a body of well-formed lines is read to its end. *)
Lemma consume_Ok_inv (lines : list Line) (full text : string) (w : World) :
  fst (consume lines full w) = Ok text -> forallb well_formed lines = true.
Proof.
  revert full w; induction lines as [|l lines IH]; intros full w H; [reflexivity |].
  destruct l as [|[| |j]]; cbn [consume] in H; try discriminate.
  - exact (IH _ _ H).
  - cbn [forallb]. unfold well_formed at 1. cbn [line_error].
    destruct (delta j) as [content|e]; [| discriminate].
    unfold bind, print, log in H. cbn [fst snd] in H. exact (IH _ _ H).
Qed.

Lemma attempts_success (model : string) (msgs : list ChatMessage) (max_retries : Z)
    (k todo : nat) (attempt : Z) (w : World) (lines : list Line) :
  k < todo ->
  (attempt + Z.of_nat todo = max_retries)%Z ->
  (forall i, i < k -> transport_failure (net env (posts w + i)) = true) ->
  net env (posts w + k) = Stream lines None ->
  forallb well_formed lines = true ->
  fst (attempts env model msgs max_retries todo attempt w) = Ok (Some (joined (deltas lines)))
  /\ posts (snd (attempts env model msgs max_retries todo attempt w)) = posts w + S k.
Proof.
  revert todo attempt w; induction k as [|k IH];
    intros todo attempt w Hk Hmax Hfail Hnet Hwf.
  - destruct todo as [|todo]; [lia |].
    rewrite attempts_step. cbv zeta. rewrite Nat.add_0_r in Hnet. rewrite Hnet.
    set (w1 := snd (post env model msgs w)).
    destruct (consume_ok lines "" w1 Hwf) as [Hc _].
    destruct (consume_frame lines "" w1) as (_ & _ & _ & _ & Hp).
    destruct (consume _ "" w1) as [[full|e'] w2]; cbn [fst snd] in *; [| discriminate].
    injection Hc as ->. split; [reflexivity |]. rewrite Hp. cbn. lia.
  - destruct todo as [|todo]; [lia |].
    destruct (attempts_failed_step env model msgs max_retries todo attempt w)
      as (w3 & Hp3 & ->).
    { rewrite <- (Nat.add_0_r (posts w)). apply Hfail. lia. }
    destruct (Z.eqb_spec attempt (max_retries - 1)) as [Heq | Hne]; [lia |].
    destruct (IH todo (attempt + 1)%Z w3) as [Hr Hp]; try lia; auto.
    + intros i Hi. rewrite Hp3.
      replace (S (posts w) + i) with (posts w + S i) by lia. apply Hfail. lia.
    + rewrite Hp3. replace (S (posts w) + k) with (posts w + S k) by lia. exact Hnet.
    + split; [exact Hr | lia].
Qed.

(** A call that returns a text has printed it, piece by piece, after its
    last request. *)
Lemma attempts_echo (model : string) (msgs : list ChatMessage) (max_retries : Z)
    (todo : nat) :
  forall (attempt : Z) (w : World) (text : string),
    fst (attempts env model msgs max_retries todo attempt w) = Ok (Some text) ->
    exists pieces older,
      trace (snd (attempts env model msgs max_retries todo attempt w))
      = (rev (map Print pieces) ++ Post model msgs :: older)%list
      /\ joined pieces = text.
Proof.
  induction todo as [|todo IH]; intros attempt w text; [discriminate |].
  rewrite attempts_step. cbv zeta.
  set (w1 := snd (post env model msgs w)).
  destruct (net env (posts w)) as [e|lines broken].
  - destruct (attempt =? max_retries - 1)%Z; [discriminate | apply IH].
  - pose proof (fun text => consume_Ok_inv lines "" text w1) as Hinv.
    pose proof (consume_ok lines "" w1) as Hok.
    destruct (consume lines "" w1) as [[full|e'] w2]; [| discriminate].
    destruct broken as [e|].
    + destruct (attempt =? max_retries - 1)%Z; [discriminate | apply IH].
    + intros [= <-]. cbn [fst snd] in *.
      destruct (Hok (Hinv _ eq_refl)) as [Hr Ht]. injection Hr as ->.
      exists (deltas lines), (trace w). split; [exact Ht | reflexivity].
Qed.

(** A call that gives up has seen every attempt fail. *)
Lemma attempts_None_inv (model : string) (msgs : list ChatMessage) (max_retries : Z)
    (todo : nat) :
  forall (attempt : Z) (w : World),
    (attempt + Z.of_nat todo = max_retries)%Z ->
    fst (attempts env model msgs max_retries todo attempt w) = Ok None ->
    forall i, i < todo -> transport_failure (net env (posts w + i)) = true.
Proof.
  induction todo as [|todo IH]; intros attempt w Hmax Hnone i Hi; [lia |].
  rewrite attempts_step in Hnone. cbv zeta in Hnone.
  set (w1 := snd (post env model msgs w)) in *.
  assert (Hnext : forall w3, posts w3 = S (posts w) ->
            fst (if (attempt =? max_retries - 1)%Z then (Ok None, w3)
                 else attempts env model msgs max_retries todo (attempt + 1)%Z w3) = Ok None ->
            transport_failure (net env (posts w)) = true ->
            transport_failure (net env (posts w + i)) = true).
  { intros w3 Hp3 H3 H0. destruct i as [|i]; [now rewrite Nat.add_0_r |].
    destruct (Z.eqb_spec attempt (max_retries - 1)) as [Heq | Hne]; [lia |].
    replace (posts w + S i) with (posts w3 + i) by lia.
    apply (IH (attempt + 1)%Z w3); [lia | exact H3 | lia]. }
  destruct (net env (posts w)) as [e|lines broken] eqn:Hnet.
  - refine (Hnext _ _ Hnone _); reflexivity.
  - pose proof (fun text => consume_Ok_inv lines "" text w1) as Hinv.
    destruct (consume_frame lines "" w1) as (_ & _ & _ & _ & Hp).
    destruct (consume lines "" w1) as [[full|e'] w2]; [| discriminate].
    destruct broken as [e|]; [| discriminate].
    cbn [fst snd] in *. refine (Hnext _ _ Hnone _).
    + cbn [snd print log posts]. exact Hp.
    + cbn [transport_failure]. exact (Hinv _ eq_refl).
Qed.

End ReplyFacts.

(** X4: after [k] attempts that fail at the transport level, an attempt
    whose body is read to its end returns the deltas of that body in
    order, as one text, after [k + 1] requests; what the failed attempts
    had streamed is not part of it. *)
Theorem reply_after_failures (env : Env) (msgs : list ChatMessage) (model : string)
    (max_retries : Z) (w : World) (k : nat) (lines : list Line) :
  k < Z.to_nat max_retries ->
  (forall i, i < k -> transport_failure (net env (posts w + i)) = true) ->
  net env (posts w + k) = Stream lines None ->
  forallb well_formed lines = true ->
  let out := call_ollama_api_stream env msgs model max_retries w in
  fst out = Ok (Some (joined (deltas lines))) /\ posts (snd out) = posts w + S k.
Proof.
  intros Hk Hfail Hnet Hwf. cbv zeta. unfold call_ollama_api_stream.
  apply attempts_success; auto. lia.
Qed.

Lemma reply_after_failures_witness :
  let out := call_ollama_api_stream env_flaky [system_message] "gemma3:latest"
               default_max_retries fresh in
  fst out = Ok (Some "It is a cat.") /\ posts (snd out) = 3.
Proof.
  apply (reply_after_failures env_flaky [system_message] "gemma3:latest"
           default_max_retries fresh 2 [chunk "It is "; Blank; chunk "a cat."]).
  - vm_compute. lia.
  - intros [|[|i]] Hi; [reflexivity | reflexivity | lia].
  - reflexivity.
  - reflexivity.
Defined.

(** X5: whatever the endpoint does, a text that the call returns is the
    one it has printed since its last request: the pieces, in order, make
    up the text. *)
Theorem reply_is_what_was_streamed (env : Env) (msgs : list ChatMessage) (model : string)
    (max_retries : Z) (w : World) (text : string) :
  let out := call_ollama_api_stream env msgs model max_retries w in
  fst out = Ok (Some text) ->
  echoed (trace (snd out)) = text
  /\ exists pieces older,
       trace (snd out) = (rev (map Print pieces) ++ Post model msgs :: older)%list
       /\ joined pieces = text.
Proof.
  cbv zeta. unfold call_ollama_api_stream. intros H.
  destruct (attempts_echo env model msgs max_retries _ _ _ _ H) as (pieces & older & Ht & Hj).
  split; [| now exists pieces, older].
  rewrite Ht, echoed_prints. cbn [echoed]. now rewrite Hj.
Qed.

Lemma reply_is_what_was_streamed_witness :
  echoed (trace (snd (call_ollama_api_stream env_flaky [system_message] "gemma3:latest"
                        default_max_retries fresh)))
  = "It is a cat.".
Proof.
  apply (reply_is_what_was_streamed env_flaky [system_message] "gemma3:latest"
           default_max_retries fresh "It is a cat.").
  reflexivity.
Defined.

(** X6: the call returns [None] exactly when every one of its
    [max_retries] attempts fails at the transport level. *)
Theorem none_iff_all_attempts_failed (env : Env) (msgs : list ChatMessage) (model : string)
    (max_retries : Z) (w : World) :
  fst (call_ollama_api_stream env msgs model max_retries w) = Ok None
  <-> (forall i, i < Z.to_nat max_retries ->
                 transport_failure (net env (posts w + i)) = true).
Proof.
  split.
  - unfold call_ollama_api_stream. intros H i Hi.
    apply (attempts_None_inv env model msgs max_retries (Z.to_nat max_retries) 0%Z w);
      [lia | exact H | exact Hi].
  - intros H. now apply call_all_fail.
Qed.

(** X7: a call makes at most [max_retries] requests, none when the bound
    is not positive, and besides posting and printing it changes nothing:
    not the file system, the counter or the conversation, and it neither
    runs a command nor reads from the terminal. *)
Theorem call_posts_and_prints_only (env : Env) (msgs : list ChatMessage) (model : string)
    (max_retries : Z) (w : World) :
  let w' := snd (call_ollama_api_stream env msgs model max_retries w) in
  posts w <= posts w' <= posts w + Z.to_nat max_retries
  /\ ((max_retries <= 0)%Z -> call_ollama_api_stream env msgs model max_retries w = (Ok None, w))
  /\ fs w' = fs w /\ file_counter w' = file_counter w /\ messages w' = messages w
  /\ runs w' = runs w
  /\ exists added, trace w' = (added ++ trace w)%list /\ forallb silent added = true.
Proof.
  cbv zeta. unfold call_ollama_api_stream.
  destruct (attempts_frame env model msgs max_retries (Z.to_nat max_retries) 0%Z w)
    as (added & Ht & Hs & (Hf & Hc & Hm & Hr) & Hp).
  split; [exact Hp |]. split.
  - intros Hle. assert (Z.to_nat max_retries = 0) as -> by lia. reflexivity.
  - repeat split; try assumption. now exists added.
Qed.

Lemma call_posts_and_prints_only_witness :
  call_ollama_api_stream env_flaky [system_message] "gemma3:latest" 0 fresh = (Ok None, fresh).
Proof.
  apply (call_posts_and_prints_only env_flaky [system_message] "gemma3:latest" 0 fresh).
  lia.
Defined.

(** ** More about the flow *)

Section TraceFacts.

Lemma typed_app (a b : list Event) : typed (a ++ b)%list = (typed b ++ typed a)%list.
Proof. unfold typed. now rewrite omap_app, rev_app_distr. Qed.

Lemma executed_app (a b : list Event) :
  executed (a ++ b)%list = (executed b ++ executed a)%list.
Proof. unfold executed. now rewrite omap_app, rev_app_distr. Qed.

Lemma posted_app (a b : list Event) : posted (a ++ b)%list = (posted b ++ posted a)%list.
Proof. unfold posted. now rewrite omap_app, rev_app_distr. Qed.

Lemma typed_prints (ds : list string) : typed (rev (map Print ds)) = [].
Proof.
  induction ds as [|d ds IH]; [reflexivity |].
  cbn [map rev]. now rewrite typed_app, IH.
Qed.

Lemma executed_prints (ds : list string) : executed (rev (map Print ds)) = [].
Proof.
  induction ds as [|d ds IH]; [reflexivity |].
  cbn [map rev]. now rewrite executed_app, IH.
Qed.

Lemma posted_prints (ds : list string) : posted (rev (map Print ds)) = [].
Proof.
  induction ds as [|d ds IH]; [reflexivity |].
  cbn [map rev]. now rewrite posted_app, IH.
Qed.

End TraceFacts.

Section CallAccount.
Variable env : Env.

(** Reading a body prints and does nothing else. *)
Lemma consume_prints (lines : list Line) (full : string) (w : World) :
  exists ds, trace (snd (consume lines full w)) = (rev (map Print ds) ++ trace w)%list.
Proof.
  revert full w; induction lines as [|l lines IH]; intros full w.
  - now exists [].
  - destruct l as [|[| |j]]; cbn [consume].
    + apply IH.
    + now exists [].
    + now exists [].
    + destruct (delta j) as [content|e]; [| now exists []].
      unfold bind, print, log. cbn [fst snd].
      destruct (IH (full +:+ content)
                  {| fs := fs w; file_counter := file_counter w;
                     messages := messages w; posts := posts w; runs := runs w;
                     trace := Print content :: trace w |}) as [ds Ht].
      exists (content :: ds). rewrite Ht. cbn [trace map rev].
      now rewrite <- List.app_assoc.
Qed.

(** What a call adds to the trace: its requests, all of them the same
    conversation and as many as the counter of posts has grown by, no
    answer of the user and no execution. *)
Lemma attempts_account (model : string) (msgs : list ChatMessage) (max_retries : Z)
    (todo : nat) :
  forall (attempt : Z) (w : World),
    let w' := snd (attempts env model msgs max_retries todo attempt w) in
    exists added n,
      trace w' = (added ++ trace w)%list
      /\ typed added = [] /\ executed added = []
      /\ posted added = replicate n msgs
      /\ posts w' = posts w + n /\ n <= todo.
Proof.
  induction todo as [|todo IH]; intros attempt w; cbv zeta.
  - exists [], 0. cbn. repeat split; lia.
  - rewrite attempts_step. cbv zeta.
    set (w1 := snd (post env model msgs w)).
    assert (Hretry : forall e w2 ds,
               trace w2 = (rev (map Print ds) ++ Post model msgs :: trace w)%list ->
               posts w2 = S (posts w) ->
               let w' := snd (let w3 := snd (print (retry_message attempt max_retries e) w2) in
                              if (attempt =? max_retries - 1)%Z then (Ok None, w3)
                              else attempts env model msgs max_retries todo (attempt + 1)%Z w3) in
               exists added n,
                 trace w' = (added ++ trace w)%list
                 /\ typed added = [] /\ executed added = []
                 /\ posted added = replicate n msgs
                 /\ posts w' = posts w + n /\ n <= S todo).
    { intros e w2 ds Ht2 Hp2. cbv zeta.
      set (w3 := snd (print (retry_message attempt max_retries e) w2)).
      assert (H3 : trace w3 = Print (retry_message attempt max_retries e) :: trace w2
                   /\ posts w3 = posts w2) by now split.
      destruct H3 as (Ht3 & Hp3).
      destruct (attempt =? max_retries - 1)%Z.
      - exists (Print (retry_message attempt max_retries e)
                  :: rev (map Print ds) ++ [Post model msgs])%list, 1.
        cbn [snd]. rewrite Ht3, Ht2.
        split; [cbn [app]; now rewrite <- List.app_assoc |].
        change (Print (retry_message attempt max_retries e)
                  :: rev (map Print ds) ++ [Post model msgs])%list
          with ([Print (retry_message attempt max_retries e)]
                  ++ rev (map Print ds) ++ [Post model msgs])%list.
        rewrite !typed_app, !executed_app, !posted_app,
          typed_prints, executed_prints, posted_prints.
        repeat split; try reflexivity; lia.
      - destruct (IH (attempt + 1)%Z w3) as (added & n & Ht & Hty & Hex & Hpo & Hp & Hn).
        exists (added ++ Print (retry_message attempt max_retries e)
                  :: rev (map Print ds) ++ [Post model msgs])%list, (S n).
        rewrite Ht, Ht3, Ht2.
        split; [rewrite <- !List.app_assoc; cbn [app]; now rewrite <- List.app_assoc |].
        change (added ++ Print (retry_message attempt max_retries e)
                  :: rev (map Print ds) ++ [Post model msgs])%list
          with (added ++ [Print (retry_message attempt max_retries e)]
                  ++ rev (map Print ds) ++ [Post model msgs])%list.
        rewrite !typed_app, !executed_app, !posted_app,
          typed_prints, executed_prints, posted_prints, Hty, Hex, Hpo.
        repeat split; try reflexivity; lia. }
    destruct (net env (posts w)) as [e|lines broken].
    + apply (Hretry e w1 []); reflexivity.
    + destruct (consume_prints lines "" w1) as [ds Htc].
      destruct (consume_frame lines "" w1) as (_ & _ & _ & _ & Hpc).
      destruct (consume lines "" w1) as [[full|e] w2]; cbn [snd fst] in *.
      * destruct broken as [e|].
        -- apply (Hretry e w2 ds); [exact Htc | exact Hpc].
        -- exists (rev (map Print ds) ++ [Post model msgs])%list, 1. cbn [snd].
           rewrite Htc. split; [now rewrite <- List.app_assoc |].
           rewrite !typed_app, !executed_app, !posted_app,
             typed_prints, executed_prints, posted_prints.
           repeat split; try reflexivity; try lia. rewrite Hpc. cbn. lia.
      * exists (rev (map Print ds) ++ [Post model msgs])%list, 1. cbn [snd].
        rewrite Htc. split; [now rewrite <- List.app_assoc |].
        rewrite !typed_app, !executed_app, !posted_app,
          typed_prints, executed_prints, posted_prints.
        repeat split; try reflexivity; try lia. rewrite Hpc. cbn. lia.
Qed.

Lemma call_account (msgs : list ChatMessage) (model : string) (w : World) :
  let w' := snd (call_ollama_api_stream env msgs model default_max_retries w) in
  exists added n,
    trace w' = (added ++ trace w)%list
    /\ typed added = [] /\ executed added = []
    /\ posted added = replicate n msgs
    /\ posts w' = posts w + n /\ n <= 3
    /\ quiet w w'.
Proof.
  cbv zeta. unfold call_ollama_api_stream.
  destruct (attempts_account model msgs default_max_retries (Z.to_nat default_max_retries)
              0%Z w) as (added & n & Ht & Hty & Hex & Hpo & Hp & Hn).
  destruct (attempts_frame env model msgs default_max_retries
              (Z.to_nat default_max_retries) 0%Z w) as (_ & _ & _ & Hq & _).
  exists added, n. repeat split; try assumption; try apply Hq.
Qed.

End CallAccount.

(** The execution loop, case by case: a property of its runs holds when it
    holds where the loop ends and is kept where it goes round. *)
Section ExecLoopCases.
Variable env : Env.
Variable model : string.
Variable P : string -> list string -> World -> res (list string) * World -> Prop.

Hypothesis at_eof : forall cmd w,
  P cmd [] w (Raise EOFError, snd (log (InputEOF ExecConfirm (exec_prompt cmd)) w)).

Hypothesis at_decline : forall cmd confirm rest w,
  affirmative confirm = false ->
  P cmd (confirm :: rest) w
    (Ok rest, snd (log (Input ExecConfirm (exec_prompt cmd) confirm) w)).

Hypothesis at_success : forall cmd confirm rest w,
  affirmative confirm = true ->
  (returncode (shell env (runs w)) =? 0)%Z = true ->
  P cmd (confirm :: rest) w
    (Ok rest,
     snd (print (NL +:+ "Success! Output:" +:+ NL +:+ " "
                   +:+ stdout (shell env (runs w)) +:+ NL)
            (after_run env cmd confirm w))).

Hypothesis at_debug_eof : forall cmd confirm w,
  affirmative confirm = true ->
  (returncode (shell env (runs w)) =? 0)%Z = false ->
  P cmd [confirm] w
    (Raise EOFError,
     snd (log (InputEOF DebugConfirm debug_prompt) (after_failure env cmd confirm w))).

Hypothesis at_debug_decline : forall cmd confirm debug_confirm rest w,
  affirmative confirm = true ->
  (returncode (shell env (runs w)) =? 0)%Z = false ->
  affirmative debug_confirm = false ->
  P cmd (confirm :: debug_confirm :: rest) w
    (Ok rest,
     snd (log (Input DebugConfirm debug_prompt debug_confirm)
            (after_failure env cmd confirm w))).

Hypothesis at_call_error : forall cmd confirm debug_confirm rest w e w6,
  affirmative confirm = true ->
  (returncode (shell env (runs w)) =? 0)%Z = false ->
  affirmative debug_confirm = true ->
  debug_call env model cmd confirm debug_confirm w = (Raise e, w6) ->
  P cmd (confirm :: debug_confirm :: rest) w (Raise e, w6).

Hypothesis at_no_fix : forall cmd confirm debug_confirm rest w text w6,
  affirmative confirm = true ->
  (returncode (shell env (runs w)) =? 0)%Z = false ->
  affirmative debug_confirm = true ->
  debug_call env model cmd confirm debug_confirm w = (Ok (Some text), w6) ->
  truthy text = true ->
  truthy_opt (extract_command text) = false ->
  P cmd (confirm :: debug_confirm :: rest) w
    (Ok rest,
     snd (print (NL +:+ "No fix provided." +:+ NL)
            (snd (append_message (msg assistant text) w6)))).

Hypothesis at_fix : forall cmd confirm debug_confirm rest w text w6 cmd' out,
  affirmative confirm = true ->
  (returncode (shell env (runs w)) =? 0)%Z = false ->
  affirmative debug_confirm = true ->
  debug_call env model cmd confirm debug_confirm w = (Ok (Some text), w6) ->
  truthy text = true ->
  extract_command text = Some cmd' -> truthy cmd' = true ->
  P cmd' rest (snd (append_message (msg assistant text) w6)) out ->
  P cmd (confirm :: debug_confirm :: rest) w out.

Hypothesis at_no_reply : forall cmd confirm debug_confirm rest w reply w6 out,
  affirmative confirm = true ->
  (returncode (shell env (runs w)) =? 0)%Z = false ->
  affirmative debug_confirm = true ->
  debug_call env model cmd confirm debug_confirm w = (Ok reply, w6) ->
  truthy_opt reply = false ->
  P cmd rest w6 out ->
  P cmd (confirm :: debug_confirm :: rest) w out.

Lemma exec_loop_cases_upto (n : nat) :
  forall (stdin : list string) (cmd : string) (w : World),
    length stdin <= n -> P cmd stdin w (exec_loop env model cmd stdin w).
Proof.
  induction n as [|n IH]; intros stdin cmd w Hn.
  - destruct stdin; [apply at_eof | simpl in Hn; lia].
  - destruct stdin as [|confirm stdin1]; [apply at_eof |].
    rewrite exec_loop_step. cbv zeta.
    destruct (affirmative confirm) eqn:Hconfirm; cbn [negb];
      [| now apply at_decline].
    destruct (returncode (shell env (runs w)) =? 0)%Z eqn:Hcode;
      [now apply at_success |].
    destruct stdin1 as [|debug_confirm stdin2]; [now apply at_debug_eof |].
    destruct (affirmative debug_confirm) eqn:Hdebug; cbn [negb];
      [| now apply at_debug_decline].
    change (call_ollama_api_stream env _ model default_max_retries _)
      with (debug_call env model cmd confirm debug_confirm w).
    destruct (debug_call env model cmd confirm debug_confirm w)
      as [[debug_response|e] w6] eqn:Hcall; [| now apply at_call_error].
    assert (Hlen : length stdin2 <= n) by (simpl in Hn; lia).
    destruct (truthy_opt debug_response) eqn:Htruthy.
    + destruct debug_response as [text|]; [| discriminate].
      change (default "" (Some text)) with text. cbn in Htruthy.
      destruct (extract_command text) as [cmd'|] eqn:Hcmd; cbn [truthy_opt negb].
      * destruct (truthy cmd') eqn:Hcmd'; cbn [negb].
        -- apply (at_fix cmd confirm debug_confirm stdin2 w text w6 cmd'); auto.
        -- apply at_no_fix; auto. now rewrite Hcmd.
      * apply at_no_fix; auto. now rewrite Hcmd.
    + apply (at_no_reply cmd confirm debug_confirm stdin2 w debug_response w6); auto.
Qed.

Lemma exec_loop_cases (stdin : list string) (cmd : string) (w : World) :
  P cmd stdin w (exec_loop env model cmd stdin w).
Proof. now apply (exec_loop_cases_upto (length stdin)). Qed.

End ExecLoopCases.

(** [handle_response], case by case. *)
Section FlowCases.
Variable env : Env.
Variable ai_response model : string.
Variable P : list string -> World -> res (list string) * World -> Prop.

Hypothesis at_no_code : forall stdin w,
  truthy_opt (extract_command ai_response) = false -> P stdin w (Ok stdin, w).

Hypothesis at_save_error : forall stdin w code name w1 e w2,
  extract_command ai_response = Some code -> truthy code = true ->
  choose_name (extract_filename ai_response) w = (Ok name, w1) ->
  save_code name code w1 = (Raise e, w2) ->
  P stdin w (Raise e, w2).

Hypothesis at_run_eof : forall w code name w1 w2,
  extract_command ai_response = Some code -> truthy code = true ->
  choose_name (extract_filename ai_response) w = (Ok name, w1) ->
  save_code name code w1 = (Ok tt, w2) ->
  P [] w (Raise EOFError,
          snd (log (InputEOF RunConfirm (run_prompt (flow_language ai_response))) w2)).

Hypothesis at_run_decline : forall run_confirm rest w code name w1 w2,
  extract_command ai_response = Some code -> truthy code = true ->
  choose_name (extract_filename ai_response) w = (Ok name, w1) ->
  save_code name code w1 = (Ok tt, w2) ->
  affirmative run_confirm = false ->
  P (run_confirm :: rest) w
    (Ok rest,
     snd (log (Input RunConfirm (run_prompt (flow_language ai_response)) run_confirm) w2)).

Hypothesis at_run_call_error : forall run_confirm rest w code name w1 w2 e w3,
  extract_command ai_response = Some code -> truthy code = true ->
  choose_name (extract_filename ai_response) w = (Ok name, w1) ->
  save_code name code w1 = (Ok tt, w2) ->
  affirmative run_confirm = true ->
  run_call env model name (flow_language ai_response) run_confirm w2 = (Raise e, w3) ->
  P (run_confirm :: rest) w (Raise e, w3).

Hypothesis at_run_no_reply : forall run_confirm rest w code name w1 w2 reply w3,
  extract_command ai_response = Some code -> truthy code = true ->
  choose_name (extract_filename ai_response) w = (Ok name, w1) ->
  save_code name code w1 = (Ok tt, w2) ->
  affirmative run_confirm = true ->
  run_call env model name (flow_language ai_response) run_confirm w2 = (Ok reply, w3) ->
  truthy_opt reply = false ->
  P (run_confirm :: rest) w (Ok rest, w3).

Hypothesis at_no_command : forall run_confirm rest w code name w1 w2 text w3,
  extract_command ai_response = Some code -> truthy code = true ->
  choose_name (extract_filename ai_response) w = (Ok name, w1) ->
  save_code name code w1 = (Ok tt, w2) ->
  affirmative run_confirm = true ->
  run_call env model name (flow_language ai_response) run_confirm w2 = (Ok (Some text), w3) ->
  truthy text = true ->
  truthy_opt (extract_command text) = false ->
  P (run_confirm :: rest) w
    (Ok rest, snd (print (NL +:+ "No valid run command generated." +:+ NL) w3)).

Hypothesis at_command : forall run_confirm rest w code name w1 w2 text w3 cmd,
  extract_command ai_response = Some code -> truthy code = true ->
  choose_name (extract_filename ai_response) w = (Ok name, w1) ->
  save_code name code w1 = (Ok tt, w2) ->
  affirmative run_confirm = true ->
  run_call env model name (flow_language ai_response) run_confirm w2 = (Ok (Some text), w3) ->
  truthy text = true ->
  extract_command text = Some cmd -> truthy cmd = true ->
  P (run_confirm :: rest) w (exec_loop env model cmd rest w3).

Lemma handle_response_cases (stdin : list string) (w : World) :
  P stdin w (handle_response env ai_response model stdin w).
Proof.
  unfold handle_response.
  pose proof at_no_code as H0. pose proof at_save_error as H1.
  pose proof at_run_eof as H2. pose proof at_run_decline as H3.
  pose proof at_run_call_error as H4. pose proof at_run_no_reply as H5.
  pose proof at_no_command as H6. pose proof at_command as H7.
  unfold flow_language, extract_command, extract_filename, extract_language in *.
  destruct (extract_code_block ai_response) as [[filename language] code].
  cbn [fst snd] in *.
  destruct code as [code|]; cbn [truthy_opt negb]; [| now apply H0].
  destruct (truthy code) eqn:Hcode; cbn [negb]; [| now apply H0].
  change (default "" (Some code)) with code.
  unfold bind.
  destruct (choose_name_frame filename w) as (_ & _ & _ & _ & _ & name' & Hname).
  destruct (choose_name filename w) as [[name|e] w1] eqn:Hchoose; cbn [fst] in Hname;
    [| discriminate].
  destruct (save_code name code w1) as [[[]|e] w2] eqn:Hsave;
    [| now apply (H1 stdin w code name w1 e w2)].
  destruct stdin as [|run_confirm stdin1]; cbn [run_flow]; unfold bind; cbn [log fst snd].
  { now apply (H2 w code name w1 w2). }
  destruct (affirmative run_confirm) eqn:Hrun; cbn [negb];
    [| now apply (H3 run_confirm stdin1 w code name w1 w2)].
  cbn [print log].
  specialize (H4 run_confirm stdin1 w code name w1 w2).
  specialize (H5 run_confirm stdin1 w code name w1 w2).
  specialize (H6 run_confirm stdin1 w code name w1 w2).
  specialize (H7 run_confirm stdin1 w code name w1 w2).
  unfold run_call in H4, H5, H6, H7. cbn [print log fst snd] in H4, H5, H6, H7.
  destruct (call_ollama_api_stream env _ model default_max_retries _)
    as [[reply|e] w3]; [| now apply H4].
  destruct (truthy_opt reply) eqn:Hreply; cbn [negb]; [| now apply (H5 reply w3)].
  destruct reply as [text|]; [| discriminate]. cbn in Hreply.
  change (default "" (Some text)) with text.
  destruct (extract_command text) as [cmd|] eqn:Hcmd; cbn [truthy_opt negb].
  - destruct (truthy cmd) eqn:Hcmd'; cbn [negb].
    + change (default "" (Some cmd)) with cmd. now apply (H7 text w3 cmd).
    + apply (H6 text w3); auto. fold (extract_command text). now rewrite Hcmd.
  - apply (H6 text w3); auto. fold (extract_command text). now rewrite Hcmd.
Qed.

End FlowCases.

(** Counting what a list of events holds. *)
Ltac tally :=
  cbn [fst snd]; try (split; [reflexivity |]);
  cbn; cbn [rev app length];
  rewrite ?length_app, ?length_replicate; cbn [rev app length];
  repeat split; try reflexivity; try assumption; try lia.

Section FlowAccount.
Variable env : Env.

Lemma debug_call_account (model cmd confirm debug_confirm : string) (w : World)
    (r : res (option string)) (w6 : World) :
  debug_call env model cmd confirm debug_confirm w = (r, w6) ->
  exists added n,
    trace w6
    = (added ++ Print (NL +:+ "Debugging: ")
         :: Input DebugConfirm debug_prompt debug_confirm
         :: Print (NL +:+ "Error: " +:+ str_e (shell env (runs w)) +:+ NL +:+ "Stderr:"
                     +:+ NL +:+ stderr (shell env (runs w)) +:+ NL)
         :: Exec cmd :: Input ExecConfirm (exec_prompt cmd) confirm :: trace w)%list
    /\ typed added = [] /\ executed added = []
    /\ posted added
       = replicate n (messages w ++ [correction_request (stderr (shell env (runs w)))])%list
    /\ posts w6 = posts w + n /\ n <= 3
    /\ messages w6 = messages w /\ runs w6 = S (runs w)
    /\ file_counter w6 = file_counter w
    /\ fs w6 = shell_fs env (runs w) (fs w).
Proof.
  unfold debug_call. intros H.
  match type of H with
  | call_ollama_api_stream env ?ms model default_max_retries ?w5 = _ =>
      destruct (call_account env ms model w5)
        as (added & n & Ht & Hty & Hex & Hpo & Hp & Hn & Hf & Hc & Hm & Hr)
  end.
  rewrite H in *. cbn [snd] in *. cbn in Ht, Hp, Hf, Hc, Hm, Hr.
  exists added, n. repeat split; assumption.
Qed.

Lemma run_call_account (model filename language run_confirm : string) (w : World)
    (r : res (option string)) (w3 : World) :
  run_call env model filename language run_confirm w = (r, w3) ->
  exists added n,
    trace w3
    = (added ++ Print (NL +:+ "Generating run command: ")
         :: Input RunConfirm (run_prompt language) run_confirm :: trace w)%list
    /\ typed added = [] /\ executed added = []
    /\ posted added = replicate n (run_messages filename language)
    /\ posts w3 = posts w + n /\ n <= 3
    /\ messages w3 = messages w /\ runs w3 = runs w
    /\ file_counter w3 = file_counter w
    /\ fs w3 = fs w.
Proof.
  unfold run_call. intros H.
  match type of H with
  | call_ollama_api_stream env ?ms model default_max_retries ?w2 = _ =>
      destruct (call_account env ms model w2)
        as (added & n & Ht & Hty & Hex & Hpo & Hp & Hn & Hf & Hc & Hm & Hr)
  end.
  rewrite H in *. cbn [snd] in *. cbn in Ht, Hp, Hf, Hc, Hm, Hr.
  exists added, n. repeat split; assumption.
Qed.

(** Saving adds no answer, no execution and no request to the trace. *)
Lemma save_code_account (filename code : string) (w : World) (r : res unit) (w2 : World) :
  save_code filename code w = (r, w2) ->
  exists added,
    trace w2 = (added ++ trace w)%list /\ added <> []
    /\ typed added = [] /\ executed added = [] /\ posted added = []
    /\ messages w2 = messages w /\ posts w2 = posts w /\ runs w2 = runs w
    /\ file_counter w2 = file_counter w.
Proof.
  unfold save_code, bind, fs_op. cbn [log fst snd].
  destruct (Fs.makedirs (Fs.dirname filename) _) as [[[]|e] f1]; cbn [fs set_fs].
  - destruct (Fs.write_text filename code _) as [[[]|e] f2]; cbn; intros [= <- <-].
    + exists [Print (NL +:+ "Code saved to " +:+ filename +:+ NL); OpenW filename;
              MakeDirs (Fs.dirname filename)]. now repeat split.
    + exists [OpenW filename; MakeDirs (Fs.dirname filename)]. now repeat split.
  - intros [= <- <-]. exists [MakeDirs (Fs.dirname filename)]. now repeat split.
Qed.

Lemma choose_name_account (filename : option string) (w : World) (name : string)
    (w1 : World) :
  choose_name filename w = (Ok name, w1) ->
  trace w1 = trace w /\ messages w1 = messages w /\ posts w1 = posts w
  /\ runs w1 = runs w /\ fs w1 = fs w /\ file_counter w <= file_counter w1.
Proof.
  unfold choose_name. destruct (truthy_opt filename).
  - intros [= <- <-]. repeat split. lia.
  - intros H. destruct (auto_name_unused w) as (_ & _ & Hle & _).
    rewrite H in Hle. cbn [snd] in Hle.
    unfold auto_name in H. injection H as _ <-. now repeat split.
Qed.

(** What a run of the loop has read, run and posted. *)
Lemma exec_loop_account (model : string) (stdin : list string) (cmd : string) (w : World) :
  let out := exec_loop env model cmd stdin w in
  exists added used rest,
    trace (snd out) = (added ++ trace w)%list
    /\ stdin = (used ++ rest)%list /\ typed added = used
    /\ (forall r, fst out = Ok r -> r = rest)
    /\ runs (snd out) = runs w + length (executed added)
    /\ posts (snd out) = posts w + length (posted added)
    /\ length (executed added) <= length used
    /\ length (posted added) <= 3 * length (executed added)
    /\ file_counter (snd out) = file_counter w.
Proof.
  cbv zeta.
  apply (exec_loop_cases env model
           (fun cmd stdin w out =>
              exists added used rest,
                trace (snd out) = (added ++ trace w)%list
                /\ stdin = (used ++ rest)%list /\ typed added = used
                /\ (forall r, fst out = Ok r -> r = rest)
                /\ runs (snd out) = runs w + length (executed added)
                /\ posts (snd out) = posts w + length (posted added)
                /\ length (executed added) <= length used
                /\ length (posted added) <= 3 * length (executed added)
                /\ file_counter (snd out) = file_counter w)); clear stdin cmd w.
  - intros cmd w. exists [InputEOF ExecConfirm (exec_prompt cmd)], [], [].
    tally. discriminate.
  - intros cmd confirm rest w _.
    exists [Input ExecConfirm (exec_prompt cmd) confirm], [confirm], rest.
    tally. now intros r [= <-].
  - intros cmd confirm rest w _ _.
    eexists [_; Exec cmd; Input ExecConfirm (exec_prompt cmd) confirm], [confirm], rest.
    tally. now intros r [= <-].
  - intros cmd confirm w _ _.
    eexists [_; _; Exec cmd; Input ExecConfirm (exec_prompt cmd) confirm], [confirm], [].
    tally. discriminate.
  - intros cmd confirm debug_confirm rest w _ _ _.
    eexists [Input DebugConfirm debug_prompt debug_confirm; _; Exec cmd;
             Input ExecConfirm (exec_prompt cmd) confirm],
      [confirm; debug_confirm], rest.
    tally. now intros r [= <-].
  - intros cmd confirm debug_confirm rest w e w6 _ _ _ Hcall.
    destruct (debug_call_account _ _ _ _ _ _ _ Hcall)
      as (added & n & Ht & Hty & Hex & Hpo & Hp & Hn & Hm & Hr & Hc & _).
    eexists (added ++ [_; Input DebugConfirm debug_prompt debug_confirm; _; Exec cmd;
                        Input ExecConfirm (exec_prompt cmd) confirm])%list,
      [confirm; debug_confirm], rest.
    cbn [fst snd]. rewrite Ht, <- List.app_assoc.
    split; [reflexivity |].
    rewrite typed_app, executed_app, posted_app, Hty, Hex, Hpo.
    tally. discriminate.
  - intros cmd confirm debug_confirm rest w text w6 _ _ _ Hcall _ _.
    destruct (debug_call_account _ _ _ _ _ _ _ Hcall)
      as (added & n & Ht & Hty & Hex & Hpo & Hp & Hn & Hm & Hr & Hc & _).
    eexists ([_] ++ added
               ++ [_; Input DebugConfirm debug_prompt debug_confirm; _; Exec cmd;
                   Input ExecConfirm (exec_prompt cmd) confirm])%list,
      [confirm; debug_confirm], rest.
    cbn [fst snd print log append_message extend_messages trace runs posts file_counter].
    rewrite Ht, <- !List.app_assoc.
    split; [reflexivity |].
    rewrite !typed_app, !executed_app, !posted_app, Hty, Hex, Hpo.
    tally. now intros r [= <-].
  - intros cmd confirm debug_confirm rest w text w6 cmd' out _ _ _ Hcall _ _ _
           (added1 & used1 & rest1 & Ht1 & Hs1 & Hty1 & Hr1 & Hru1 & Hp1 & He1 & Hpo1 & Hc1).
    destruct (debug_call_account _ _ _ _ _ _ _ Hcall)
      as (added & n & Ht & Hty & Hex & Hpo & Hp & Hn & Hm & Hr & Hc & _).
    cbn in Ht1, Hru1, Hp1, Hc1.
    eexists (added1 ++ added
               ++ [_; Input DebugConfirm debug_prompt debug_confirm; _; Exec cmd;
                   Input ExecConfirm (exec_prompt cmd) confirm])%list,
      (confirm :: debug_confirm :: used1), rest1.
    rewrite Ht1, Ht, <- !List.app_assoc.
    split; [reflexivity |].
    rewrite !typed_app, !executed_app, !posted_app, Hty, Hex, Hpo, Hty1, Hs1.
    tally.
  - intros cmd confirm debug_confirm rest w reply w6 out _ _ _ Hcall _
           (added1 & used1 & rest1 & Ht1 & Hs1 & Hty1 & Hr1 & Hru1 & Hp1 & He1 & Hpo1 & Hc1).
    destruct (debug_call_account _ _ _ _ _ _ _ Hcall)
      as (added & n & Ht & Hty & Hex & Hpo & Hp & Hn & Hm & Hr & Hc & _).
    eexists (added1 ++ added
               ++ [_; Input DebugConfirm debug_prompt debug_confirm; _; Exec cmd;
                   Input ExecConfirm (exec_prompt cmd) confirm])%list,
      (confirm :: debug_confirm :: used1), rest1.
    rewrite Ht1, Ht, <- !List.app_assoc.
    split; [reflexivity |].
    rewrite !typed_app, !executed_app, !posted_app, Hty, Hex, Hpo, Hty1, Hs1.
    tally.
Qed.

End FlowAccount.

Section ResponseAccount.
Variable env : Env.

(** What [handle_response] has read, run and posted. *)
Lemma handle_response_account (ai_response model : string) (stdin : list string)
    (w : World) :
  let out := handle_response env ai_response model stdin w in
  exists added used rest,
    trace (snd out) = (added ++ trace w)%list
    /\ stdin = (used ++ rest)%list /\ typed added = used
    /\ (forall r, fst out = Ok r -> r = rest)
    /\ runs (snd out) = runs w + length (executed added)
    /\ posts (snd out) = posts w + length (posted added)
    /\ length (executed added) <= length used
    /\ length (posted added) <= 3 * S (length (executed added))
    /\ file_counter w <= file_counter (snd out).
Proof.
  cbv zeta.
  apply (handle_response_cases env ai_response model
           (fun stdin w out =>
              exists added used rest,
                trace (snd out) = (added ++ trace w)%list
                /\ stdin = (used ++ rest)%list /\ typed added = used
                /\ (forall r, fst out = Ok r -> r = rest)
                /\ runs (snd out) = runs w + length (executed added)
                /\ posts (snd out) = posts w + length (posted added)
                /\ length (executed added) <= length used
                /\ length (posted added) <= 3 * S (length (executed added))
                /\ file_counter w <= file_counter (snd out))); clear stdin w.
  - intros stdin w _. exists [], [], stdin. tally. now intros r [= <-].
  - intros stdin w code name w1 e w2 _ _ Hname Hsave.
    destruct (choose_name_account _ _ _ _ Hname) as (Ht1 & Hm1 & Hp1 & Hr1 & _ & Hc1).
    destruct (save_code_account _ _ _ _ _ Hsave)
      as (addedS & Ht2 & _ & Hty2 & Hex2 & Hpo2 & Hm2 & Hp2 & Hr2 & Hc2).
    exists addedS, [], stdin. cbn [fst snd]. rewrite Ht2, Ht1, Hty2, Hex2, Hpo2.
    tally. discriminate.
  - intros w code name w1 w2 _ _ Hname Hsave.
    destruct (choose_name_account _ _ _ _ Hname) as (Ht1 & Hm1 & Hp1 & Hr1 & _ & Hc1).
    destruct (save_code_account _ _ _ _ _ Hsave)
      as (addedS & Ht2 & _ & Hty2 & Hex2 & Hpo2 & Hm2 & Hp2 & Hr2 & Hc2).
    eexists ([_] ++ addedS)%list, [], []. cbn [fst snd log trace]. rewrite Ht2, Ht1.
    split; [reflexivity |].
    rewrite typed_app, executed_app, posted_app, Hty2, Hex2, Hpo2.
    tally. discriminate.
  - intros run_confirm rest w code name w1 w2 _ _ Hname Hsave _.
    destruct (choose_name_account _ _ _ _ Hname) as (Ht1 & Hm1 & Hp1 & Hr1 & _ & Hc1).
    destruct (save_code_account _ _ _ _ _ Hsave)
      as (addedS & Ht2 & _ & Hty2 & Hex2 & Hpo2 & Hm2 & Hp2 & Hr2 & Hc2).
    eexists ([_] ++ addedS)%list, [run_confirm], rest. cbn [fst snd log trace].
    rewrite Ht2, Ht1. split; [reflexivity |].
    rewrite typed_app, executed_app, posted_app, Hty2, Hex2, Hpo2.
    tally. now intros r [= <-].
  - intros run_confirm rest w code name w1 w2 e w3 _ _ Hname Hsave _ Hcall.
    destruct (choose_name_account _ _ _ _ Hname) as (Ht1 & Hm1 & Hp1 & Hr1 & _ & Hc1).
    destruct (save_code_account _ _ _ _ _ Hsave)
      as (addedS & Ht2 & _ & Hty2 & Hex2 & Hpo2 & Hm2 & Hp2 & Hr2 & Hc2).
    destruct (run_call_account _ _ _ _ _ _ _ _ Hcall)
      as (added & n & Ht & Hty & Hex & Hpo & Hp & Hn & Hm & Hr & Hc & _).
    eexists (added ++ [_; _] ++ addedS)%list, [run_confirm], rest. cbn [fst snd].
    rewrite Ht, Ht2, Ht1, <- !List.app_assoc. split; [reflexivity |].
    rewrite !typed_app, !executed_app, !posted_app, Hty2, Hex2, Hpo2, Hty, Hex, Hpo.
    tally. discriminate.
  - intros run_confirm rest w code name w1 w2 reply w3 _ _ Hname Hsave _ Hcall _.
    destruct (choose_name_account _ _ _ _ Hname) as (Ht1 & Hm1 & Hp1 & Hr1 & _ & Hc1).
    destruct (save_code_account _ _ _ _ _ Hsave)
      as (addedS & Ht2 & _ & Hty2 & Hex2 & Hpo2 & Hm2 & Hp2 & Hr2 & Hc2).
    destruct (run_call_account _ _ _ _ _ _ _ _ Hcall)
      as (added & n & Ht & Hty & Hex & Hpo & Hp & Hn & Hm & Hr & Hc & _).
    eexists (added ++ [_; _] ++ addedS)%list, [run_confirm], rest. cbn [fst snd].
    rewrite Ht, Ht2, Ht1, <- !List.app_assoc. split; [reflexivity |].
    rewrite !typed_app, !executed_app, !posted_app, Hty2, Hex2, Hpo2, Hty, Hex, Hpo.
    tally. now intros r [= <-].
  - intros run_confirm rest w code name w1 w2 text w3 _ _ Hname Hsave _ Hcall _ _.
    destruct (choose_name_account _ _ _ _ Hname) as (Ht1 & Hm1 & Hp1 & Hr1 & _ & Hc1).
    destruct (save_code_account _ _ _ _ _ Hsave)
      as (addedS & Ht2 & _ & Hty2 & Hex2 & Hpo2 & Hm2 & Hp2 & Hr2 & Hc2).
    destruct (run_call_account _ _ _ _ _ _ _ _ Hcall)
      as (added & n & Ht & Hty & Hex & Hpo & Hp & Hn & Hm & Hr & Hc & _).
    eexists ([_] ++ added ++ [_; _] ++ addedS)%list, [run_confirm], rest.
    cbn [fst snd print log trace runs posts file_counter].
    rewrite Ht, Ht2, Ht1, <- !List.app_assoc. split; [reflexivity |].
    rewrite !typed_app, !executed_app, !posted_app, Hty2, Hex2, Hpo2, Hty, Hex, Hpo.
    tally. now intros r [= <-].
  - intros run_confirm rest w code name w1 w2 text w3 cmd _ _ Hname Hsave _ Hcall _ _ _.
    destruct (choose_name_account _ _ _ _ Hname) as (Ht1 & Hm1 & Hp1 & Hr1 & _ & Hc1).
    destruct (save_code_account _ _ _ _ _ Hsave)
      as (addedS & Ht2 & _ & Hty2 & Hex2 & Hpo2 & Hm2 & Hp2 & Hr2 & Hc2).
    destruct (run_call_account _ _ _ _ _ _ _ _ Hcall)
      as (added & n & Ht & Hty & Hex & Hpo & Hp & Hn & Hm & Hr & Hc & _).
    destruct (exec_loop_account env model rest cmd w3)
      as (added1 & used1 & rest1 & Ht3 & Hs3 & Hty3 & Hr3 & Hru3 & Hp3 & He3 & Hpo3 & Hc3).
    subst rest.
    eexists (added1 ++ added ++ [_; _] ++ addedS)%list, (run_confirm :: used1), rest1.
    rewrite Ht3, Ht, Ht2, Ht1, <- !List.app_assoc. split; [reflexivity |].
    rewrite !typed_app, !executed_app, !posted_app, Hty2, Hex2, Hpo2, Hty, Hex, Hpo,
      Hty3.
    tally.
Qed.

End ResponseAccount.


(** X9: the two counters of [handle_response] are those of its trace: one
    run per execution, one post per request; it sends at most three
    requests for the run command and three more per command it has run,
    and the file counter never goes down. *)
Theorem requests_and_runs_are_bounded (env : Env) (ai_response model : string)
    (stdin : list string) (w : World) :
  let w' := snd (handle_response env ai_response model stdin w) in
  exists added,
    trace w' = (added ++ trace w)%list
    /\ runs w' = runs w + length (executed added)
    /\ posts w' = posts w + length (posted added)
    /\ length (posted added) <= 3 * S (length (executed added))
    /\ length (executed added) <= length stdin
    /\ file_counter w <= file_counter w'.
Proof.
  destruct (handle_response_account env ai_response model stdin w)
    as (added & used & rest & Ht & Hs & Hty & _ & Hr & Hp & He & Hpo & Hc).
  exists added. repeat split; try assumption.
  rewrite Hs, length_app. lia.
Qed.

Section Requests.
Variable env : Env.

(** What the debug rounds of the loop have sent and what the loop has
    run, in terms of the replies it has stored. *)
Lemma exec_loop_requests (model : string) (stdin : list string) (cmd : string) (w : World) :
  let w' := snd (exec_loop env model cmd stdin w) in
  exists added replies,
    trace w' = (added ++ trace w)%list
    /\ messages w' = (messages w ++ map (msg assistant) replies)%list
    /\ runs w <= runs w'
    /\ Forall (fun msgs =>
                 exists rs i,
                   rs `prefix_of` replies /\ runs w <= i < runs w'
                   /\ msgs = (messages w ++ map (msg assistant) rs
                                ++ [correction_request (stderr (shell env i))])%list)
              (posted added)
    /\ Forall (fun c =>
                 c = cmd
                 \/ exists reply, In reply replies /\ extract_command reply = Some c)
              (executed added).
Proof.
  cbv zeta.
  apply (exec_loop_cases env model
           (fun cmd stdin w out =>
              exists added replies,
                trace (snd out) = (added ++ trace w)%list
                /\ messages (snd out) = (messages w ++ map (msg assistant) replies)%list
                /\ runs w <= runs (snd out)
                /\ Forall (fun msgs =>
                             exists rs i,
                               rs `prefix_of` replies /\ runs w <= i < runs (snd out)
                               /\ msgs = (messages w ++ map (msg assistant) rs
                                            ++ [correction_request (stderr (shell env i))])%list)
                          (posted added)
                /\ Forall (fun c =>
                             c = cmd
                             \/ exists reply,
                                 In reply replies /\ extract_command reply = Some c)
                          (executed added))); clear stdin cmd w.
  - intros cmd w. exists [InputEOF ExecConfirm (exec_prompt cmd)], [].
    cbn. rewrite app_nil_r. repeat split; auto.
  - intros cmd confirm rest w _.
    exists [Input ExecConfirm (exec_prompt cmd) confirm], [].
    cbn. rewrite app_nil_r. repeat split; auto.
  - intros cmd confirm rest w _ _.
    eexists [_; Exec cmd; Input ExecConfirm (exec_prompt cmd) confirm], [].
    cbn [fst snd]. split; [reflexivity |].
    cbn. rewrite app_nil_r. repeat split; auto.
  - intros cmd confirm w _ _.
    eexists [_; _; Exec cmd; Input ExecConfirm (exec_prompt cmd) confirm], [].
    cbn [fst snd]. split; [reflexivity |].
    cbn. rewrite app_nil_r. repeat split; auto.
  - intros cmd confirm debug_confirm rest w _ _ _.
    eexists [Input DebugConfirm debug_prompt debug_confirm; _; Exec cmd;
             Input ExecConfirm (exec_prompt cmd) confirm], [].
    cbn [fst snd]. split; [reflexivity |].
    cbn. rewrite app_nil_r. repeat split; auto.
  - intros cmd confirm debug_confirm rest w e w6 _ _ _ Hcall.
    destruct (debug_call_account _ _ _ _ _ _ _ _ Hcall)
      as (added & n & Ht & Hty & Hex & Hpo & Hp & Hn & Hm & Hr & Hc & _).
    eexists (added ++ [_; Input DebugConfirm debug_prompt debug_confirm; _; Exec cmd;
                        Input ExecConfirm (exec_prompt cmd) confirm])%list, [].
    cbn [fst snd]. rewrite Ht, <- List.app_assoc. split; [reflexivity |].
    rewrite executed_app, posted_app, Hex, Hpo, Hm, Hr.
    cbn. rewrite app_nil_r. repeat split; auto.
    apply Forall_replicate. exists [], (runs w). repeat split; auto; try apply prefix_nil.
  - intros cmd confirm debug_confirm rest w text w6 _ _ _ Hcall _ _.
    destruct (debug_call_account _ _ _ _ _ _ _ _ Hcall)
      as (added & n & Ht & Hty & Hex & Hpo & Hp & Hn & Hm & Hr & Hc & _).
    eexists ([_] ++ added
               ++ [_; Input DebugConfirm debug_prompt debug_confirm; _; Exec cmd;
                   Input ExecConfirm (exec_prompt cmd) confirm])%list, [text].
    cbn [fst snd print log append_message extend_messages trace runs messages].
    rewrite Ht, <- !List.app_assoc. split; [reflexivity |].
    rewrite !executed_app, !posted_app, Hex, Hpo, Hm, Hr.
    cbn. rewrite ?app_nil_r. repeat split; auto.
    apply Forall_replicate. exists [], (runs w). repeat split; auto; try apply prefix_nil.
  - intros cmd confirm debug_confirm rest w text w6 cmd' out _ _ _ Hcall _ Hcmd _
           (added1 & replies1 & Ht1 & Hm1 & Hr1 & Hpo1 & Hex1).
    destruct (debug_call_account _ _ _ _ _ _ _ _ Hcall)
      as (added & n & Ht & Hty & Hex & Hpo & Hp & Hn & Hm & Hr & Hc & _).
    cbn [snd append_message extend_messages trace runs messages] in Ht1, Hm1, Hr1, Hpo1.
    eexists (added1 ++ added
               ++ [_; Input DebugConfirm debug_prompt debug_confirm; _; Exec cmd;
                   Input ExecConfirm (exec_prompt cmd) confirm])%list, (text :: replies1).
    rewrite Ht1, Ht, <- !List.app_assoc. split; [reflexivity |].
    rewrite Hm1, Hm, <- List.app_assoc. split; [reflexivity |].
    split; [lia |].
    rewrite !executed_app, !posted_app, Hex, Hpo.
    cbn [posted executed omap list_omap rev app]. split.
    + apply Forall_app. split.
      * apply Forall_replicate. exists [], (runs w). repeat split; try lia; try apply prefix_nil.
      * eapply Forall_impl; [exact Hpo1 |].
        intros msgs (rs & i & Hpre & Hi & ->). exists (text :: rs), i.
        split; [now apply prefix_cons |]. split; [lia |].
        rewrite Hm, <- !List.app_assoc. reflexivity.
    + apply Forall_cons. split; [now left |].
      eapply Forall_impl; [exact Hex1 |].
      intros c [-> | (reply & Hin & Hc')].
      * right. exists text. split; [now left | exact Hcmd].
      * right. exists reply. split; [now right | exact Hc'].
  - intros cmd confirm debug_confirm rest w reply w6 out _ _ _ Hcall _
           (added1 & replies1 & Ht1 & Hm1 & Hr1 & Hpo1 & Hex1).
    destruct (debug_call_account _ _ _ _ _ _ _ _ Hcall)
      as (added & n & Ht & Hty & Hex & Hpo & Hp & Hn & Hm & Hr & Hc & _).
    eexists (added1 ++ added
               ++ [_; Input DebugConfirm debug_prompt debug_confirm; _; Exec cmd;
                   Input ExecConfirm (exec_prompt cmd) confirm])%list, replies1.
    rewrite Ht1, Ht, <- !List.app_assoc. split; [reflexivity |].
    rewrite Hm1, Hm. split; [reflexivity |].
    split; [lia |].
    rewrite !executed_app, !posted_app, Hex, Hpo.
    cbn [posted executed omap list_omap rev app]. split.
    + apply Forall_app. split.
      * apply Forall_replicate. exists [], (runs w). repeat split; try lia; try apply prefix_nil.
      * eapply Forall_impl; [exact Hpo1 |].
        intros msgs (rs & i & Hpre & Hi & ->). exists rs, i.
        split; [exact Hpre |]. split; [lia |]. now rewrite Hm.
    + apply Forall_cons. split; [now left |]. exact Hex1.
Qed.

End Requests.

(** X10: every request that [handle_response] sends is either the
    two-message request for a run command or, in a debug round, the main
    conversation as it stands (the one it started with and the replies
    stored since) followed by one correction request with the stderr of a
    command run in this flow; a correction request is never part of a
    later request. *)
Theorem requests_carry_the_conversation (env : Env) (ai_response model : string)
    (stdin : list string) (w : World) :
  let w' := snd (handle_response env ai_response model stdin w) in
  exists added replies,
    trace w' = (added ++ trace w)%list
    /\ messages w' = (messages w ++ map (msg assistant) replies)%list
    /\ Forall (fun msgs =>
                 (exists name, msgs = run_messages name (flow_language ai_response))
                 \/ exists rs i,
                     rs `prefix_of` replies /\ runs w <= i < runs w'
                     /\ msgs = (messages w ++ map (msg assistant) rs
                                  ++ [correction_request (stderr (shell env i))])%list)
              (posted added).
Proof.
  cbv zeta.
  apply (handle_response_cases env ai_response model
           (fun stdin w out =>
              exists added replies,
                trace (snd out) = (added ++ trace w)%list
                /\ messages (snd out) = (messages w ++ map (msg assistant) replies)%list
                /\ Forall (fun msgs =>
                             (exists name, msgs = run_messages name (flow_language ai_response))
                             \/ exists rs i,
                                 rs `prefix_of` replies /\ runs w <= i < runs (snd out)
                                 /\ msgs = (messages w ++ map (msg assistant) rs
                                              ++ [correction_request (stderr (shell env i))])%list)
                          (posted added))); clear stdin w.
  - intros stdin w _. exists [], []. cbn. rewrite app_nil_r. now repeat split.
  - intros stdin w code name w1 e w2 _ _ Hname Hsave.
    destruct (choose_name_account _ _ _ _ Hname) as (Ht1 & Hm1 & _).
    destruct (save_code_account _ _ _ _ _ Hsave)
      as (addedS & Ht2 & _ & _ & _ & Hpo2 & Hm2 & _).
    exists addedS, []. cbn [fst snd]. rewrite Ht2, Ht1, Hm2, Hm1, Hpo2, app_nil_r.
    now repeat split.
  - intros w code name w1 w2 _ _ Hname Hsave.
    destruct (choose_name_account _ _ _ _ Hname) as (Ht1 & Hm1 & _).
    destruct (save_code_account _ _ _ _ _ Hsave)
      as (addedS & Ht2 & _ & _ & _ & Hpo2 & Hm2 & _).
    eexists ([_] ++ addedS)%list, []. cbn [fst snd log trace messages].
    rewrite Ht2, Ht1, Hm2, Hm1, posted_app, Hpo2, app_nil_r.
    split; [reflexivity |]. now repeat split.
  - intros run_confirm rest w code name w1 w2 _ _ Hname Hsave _.
    destruct (choose_name_account _ _ _ _ Hname) as (Ht1 & Hm1 & _).
    destruct (save_code_account _ _ _ _ _ Hsave)
      as (addedS & Ht2 & _ & _ & _ & Hpo2 & Hm2 & _).
    eexists ([_] ++ addedS)%list, []. cbn [fst snd log trace messages].
    rewrite Ht2, Ht1, Hm2, Hm1, posted_app, Hpo2, app_nil_r.
    split; [reflexivity |]. now repeat split.
  - intros run_confirm rest w code name w1 w2 e w3 _ _ Hname Hsave _ Hcall.
    destruct (choose_name_account _ _ _ _ Hname) as (Ht1 & Hm1 & _).
    destruct (save_code_account _ _ _ _ _ Hsave)
      as (addedS & Ht2 & _ & _ & _ & Hpo2 & Hm2 & _).
    destruct (run_call_account _ _ _ _ _ _ _ _ Hcall)
      as (added & n & Ht & _ & _ & Hpo & _ & _ & Hm & _).
    eexists (added ++ [_; _] ++ addedS)%list, []. cbn [fst snd].
    rewrite Ht, Ht2, Ht1, Hm, Hm2, Hm1, <- !List.app_assoc, app_nil_r.
    split; [reflexivity |]. split; [reflexivity |].
    rewrite !posted_app, Hpo2, Hpo. cbn [posted omap list_omap rev app].
    apply Forall_replicate. left. now exists name.
  - intros run_confirm rest w code name w1 w2 reply w3 _ _ Hname Hsave _ Hcall _.
    destruct (choose_name_account _ _ _ _ Hname) as (Ht1 & Hm1 & _).
    destruct (save_code_account _ _ _ _ _ Hsave)
      as (addedS & Ht2 & _ & _ & _ & Hpo2 & Hm2 & _).
    destruct (run_call_account _ _ _ _ _ _ _ _ Hcall)
      as (added & n & Ht & _ & _ & Hpo & _ & _ & Hm & _).
    eexists (added ++ [_; _] ++ addedS)%list, []. cbn [fst snd].
    rewrite Ht, Ht2, Ht1, Hm, Hm2, Hm1, <- !List.app_assoc, app_nil_r.
    split; [reflexivity |]. split; [reflexivity |].
    rewrite !posted_app, Hpo2, Hpo. cbn [posted omap list_omap rev app].
    apply Forall_replicate. left. now exists name.
  - intros run_confirm rest w code name w1 w2 text w3 _ _ Hname Hsave _ Hcall _ _.
    destruct (choose_name_account _ _ _ _ Hname) as (Ht1 & Hm1 & _).
    destruct (save_code_account _ _ _ _ _ Hsave)
      as (addedS & Ht2 & _ & _ & _ & Hpo2 & Hm2 & _).
    destruct (run_call_account _ _ _ _ _ _ _ _ Hcall)
      as (added & n & Ht & _ & _ & Hpo & _ & _ & Hm & _).
    eexists ([_] ++ added ++ [_; _] ++ addedS)%list, [].
    cbn [fst snd print log trace messages].
    rewrite Ht, Ht2, Ht1, Hm, Hm2, Hm1, <- !List.app_assoc, app_nil_r.
    split; [reflexivity |]. split; [reflexivity |].
    rewrite !posted_app, Hpo2, Hpo. cbn [posted omap list_omap rev app].
    rewrite app_nil_r. apply Forall_replicate. left. now exists name.
  - intros run_confirm rest w code name w1 w2 text w3 cmd _ _ Hname Hsave _ Hcall _ _ _.
    destruct (choose_name_account _ _ _ _ Hname) as (Ht1 & Hm1 & _ & Hr1 & _).
    destruct (save_code_account _ _ _ _ _ Hsave)
      as (addedS & Ht2 & _ & _ & _ & Hpo2 & Hm2 & _ & Hr2 & _).
    destruct (run_call_account _ _ _ _ _ _ _ _ Hcall)
      as (added & n & Ht & _ & _ & Hpo & _ & _ & Hm & Hr & _).
    destruct (exec_loop_requests env model rest cmd w3)
      as (added1 & replies & Ht3 & Hm3 & Hr3 & Hpo3 & _).
    eexists (added1 ++ added ++ [_; _] ++ addedS)%list, replies.
    rewrite Ht3, Ht, Ht2, Ht1, Hm3, Hm, Hm2, Hm1, <- !List.app_assoc.
    split; [reflexivity |]. split; [reflexivity |].
    rewrite !posted_app, Hpo2, Hpo. cbn [posted omap list_omap rev app].
    apply Forall_app. split.
    + apply Forall_replicate. left. now exists name.
    + eapply Forall_impl; [exact Hpo3 |].
      intros msgs (rs & i & Hpre & Hi & ->). right. exists rs, i.
      rewrite Hm, Hm2, Hm1. repeat split; try assumption; lia.
Qed.

(** X11: every command the execution loop runs is the one it was started
    with or the code of a debug reply it has stored in the conversation. *)
Theorem commands_come_from_replies (env : Env) (model : string) (stdin : list string)
    (run_command : string) (w : World) :
  let w' := snd (exec_loop env model run_command stdin w) in
  exists added replies,
    trace w' = (added ++ trace w)%list
    /\ messages w' = (messages w ++ map (msg assistant) replies)%list
    /\ Forall (fun c =>
                 c = run_command
                 \/ exists reply, In reply replies /\ extract_command reply = Some c)
              (executed added).
Proof.
  destruct (exec_loop_requests env model stdin run_command w)
    as (added & replies & Ht & Hm & _ & _ & Hex).
  now exists added, replies.
Qed.

Section RunOnce.
Variable env : Env.


End RunOnce.



(** X13: [handle_response] leaves everything as it is, the trace
    included, exactly when the reply holds no code (no block, or an empty
    one). *)
Theorem no_code_no_effect (env : Env) (ai_response model : string)
    (stdin : list string) (w : World) :
  handle_response env ai_response model stdin w = (Ok stdin, w)
  <-> truthy_opt (extract_command ai_response) = false.
Proof.
  split.
  - destruct (truthy_opt (extract_command ai_response)) eqn:Hcode; [| reflexivity].
    intros Heq. exfalso.
    assert (Hlen : length (trace w)
                   < length (trace (snd (handle_response env ai_response model stdin w)))).
    { revert Hcode. clear Heq. revert stdin w.
      apply (handle_response_cases env ai_response model
               (fun stdin w out =>
                  truthy_opt (extract_command ai_response) = true ->
                  length (trace w) < length (trace (snd out)))).
      - intros stdin w H0 H1. congruence.
      - intros stdin w code name w1 e w2 _ _ Hname Hsave _.
        destruct (choose_name_account _ _ _ _ Hname) as (Ht1 & _).
        destruct (save_code_account _ _ _ _ _ Hsave) as (addedS & Ht2 & Hne & _).
        cbn [snd]. rewrite Ht2, Ht1, length_app.
        destruct addedS; [contradiction | simpl; lia].
      - intros w code name w1 w2 _ _ Hname Hsave _.
        destruct (choose_name_account _ _ _ _ Hname) as (Ht1 & _).
        destruct (save_code_account _ _ _ _ _ Hsave) as (addedS & Ht2 & Hne & _).
        cbn. rewrite Ht2, Ht1, length_app. lia.
      - intros run_confirm rest w code name w1 w2 _ _ Hname Hsave _ _.
        destruct (choose_name_account _ _ _ _ Hname) as (Ht1 & _).
        destruct (save_code_account _ _ _ _ _ Hsave) as (addedS & Ht2 & Hne & _).
        cbn. rewrite Ht2, Ht1, length_app. lia.
      - intros run_confirm rest w code name w1 w2 e w3 _ _ Hname Hsave _ Hcall _.
        destruct (choose_name_account _ _ _ _ Hname) as (Ht1 & _).
        destruct (save_code_account _ _ _ _ _ Hsave) as (addedS & Ht2 & Hne & _).
        destruct (run_call_account _ _ _ _ _ _ _ _ Hcall) as (added & n & Ht & _).
        cbn [snd]. rewrite Ht, Ht2, Ht1, !length_app. simpl. rewrite length_app. lia.
      - intros run_confirm rest w code name w1 w2 reply w3 _ _ Hname Hsave _ Hcall _ _.
        destruct (choose_name_account _ _ _ _ Hname) as (Ht1 & _).
        destruct (save_code_account _ _ _ _ _ Hsave) as (addedS & Ht2 & Hne & _).
        destruct (run_call_account _ _ _ _ _ _ _ _ Hcall) as (added & n & Ht & _).
        cbn [snd]. rewrite Ht, Ht2, Ht1, !length_app. simpl. rewrite length_app. lia.
      - intros run_confirm rest w code name w1 w2 text w3 _ _ Hname Hsave _ Hcall _ _ _.
        destruct (choose_name_account _ _ _ _ Hname) as (Ht1 & _).
        destruct (save_code_account _ _ _ _ _ Hsave) as (addedS & Ht2 & Hne & _).
        destruct (run_call_account _ _ _ _ _ _ _ _ Hcall) as (added & n & Ht & _).
        cbn. rewrite Ht, Ht2, Ht1, !length_app. simpl. rewrite length_app. lia.
      - intros run_confirm rest w code name w1 w2 text w3 cmd _ _ Hname Hsave _ Hcall _ _ _ _.
        destruct (choose_name_account _ _ _ _ Hname) as (Ht1 & _).
        destruct (save_code_account _ _ _ _ _ Hsave) as (addedS & Ht2 & Hne & _).
        destruct (run_call_account _ _ _ _ _ _ _ _ Hcall) as (added & n & Ht & _).
        destruct (exec_loop_account env model rest cmd w3) as (added1 & _ & _ & Ht3 & _).
        rewrite Ht3, Ht, Ht2, Ht1, !length_app. simpl. rewrite length_app. lia. }
    rewrite Heq in Hlen. cbn in Hlen. lia.
  - intros Hcode. unfold handle_response, extract_command in *.
    destruct (extract_code_block ai_response) as [[filename language] code].
    cbn [snd] in Hcode. now rewrite Hcode.
Qed.

(** ** More about saving *)

Section SaveOutcome.





End SaveOutcome.



(** ** The history file *)

Section HistoryFacts.
Variable json_dump : list ChatMessage -> string.
Variable json_load : string -> string + list ChatMessage.

(** The history file has a plain name, so it can be written unless a
    directory bears that name. *)
Lemma history_writable (f : Fs.t) :
  Fs.writable f history_file
  = if Fs.isdir f history_file then Raise (OSError IsADirectoryError history_file)
    else Ok tt.
Proof.
  unfold Fs.writable, history_file.
  change (Fs.ends_with_slash "chat_history.json") with false.
  change (Fs.dirname "chat_history.json") with "".
  now destruct (Fs.isdir f "chat_history.json").
Qed.

Lemma save_history_account (w : World) :
  let out := save_history json_dump w in
  let w' := snd out in
  fst out = Ok tt
  /\ messages w' = messages w /\ posts w' = posts w /\ runs w' = runs w
  /\ file_counter w' = file_counter w /\ Fs.dirs (fs w') = Fs.dirs (fs w)
  /\ if Fs.isdir (fs w) history_file
     then Fs.files (fs w') = Fs.files (fs w)
          /\ trace w'
             = Print ("Error saving history: [Errno 21] Is a directory: 'chat_history.json'"
                        +:+ NL) :: trace w
     else Fs.files (fs w') = <[ history_file := json_dump (messages w) ]> (Fs.files (fs w))
          /\ trace w'
             = Print (NL +:+ "Chat history saved to chat_history.json" +:+ NL) :: trace w.
Proof.
  cbv zeta. unfold save_history, bind, get_messages, Fs.write_text.
  rewrite history_writable.
  destruct (Fs.isdir (fs w) history_file); cbn; now repeat split.
Qed.

Lemma load_history_account (w : World) :
  let out := load_history json_load w in
  let w' := snd out in
  exists loaded,
    fst out = Ok loaded
    /\ fs w' = fs w /\ messages w' = messages w /\ posts w' = posts w /\ runs w' = runs w
    /\ file_counter w' = file_counter w
    /\ (trace w' = trace w
        \/ loaded = []
           /\ exists text,
               trace w' = Print ("Error loading history: " +:+ text +:+ NL) :: trace w)
    /\ (Fs.exists_ (fs w) history_file = false -> out = (Ok [], w))
    /\ (forall text ms,
          Fs.files (fs w) !! history_file = Some text -> json_load text = inr ms ->
          out = (Ok ms, w)).
Proof.
  cbv zeta. unfold load_history, Fs.read_text, Fs.exists_, Fs.isfile.
  destruct (Fs.files (fs w) !! history_file) as [text|] eqn:Hfile.
  - destruct (json_load text) as [e|loaded] eqn:Hload.
    + exists []. cbn. repeat split; try congruence.
      * right. split; [reflexivity | now exists e].
      * intros H. apply orb_false_iff in H as [_ H]. discriminate.
    + exists loaded. cbn. repeat split; try congruence.
      * now left.
      * intros H. apply orb_false_iff in H as [_ H]. discriminate.
  - destruct (Fs.isdir (fs w) history_file) eqn:Hdir.
    + exists []. cbn. repeat split; try congruence.
      right. split; [reflexivity |].
      now exists (str_oserror IsADirectoryError history_file).
    + exists []. cbn. repeat split; try congruence. now left.
Qed.

End HistoryFacts.

(** X16: [save_history] never raises; it writes the serialised
    conversation to [chat_history.json] and reports it, unless a directory
    bears that name, in which case it prints the error and no file
    changes; the conversation and the directories stay as they were. *)
Theorem history_save_never_raises (json_dump : list ChatMessage -> string) (w : World) :
  let out := save_history json_dump w in
  let w' := snd out in
  fst out = Ok tt
  /\ messages w' = messages w /\ Fs.dirs (fs w') = Fs.dirs (fs w)
  /\ if Fs.isdir (fs w) history_file
     then Fs.files (fs w') = Fs.files (fs w)
          /\ trace w'
             = Print ("Error saving history: [Errno 21] Is a directory: 'chat_history.json'"
                        +:+ NL) :: trace w
     else Fs.files (fs w') = <[ history_file := json_dump (messages w) ]> (Fs.files (fs w))
          /\ trace w'
             = Print (NL +:+ "Chat history saved to chat_history.json" +:+ NL) :: trace w.
Proof.
  destruct (save_history_account json_dump w) as (H1 & H2 & _ & _ & _ & H3 & H4).
  cbv zeta. repeat split; assumption.
Qed.

(** X17: [load_history] never raises and changes nothing but the trace: a
    missing file gives the empty history without a word, a file that
    cannot be read or parsed gives the empty history after a printed
    error, and a file that parses gives what it holds. *)
Theorem history_load_never_raises (json_load : string -> string + list ChatMessage)
    (w : World) :
  let out := load_history json_load w in
  let w' := snd out in
  exists loaded,
    fst out = Ok loaded
    /\ fs w' = fs w /\ messages w' = messages w
    /\ (trace w' = trace w
        \/ loaded = []
           /\ exists text,
               trace w' = Print ("Error loading history: " +:+ text +:+ NL) :: trace w)
    /\ (Fs.exists_ (fs w) history_file = false -> out = (Ok [], w))
    /\ (forall text ms,
          Fs.files (fs w) !! history_file = Some text -> json_load text = inr ms ->
          out = (Ok ms, w)).
Proof.
  destruct (load_history_account json_load w)
    as (loaded & H1 & H2 & H3 & _ & _ & _ & H4 & H5 & H6).
  cbv zeta. exists loaded. repeat split; assumption.
Qed.

(** ** Images *)

Example b64encode_examples :
  b64encode "Man" = "TWFu" /\ b64encode "Ma" = "TWE=" /\ b64encode "M" = "TQ=="
  /\ b64encode "" = "".
Proof. now repeat split. Qed.

Lemma b64encode_truthy (data : string) : truthy (b64encode data) = truthy data.
Proof. destruct data as [|a [|b [|c rest]]]; reflexivity. Qed.

Lemma encode_image_account (image_path : string) (w : World) :
  let out := encode_image image_path w in
  let w' := snd out in
  fs w' = fs w /\ messages w' = messages w /\ posts w' = posts w /\ runs w' = runs w
  /\ file_counter w' = file_counter w
  /\ match Fs.files (fs w) !! image_path with
     | Some data => out = (Ok (Some (b64encode data)), w)
     | None =>
         fst out = Ok None
         /\ exists text,
             trace w' = Print ("Error encoding image: " +:+ text +:+ NL) :: trace w
     end.
Proof.
  cbv zeta. unfold encode_image, Fs.read_text.
  destruct (Fs.files (fs w) !! image_path) as [data|]; [now repeat split |].
  destruct (Fs.isdir (fs w) image_path); cbn; repeat split.
  - now exists (str_oserror IsADirectoryError image_path).
  - now exists (str_oserror FileNotFoundError image_path).
Qed.

(** The user's message of a turn: one message, from the user, with the
    image exactly when it went out. *)
Lemma append_user_message_account (note : string) (image : option string)
    (user_content : string) (w : World) :
  let out := append_user_message note image user_content w in
  let w' := snd out in
  exists attached m added,
    fst out = Ok attached
    /\ messages w' = (messages w ++ [m])%list
    /\ role m = user /\ has_image m = attached
    /\ (attached = true -> truthy_opt image = true)
    /\ fs w' = fs w /\ posts w' = posts w /\ runs w' = runs w
    /\ file_counter w' = file_counter w
    /\ trace w' = (added ++ trace w)%list
    /\ typed added = [] /\ executed added = [] /\ posted added = [].
Proof.
  cbv zeta. unfold append_user_message.
  destruct (truthy_opt image) eqn:Himage.
  - unfold bind.
    destruct (encode_image_account (default "" image) w) as (Hf & Hm & Hp & Hr & Hc & Hout).
    destruct (Fs.files (fs w) !! default "" image) as [data|].
    + rewrite Hout. destruct (truthy_opt (Some (b64encode data))).
      * exists true, (image_message (user_content +:+ note) (b64encode data)), [].
        cbn. now repeat split.
      * exists false, (msg user user_content), []. cbn. now repeat split.
    + destruct Hout as [Hnone (text & Ht)].
      destruct (encode_image (default "" image) w) as [[r|e] w1]; cbn [fst snd] in *;
        [| discriminate].
      injection Hnone as ->. cbn [truthy_opt].
      exists false, (msg user user_content),
        [Print ("Error encoding image: " +:+ text +:+ NL)].
      cbn. rewrite Hm, Ht. now repeat split.
  - exists false, (msg user user_content), []. cbn. now repeat split.
Qed.

(** X18: [encode_image] never raises and changes nothing but the trace: it
    returns the base64 text of the file's bytes, which is empty only for an
    empty file, or [None] after a printed error when there is no file of
    that name. *)
Theorem encode_image_never_raises (image_path : string) (w : World) :
  let out := encode_image image_path w in
  let w' := snd out in
  fs w' = fs w /\ messages w' = messages w
  /\ match Fs.files (fs w) !! image_path with
     | Some data =>
         out = (Ok (Some (b64encode data)), w)
         /\ truthy (b64encode data) = truthy data
     | None =>
         fst out = Ok None
         /\ exists text,
             trace w' = Print ("Error encoding image: " +:+ text +:+ NL) :: trace w
     end.
Proof.
  destruct (encode_image_account image_path w) as (Hf & Hm & _ & _ & _ & Hout).
  cbv zeta. repeat split; try assumption.
  destruct (Fs.files (fs w) !! image_path) as [data|]; [| exact Hout].
  split; [exact Hout | apply b64encode_truthy].
Qed.

(** X19: the image goes out with the user's message exactly when there is
    a path, a file of that name and bytes in it; the message then carries
    the note and the base64 text, and is plain otherwise.  An empty file is
    passed over without a word. *)
Theorem image_goes_out_when_readable (note : string) (image : option string)
    (user_content : string) (w : World) :
  let out := append_user_message note image user_content w in
  let w' := snd out in
  match image with
  | None => out = (append_message (msg user user_content) ;; ret false) w
  | Some path =>
      match Fs.files (fs w) !! path with
      | Some data =>
          if truthy path && truthy data
          then out
               = (append_message (image_message (user_content +:+ note) (b64encode data)) ;;
                  ret true) w
          else out = (append_message (msg user user_content) ;; ret false) w
      | None =>
          fst out = Ok false
          /\ messages w' = (messages w ++ [msg user user_content])%list
          /\ (truthy path = true ->
              exists text,
                trace w' = Print ("Error encoding image: " +:+ text +:+ NL) :: trace w)
      end
  end.
Proof.
  cbv zeta. unfold append_user_message. destruct image as [path|]; [| reflexivity].
  cbn [truthy_opt default]. destruct (truthy path) eqn:Hpath.
  - unfold bind. cbv beta iota. unfold id.
    destruct (encode_image_account path w) as (Hf & Hm & Hp & Hr & Hc & Hout).
    destruct (Fs.files (fs w) !! path) as [data|].
    + rewrite Hout. cbn [truthy_opt default andb]. rewrite b64encode_truthy.
      now destruct (truthy data).
    + destruct Hout as [Hnone (text & Ht)].
      destruct (encode_image path w) as [[r|e] w1]; cbn [fst snd] in *; [| discriminate].
      injection Hnone as ->. cbn. rewrite Hm. repeat split. intros _. now exists text.
  - destruct (Fs.files (fs w) !! path) as [data|]; [reflexivity |].
    cbn. repeat split. discriminate.
Qed.

(** ** The session *)

Section SessionCases.
Variable env : Env.
Variable json_dump : list ChatMessage -> string.
Variable json_load : string -> string + list ChatMessage.
Variable args : Args.
Variable P : option string -> list string -> World
             -> res (option (list string)) * World -> Prop.

Hypothesis at_eof : forall image w,
  P image [] w (Raise EOFError, snd (log (InputEOF YouPrompt (NL +:+ "You: ")) w)).

Hypothesis at_leave : forall image line rest w,
  leaves line = true ->
  P image (line :: rest) w
    (Ok (Some rest),
     if arg_save_history args then snd (save_history json_dump (after_line line w))
     else after_line line w).

Hypothesis at_save : forall image line rest w out,
  leaves line = false -> strip line = "/save" ->
  P image rest (snd (save_history json_dump (after_line line w))) out ->
  P image (line :: rest) w out.

Hypothesis at_load : forall image line rest w out,
  leaves line = false -> strip line = "/load" ->
  P image rest (after_load json_load line w) out ->
  P image (line :: rest) w out.

Hypothesis at_call_error : forall image line rest w e w4,
  leaves line = false -> strip line <> "/save" -> strip line <> "/load" ->
  turn_call env args image line w = (Raise e, w4) ->
  P image (line :: rest) w (Raise e, w4).

Hypothesis at_no_reply : forall image line rest w reply w4 out,
  leaves line = false -> strip line <> "/save" -> strip line <> "/load" ->
  turn_call env args image line w = (Ok reply, w4) ->
  truthy_opt reply = false ->
  P (image_left image line w) rest w4 out ->
  P image (line :: rest) w out.

Hypothesis at_flow_error : forall image line rest w text w4 e w6,
  leaves line = false -> strip line <> "/save" -> strip line <> "/load" ->
  turn_call env args image line w = (Ok (Some text), w4) ->
  truthy text = true ->
  handle_response env text (arg_model args) rest
    (snd (append_message (msg assistant text) w4)) = (Raise e, w6) ->
  P image (line :: rest) w (Raise e, w6).

Hypothesis at_next : forall image line rest w text w4 rest2 w6 out,
  leaves line = false -> strip line <> "/save" -> strip line <> "/load" ->
  turn_call env args image line w = (Ok (Some text), w4) ->
  truthy text = true ->
  handle_response env text (arg_model args) rest
    (snd (append_message (msg assistant text) w4)) = (Ok rest2, w6) ->
  P (image_left image line w) rest2 w6 out ->
  P image (line :: rest) w out.

Lemma interactive_image_cases (fuel : nat) :
  forall (image : option string) (stdin : list string) (w : World),
    length stdin < fuel ->
    P image stdin w (interactive_image env json_dump json_load args fuel image stdin w).
Proof.
  induction fuel as [|fuel IH]; intros image stdin w Hlen; [lia |].
  destruct stdin as [|line stdin1]; cbn [interactive_image]; [apply at_eof |].
  simpl in Hlen. unfold bind at 1.
  change (log (Input YouPrompt (NL +:+ "You: ") line) w) with (Ok tt, after_line line w).
  cbv beta iota.
  change (bool_decide (lower (strip line) = "exit")
          || bool_decide (lower (strip line) = "quit")) with (leaves line).
  destruct (leaves line) eqn:Hleave.
  { unfold bind. pose proof (at_leave image line stdin1 w Hleave) as H.
    destruct (arg_save_history args); [| exact H].
    destruct (save_history_account json_dump (after_line line w)) as (Hok & _).
    destruct (save_history json_dump (after_line line w)) as [[[]|e] w1];
      cbn [fst snd] in *; [exact H | discriminate]. }
  destruct (bool_decide (strip line = "/save")) eqn:Hsave.
  { apply bool_decide_eq_true in Hsave. unfold bind.
    destruct (save_history_account json_dump (after_line line w)) as (Hok & _).
    pose proof (at_save image line stdin1 w) as H.
    destruct (save_history json_dump (after_line line w)) as [[[]|e] w1];
      cbn [fst snd] in *; [| discriminate].
    apply H; auto. apply IH. lia. }
  apply bool_decide_eq_false in Hsave.
  destruct (bool_decide (strip line = "/load")) eqn:Hload.
  { apply bool_decide_eq_true in Hload.
    pose proof (at_load image line stdin1 w) as H. unfold after_load in H.
    unfold bind at 1. unfold bind at 1 in H.
    destruct (load_history_account json_load (after_line line w)) as (loaded & Hok & _).
    destruct (load_history json_load (after_line line w)) as [[loaded'|e] w1];
      cbn [fst snd] in *; [| discriminate].
    unfold bind at 1.
    destruct (is_nil loaded'); cbn [ret extend_messages print log bind fst snd] in *;
      (apply H; auto; apply IH; lia). }
  apply bool_decide_eq_false in Hload.
  pose proof (at_call_error image line stdin1 w) as H1.
  pose proof (at_no_reply image line stdin1 w) as H2.
  pose proof (at_flow_error image line stdin1 w) as H3.
  pose proof (at_next image line stdin1 w) as H4.
  unfold turn_call, image_left, after_user_message in H1, H2, H3, H4.
  unfold bind at 1.
  destruct (append_user_message_account interactive_note image (strip line) (after_line line w))
    as (attached & m & added & Hok & _).
  destruct (append_user_message interactive_note image (strip line) (after_line line w))
    as [[attached'|e] w2]; cbn [fst snd] in *; [| discriminate].
  injection Hok as ->.
  unfold bind at 1. cbn [print log fst snd] in *.
  unfold bind at 1. cbn [get_messages fst snd messages] in *.
  unfold bind at 1.
  destruct (call_ollama_api_stream env _ (arg_model args) default_max_retries _)
    as [[reply|e] w4]; [| now apply H1].
  assert (Himg : (if attached then None else image)
                 = match attached with true => None | false => image end)
    by now destruct attached.
  destruct (truthy_opt reply) eqn:Hreply.
  - destruct reply as [text|]; [| discriminate]. cbn in Hreply.
    change (default "" (Some text)) with text.
    unfold bind at 1. cbn [append_message extend_messages fst snd].
    unfold bind at 1.
    specialize (H3 text w4). specialize (H4 text w4).
    cbn [append_message extend_messages fst snd] in H3, H4.
    match goal with
    | |- context [handle_response env text ?mo stdin1 ?w5] =>
        destruct (handle_response_summary env text mo stdin1 w5) as (_ & _ & _ & Hrest);
        destruct (handle_response env text mo stdin1 w5) as [[stdin2|e] w6]
    end; [| now apply H3].
    specialize (Hrest stdin2 eq_refl).
    apply (H4 stdin2 w6); auto. destruct attached; apply IH; lia.
  - apply (H2 reply w4); auto. destruct attached; apply IH; lia.
Qed.

End SessionCases.

Section SessionFacts2.
Variable env : Env.
Variable json_dump : list ChatMessage -> string.
Variable json_load : string -> string + list ChatMessage.
Variable args : Args.

(** Without an image to attach the loop is the plain one. *)
Lemma interactive_image_plain (fuel : nat) :
  forall (image : option string) (stdin : list string) (w : World),
    truthy_opt image = false ->
    interactive_image env json_dump json_load args fuel image stdin w
    = interactive env json_dump json_load args fuel stdin w.
Proof.
  induction fuel as [|fuel IH]; intros image stdin w Himage; [reflexivity |].
  destruct stdin as [|line stdin1]; [reflexivity |].
  cbn [interactive_image interactive]. unfold append_user_message. rewrite Himage.
  unfold bind. cbn [log fst snd].
  destruct (bool_decide (lower (strip line) = "exit")
            || bool_decide (lower (strip line) = "quit")); [reflexivity |].
  destruct (bool_decide (strip line = "/save")).
  { unfold bind. destruct (save_history json_dump _) as [[[]|e] w1]; [| reflexivity].
    now apply IH. }
  destruct (bool_decide (strip line = "/load")).
  { unfold bind. destruct (load_history json_load _) as [[loaded|e] w1]; [| reflexivity].
    destruct ((if is_nil loaded then ret tt else _) w1) as [[[]|e] w2]; [| reflexivity].
    now apply IH. }
  cbn [append_message extend_messages print log get_messages ret fst snd].
  destruct (call_ollama_api_stream env _ (arg_model args) default_max_retries _)
    as [[ai_response|e] w1]; [| reflexivity].
  destruct (truthy_opt ai_response); [| now apply IH].
  cbn [append_message extend_messages].
  destruct (handle_response env _ _ stdin1 _) as [[stdin2|e] w3]; [| reflexivity].
  now apply IH.
Qed.

Lemma after_load_account (line : string) (w : World) :
  let w' := after_load json_load line w in
  exists loaded added,
    messages w' = (messages w ++ loaded)%list
    /\ (loaded = [] \/ exists text, json_load text = inr loaded)
    /\ fs w' = fs w /\ posts w' = posts w /\ runs w' = runs w
    /\ file_counter w' = file_counter w
    /\ trace w' = (added ++ trace w)%list
    /\ typed added = [line] /\ executed added = [] /\ posted added = [].
Proof.
  cbv zeta. unfold after_load, bind.
  pose proof (load_history_account json_load (after_line line w)) as Hacc.
  cbv zeta in Hacc. unfold load_history, Fs.read_text in *.
  change (fs (after_line line w)) with (fs w) in *.
  destruct (Fs.files (fs w) !! history_file) as [text|].
  - destruct (json_load text) as [e|loaded] eqn:Hload.
    + eexists [], [_; _]. cbn. rewrite app_nil_r. repeat split. now left.
    + destruct loaded as [|m loaded].
      * eexists [], [_]. cbn. rewrite app_nil_r. repeat split. now left.
      * eexists (m :: loaded), [_; _]. cbn. repeat split. right. now exists text.
  - destruct (Fs.isdir (fs w) history_file).
    + eexists [], [_; _]. cbn. rewrite app_nil_r. repeat split. now left.
    + eexists [], [_]. cbn. rewrite app_nil_r. repeat split. now left.
Qed.

Lemma after_user_message_account (image : option string) (line : string) (w : World) :
  let w' := after_user_message image line w in
  exists m added,
    messages w' = (messages w ++ [m])%list /\ role m = user
    /\ (image_left image line w = image /\ has_image m = false
        \/ image_left image line w = None /\ has_image m = true
           /\ truthy_opt image = true)
    /\ fs w' = fs w /\ posts w' = posts w /\ runs w' = runs w
    /\ file_counter w' = file_counter w
    /\ trace w' = (added ++ trace w)%list
    /\ typed added = [line] /\ executed added = [] /\ posted added = [].
Proof.
  cbv zeta. unfold after_user_message, image_left.
  destruct (append_user_message_account interactive_note image (strip line) (after_line line w))
    as (attached & m & added & Hok & Hm & Hrole & Himg & Htruthy & Hf & Hp & Hr & Hc
        & Ht & Hty & Hex & Hpo).
  destruct (append_user_message interactive_note image (strip line) (after_line line w))
    as [[attached'|e] w2]; cbn [fst snd] in *; [| discriminate].
  injection Hok as ->.
  exists m, (Print (NL +:+ "AI: ") :: added ++ [Input YouPrompt (NL +:+ "You: ") line])%list.
  cbn [print log snd messages fs posts runs file_counter trace].
  rewrite Hm, Ht. cbn [after_line log snd trace messages].
  split; [reflexivity |]. split; [exact Hrole |]. split.
  { destruct attached; [right | left]; auto. }
  repeat split; try assumption.
  - cbn [app]. now rewrite <- List.app_assoc.
  - change (Print (NL +:+ "AI: ") :: added ++ [Input YouPrompt (NL +:+ "You: ") line])%list
      with ([Print (NL +:+ "AI: ")] ++ added ++ [Input YouPrompt (NL +:+ "You: ") line])%list.
    now rewrite !typed_app, Hty.
  - change (Print (NL +:+ "AI: ") :: added ++ [Input YouPrompt (NL +:+ "You: ") line])%list
      with ([Print (NL +:+ "AI: ")] ++ added ++ [Input YouPrompt (NL +:+ "You: ") line])%list.
    now rewrite !executed_app, Hex.
  - change (Print (NL +:+ "AI: ") :: added ++ [Input YouPrompt (NL +:+ "You: ") line])%list
      with ([Print (NL +:+ "AI: ")] ++ added ++ [Input YouPrompt (NL +:+ "You: ") line])%list.
    now rewrite !posted_app, Hpo.
Qed.

Lemma turn_call_account (image : option string) (line : string) (w : World)
    (r : res (option string)) (w4 : World) :
  turn_call env args image line w = (r, w4) ->
  messages w4 = messages (after_user_message image line w)
  /\ fs w4 = fs (after_user_message image line w)
  /\ runs w4 = runs (after_user_message image line w).
Proof.
  unfold turn_call. intros H.
  destruct (call_account env (messages (after_user_message image line w)) (arg_model args)
              (after_user_message image line w))
    as (_ & _ & _ & _ & _ & _ & _ & _ & Hf & _ & Hm & Hr).
  rewrite H in *. cbn [snd] in *. now repeat split.
Qed.

End SessionFacts2.

Section SessionEnds.
Variable env : Env.
Variable json_dump : list ChatMessage -> string.
Variable json_load : string -> string + list ChatMessage.
Variable args : Args.

(** What precedes the two modes of [main]: the banner, the fresh
    conversation and the history loaded on request. *)
Lemma main_prelude (w : World) :
  exists loaded w1,
    (forall (A : Type) (k : M A),
        (print (NL +:+ "Welcome to Ollama CLI (Gemini-inspired)! Using model: "
                  +:+ arg_model args +:+ NL) ;;
         print ("Type 'exit' or 'quit' to end. Use '/save' to save history, '/load' to load."
                  +:+ NL) ;;
         set_messages [system_message] ;;
         (if arg_load_history args then
            let* loaded := load_history json_load in
            if is_nil loaded then ret tt
            else extend_messages loaded ;; print ("Loaded previous chat history." +:+ NL)
          else ret tt) ;;
         k) w = k w1)
    /\ messages w1 = system_message :: loaded
    /\ (loaded = [] \/ exists text, json_load text = inr loaded)
    /\ fs w1 = fs w /\ runs w1 = runs w /\ posts w1 = posts w
    /\ file_counter w1 = file_counter w
    /\ typed (trace w1) = typed (trace w).
Proof.
  unfold bind. cbn [print log set_messages fst snd].
  destruct (arg_load_history args).
  - unfold load_history, Fs.read_text. cbn [fs].
    destruct (Fs.files (fs w) !! history_file) as [text|].
    + destruct (json_load text) as [e|loaded] eqn:Hload.
      * eexists [], _. cbn. split; [reflexivity |]. repeat split. now left.
      * destruct loaded as [|m loaded].
        -- eexists [], _. cbn. split; [reflexivity |]. repeat split. now left.
        -- eexists (m :: loaded), _. cbn. split; [reflexivity |]. repeat split.
           right. now exists text.
    + destruct (Fs.isdir (fs w) history_file).
      * eexists [], _. cbn. split; [reflexivity |]. repeat split. now left.
      * eexists [], _. cbn. split; [reflexivity |]. repeat split. now left.
  - eexists [], _. cbn. split; [reflexivity |]. repeat split. now left.
Qed.

(** The loop ends with an exception or at a line that leaves. *)
Lemma interactive_image_ends (fuel : nat) (image : option string) (stdin : list string)
    (w : World) :
  length stdin < fuel ->
  let out := interactive_image env json_dump json_load args fuel image stdin w in
  fst out <> Ok None
  /\ forall rest, fst out = Ok (Some rest) ->
                  exists used line, stdin = (used ++ line :: rest)%list /\ leaves line = true.
Proof.
  cbv zeta. revert image stdin w.
  apply (interactive_image_cases env json_dump json_load args
           (fun image stdin w out =>
              fst out <> Ok None
              /\ forall rest, fst out = Ok (Some rest) ->
                              exists used line,
                                stdin = (used ++ line :: rest)%list /\ leaves line = true)).
  - intros image w. split; [discriminate |]. intros rest [=].
  - intros image line rest w Hleave. split; [discriminate |].
    intros rest' [= <-]. now exists [], line.
  - intros image line rest w out _ _ [Hnone Hrest]. split; [exact Hnone |].
    intros rest' H. destruct (Hrest rest' H) as (used & line' & -> & Hl).
    now exists (line :: used), line'.
  - intros image line rest w out _ _ [Hnone Hrest]. split; [exact Hnone |].
    intros rest' H. destruct (Hrest rest' H) as (used & line' & -> & Hl).
    now exists (line :: used), line'.
  - intros image line rest w e w4 _ _ _ _. split; [discriminate |]. intros rest' [=].
  - intros image line rest w reply w4 out _ _ _ _ _ [Hnone Hrest]. split; [exact Hnone |].
    intros rest' H. destruct (Hrest rest' H) as (used & line' & -> & Hl).
    now exists (line :: used), line'.
  - intros image line rest w text w4 e w6 _ _ _ _ _ _. split; [discriminate |].
    intros rest' [=].
  - intros image line rest w text w4 rest2 w6 out _ _ _ _ _ Hflow [Hnone Hrest].
    split; [exact Hnone |].
    intros rest' H. destruct (Hrest rest' H) as (used & line' & -> & Hl).
    match type of Hflow with
    | handle_response env text ?mo rest ?w5 = _ =>
        destruct (handle_response_account env text mo rest w5)
          as (_ & used0 & rest0 & _ & -> & _ & Hr0 & _)
    end.
    rewrite Hflow in Hr0. rewrite <- (Hr0 _ eq_refl).
    exists (line :: used0 ++ used)%list, line'. split; [| exact Hl].
    cbn [app]. now rewrite <- List.app_assoc.
Qed.

End SessionEnds.

(** X20: a session started without [--image], or with an empty path, is
    the session of the plain loop: no image is looked for and every
    message of the user is plain. *)
Theorem session_without_image (env : Env) (json_dump : list ChatMessage -> string)
    (json_load : string -> string + list ChatMessage) (args : Args)
    (image : option string) (stdin : list string) (w : World) :
  truthy_opt image = false ->
  main_image env json_dump json_load args image stdin w
  = main env json_dump json_load args stdin w.
Proof.
  intros Himage. unfold main_image, main, append_user_message. rewrite Himage.
  unfold bind. cbn [print log set_messages fst snd].
  destruct ((if arg_load_history args then _ else ret tt) _) as [[[]|e] w1];
    [| reflexivity].
  destruct (truthy_opt (arg_prompt args)); [reflexivity |].
  now apply interactive_image_plain.
Qed.

Lemma session_without_image_witness :
  main_image env_chat dump1 load1 args (Some "") ["hello"; "exit"] studio
  = main env_chat dump1 load1 args ["hello"; "exit"] studio.
Proof.
  apply (session_without_image env_chat dump1 load1 args (Some "") ["hello"; "exit"] studio).
  reflexivity.
Defined.

(** X21: an interactive session ends normally only at a line that says
    [exit] or [quit] (whatever the case and the white space around it)
    read at the prompt; what it returns are the lines after that one.
    Otherwise it ends with an exception, the end of the input at the
    latest. *)
Theorem session_ends_only_when_told (env : Env) (json_dump : list ChatMessage -> string)
    (json_load : string -> string + list ChatMessage) (args : Args)
    (image : option string) (stdin : list string) (w : World) :
  truthy_opt (arg_prompt args) = false ->
  let out := main_image env json_dump json_load args image stdin w in
  fst out <> Ok None
  /\ forall rest, fst out = Ok (Some rest) ->
                  exists used line, stdin = (used ++ line :: rest)%list /\ leaves line = true.
Proof.
  intros Hprompt. cbv zeta. unfold main_image. rewrite Hprompt.
  destruct (main_prelude json_load args w) as (loaded & w1 & Hpre & _).
  rewrite Hpre. apply interactive_image_ends. lia.
Qed.

Lemma session_ends_only_when_told_witness :
  fst (main_image env_chat dump1 load1 args (Some "cat.png") ["hello"; " Exit "; "more"] studio)
  <> Ok None.
Proof.
  apply (session_ends_only_when_told env_chat dump1 load1 args (Some "cat.png")
           ["hello"; " Exit "; "more"] studio).
  reflexivity.
Defined.

Section ImagesSent.

Lemma images_sent_app (a b : list ChatMessage) :
  images_sent (a ++ b)%list = images_sent a + images_sent b.
Proof. unfold images_sent. now rewrite List.filter_app, length_app. Qed.

Lemma images_sent_replies (replies : list string) :
  images_sent (map (msg assistant) replies) = 0.
Proof. induction replies as [|r replies IH]; [reflexivity | exact IH]. Qed.

Lemma images_sent_one (m : ChatMessage) :
  images_sent [m] = if has_image m then 1 else 0.
Proof. unfold images_sent. cbn. now destruct (has_image m). Qed.

End ImagesSent.

Section SessionGrows.
Variable env : Env.
Variable json_dump : list ChatMessage -> string.
Variable json_load : string -> string + list ChatMessage.
Variable args : Args.

(** The loop only adds to the conversation, and among what it adds at most
    one message carries an image. *)
Lemma interactive_image_grows (fuel : nat) (image : option string) (stdin : list string)
    (w : World) :
  length stdin < fuel ->
  let w' := snd (interactive_image env json_dump json_load args fuel image stdin w) in
  exists new,
    messages w' = (messages w ++ new)%list
    /\ (plain_history json_load -> images_sent new <= if truthy_opt image then 1 else 0).
Proof.
  cbv zeta. revert image stdin w.
  apply (interactive_image_cases env json_dump json_load args
           (fun image stdin w out =>
              exists new,
                messages (snd out) = (messages w ++ new)%list
                /\ (plain_history json_load ->
                    images_sent new <= if truthy_opt image then 1 else 0))).
  - intros image w. exists []. cbn. rewrite app_nil_r. split; [reflexivity |].
    intros _. destruct (truthy_opt image); lia.
  - intros image line rest w _. exists []. rewrite app_nil_r. split.
    + cbn [snd]. destruct (arg_save_history args); [| reflexivity].
      destruct (save_history_account json_dump (after_line line w)) as (_ & Hm1 & _).
      exact Hm1.
    + intros _. cbn. destruct (truthy_opt image); lia.
  - intros image line rest w out _ _ (new & Hm & Hi).
    destruct (save_history_account json_dump (after_line line w)) as (_ & Hm1 & _).
    exists new. rewrite Hm, Hm1. now split.
  - intros image line rest w out _ _ (new & Hm & Hi).
    destruct (after_load_account json_load line w) as (loaded & _ & Hm1 & Hl & _).
    exists (loaded ++ new)%list. rewrite Hm, Hm1, <- List.app_assoc. split; [reflexivity |].
    intros Hplain. specialize (Hi Hplain). rewrite images_sent_app.
    assert (images_sent loaded = 0) as ->; [| exact Hi].
    destruct Hl as [-> | (text & Hl)]; [reflexivity | exact (Hplain _ _ Hl)].
  - intros image line rest w e w4 _ _ _ Hcall.
    destruct (turn_call_account _ _ _ _ _ _ _ Hcall) as (Hm4 & _).
    destruct (after_user_message_account image line w) as (m & _ & Hm3 & _ & Himg & _).
    exists [m]. cbn [snd]. rewrite Hm4, Hm3. split; [reflexivity |].
    intros _. rewrite images_sent_one.
    destruct Himg as [(_ & ->) | (_ & -> & ->)]; [destruct (truthy_opt image) |]; lia.
  - intros image line rest w reply w4 out _ _ _ Hcall _ (new & Hm & Hi).
    destruct (turn_call_account _ _ _ _ _ _ _ Hcall) as (Hm4 & _).
    destruct (after_user_message_account image line w) as (m & _ & Hm3 & _ & Himg & _).
    exists ([m] ++ new)%list. rewrite Hm, Hm4, Hm3, <- List.app_assoc.
    split; [reflexivity |].
    intros Hplain. specialize (Hi Hplain). rewrite images_sent_app, images_sent_one.
    destruct Himg as [(Hleft & ->) | (Hleft & -> & Himage)]; rewrite Hleft in Hi.
    + exact Hi.
    + rewrite Himage. cbn in Hi. lia.
  - intros image line rest w text w4 e w6 _ _ _ Hcall _ Hflow.
    destruct (turn_call_account _ _ _ _ _ _ _ Hcall) as (Hm4 & _).
    destruct (after_user_message_account image line w) as (m & _ & Hm3 & _ & Himg & _).
    match type of Hflow with
    | handle_response env text ?mo rest ?w5 = _ =>
        destruct (handle_response_summary env text mo rest w5)
          as ((replies & Hm6 & _) & _)
    end.
    rewrite Hflow in Hm6. cbn [snd append_message extend_messages messages] in Hm6.
    exists ([m] ++ [msg assistant text] ++ map (msg assistant) replies)%list.
    cbn [snd]. rewrite Hm6, Hm4, Hm3, <- !List.app_assoc. split; [reflexivity |].
    intros _. rewrite !images_sent_app, images_sent_one, images_sent_replies.
    cbn [images_sent List.filter has_image msg images length].
    destruct Himg as [(_ & ->) | (_ & -> & ->)]; [destruct (truthy_opt image) |]; lia.
  - intros image line rest w text w4 rest2 w6 out _ _ _ Hcall _ Hflow (new & Hm & Hi).
    destruct (turn_call_account _ _ _ _ _ _ _ Hcall) as (Hm4 & _).
    destruct (after_user_message_account image line w) as (m & _ & Hm3 & _ & Himg & _).
    match type of Hflow with
    | handle_response env text ?mo rest ?w5 = _ =>
        destruct (handle_response_summary env text mo rest w5)
          as ((replies & Hm6 & _) & _)
    end.
    rewrite Hflow in Hm6. cbn [snd append_message extend_messages messages] in Hm6.
    exists ([m] ++ [msg assistant text] ++ map (msg assistant) replies ++ new)%list.
    rewrite Hm, Hm6, Hm4, Hm3, <- !List.app_assoc. split; [reflexivity |].
    intros Hplain. specialize (Hi Hplain).
    rewrite !images_sent_app, images_sent_one, images_sent_replies.
    cbn [images_sent List.filter has_image msg images length].
    destruct Himg as [(Hleft & ->) | (Hleft & -> & Himage)]; rewrite Hleft in Hi.
    + exact Hi.
    + rewrite Himage. cbn in Hi. lia.
Qed.

End SessionGrows.

Section MainFacts.
Variable env : Env.
Variable json_dump : list ChatMessage -> string.
Variable json_load : string -> string + list ChatMessage.
Variable args : Args.

(** One-shot mode: the conversation it leaves. *)
Lemma one_shot_account (image : option string) (stdin : list string) (w : World) :
  truthy_opt (arg_prompt args) = true ->
  let out := main_image env json_dump json_load args image stdin w in
  exists loaded m replies,
    messages (snd out) = (system_message :: loaded ++ m :: map (msg assistant) replies)%list
    /\ (loaded = [] \/ exists text, json_load text = inr loaded)
    /\ role m = user
    /\ (has_image m = true -> truthy_opt image = true)
    /\ forallb truthy replies = true
    /\ runs w + length replies <= runs (snd out)
    /\ fst out <> Ok None.
Proof.
  intros Hprompt. cbv zeta.
  destruct (main_image env json_dump json_load args image stdin w) as [r w'] eqn:Hmain.
  cbn [fst snd]. unfold main_image in Hmain. rewrite Hprompt in Hmain.
  destruct (main_prelude json_load args w)
    as (loaded & w1 & Hpre & Hm1 & Hl & _ & Hr1 & _).
  rewrite Hpre in Hmain. unfold bind in Hmain.
  destruct (append_user_message_account one_shot_note image (default "" (arg_prompt args)) w1)
    as (attached & m & added & Hok & Hm2 & Hrole & Himg & Htruthy & _ & _ & Hr2 & _).
  destruct (append_user_message one_shot_note image (default "" (arg_prompt args)) w1)
    as [[attached'|e] w2]; cbn [fst snd] in *; [| discriminate].
  assert (Himage : has_image m = true -> truthy_opt image = true)
    by (intros H; apply Htruthy; congruence).
  cbn [print log get_messages fst snd messages] in Hmain.
  match type of Hmain with
  | context [call_ollama_api_stream env ?ms ?mo default_max_retries ?w3] =>
      destruct (call_account env ms mo w3)
        as (_ & _ & _ & _ & _ & _ & _ & _ & _ & _ & Hm4 & Hr4);
      destruct (call_ollama_api_stream env ms mo default_max_retries w3)
        as [[reply|e] w4]
  end; cbn [fst snd] in *; cbn [messages runs] in Hm4, Hr4.
  - destruct (truthy_opt reply).
    + destruct (handle_response_summary env (default "" reply) (arg_model args) stdin w4)
        as ((replies & Hm6 & Ht6 & Hr6) & _).
      destruct (handle_response env (default "" reply) (arg_model args) stdin w4)
        as [[rest|e] w6]; cbn [fst snd ret] in *; injection Hmain as <- <-;
        exists loaded, m, replies;
        (rewrite Hm6, Hm4, Hm2, Hm1; cbn [app]; rewrite <- List.app_assoc;
         repeat split; try assumption; try discriminate; try lia).
    + cbn [ret] in Hmain. injection Hmain as <- <-.
      exists loaded, m, []. cbn [map length]. rewrite Hm4, Hm2, Hm1.
      repeat split; try assumption; try discriminate; try lia.
  - injection Hmain as <- <-.
    exists loaded, m, []. cbn [map length]. rewrite Hm4, Hm2, Hm1.
    repeat split; try assumption; try discriminate; try lia.
Qed.

Lemma main_image_grows (image : option string) (stdin : list string) (w : World) :
  let w' := snd (main_image env json_dump json_load args image stdin w) in
  exists new,
    messages w' = system_message :: new
    /\ (plain_history json_load -> images_sent new <= if truthy_opt image then 1 else 0).
Proof.
  cbv zeta. destruct (truthy_opt (arg_prompt args)) eqn:Hprompt.
  - destruct (one_shot_account image stdin w Hprompt)
      as (loaded & m & replies & Hm & Hl & _ & Himg & _).
    exists (loaded ++ m :: map (msg assistant) replies)%list. split; [exact Hm |].
    intros Hplain.
    change (m :: map (msg assistant) replies) with ([m] ++ map (msg assistant) replies)%list.
    rewrite !images_sent_app, images_sent_one, images_sent_replies.
    assert (images_sent loaded = 0) as ->.
    { destruct Hl as [-> | (text & Hl)]; [reflexivity | exact (Hplain _ _ Hl)]. }
    destruct (has_image m); [rewrite Himg by reflexivity |]; destruct (truthy_opt image); lia.
  - unfold main_image. rewrite Hprompt.
    destruct (main_prelude json_load args w) as (loaded & w1 & Hpre & Hm1 & Hl & _).
    rewrite Hpre.
    destruct (interactive_image_grows env json_dump json_load args (S (length stdin))
                image stdin w1) as (new & Hm & Hi); [lia |].
    exists (loaded ++ new)%list. rewrite Hm, Hm1. split; [reflexivity |].
    intros Hplain. rewrite images_sent_app.
    assert (images_sent loaded = 0) as ->; [| exact (Hi Hplain)].
    destruct Hl as [-> | (text & Hl)]; [reflexivity | exact (Hplain _ _ Hl)].
Qed.

End MainFacts.

(** X22: whatever is loaded, typed and answered, the conversation that
    [main] leaves starts with the system message, and the interactive loop
    only ever adds to the conversation it finds. *)
Theorem conversation_only_grows (env : Env) (json_dump : list ChatMessage -> string)
    (json_load : string -> string + list ChatMessage) (args : Args)
    (image : option string) (stdin : list string) (w : World) :
  (exists new,
      messages (snd (main_image env json_dump json_load args image stdin w))
      = system_message :: new)
  /\ (forall fuel, length stdin < fuel ->
        messages w
        `prefix_of` messages (snd (interactive_image env json_dump json_load args fuel
                                     image stdin w))).
Proof.
  split.
  - destruct (main_image_grows env json_dump json_load args image stdin w) as (new & Hm & _).
    now exists new.
  - intros fuel Hlen.
    destruct (interactive_image_grows env json_dump json_load args fuel image stdin w Hlen)
      as (new & Hm & _).
    now exists new.
Qed.





Section Commands.
Variable env : Env.
Variable json_dump : list ChatMessage -> string.
Variable json_load : string -> string + list ChatMessage.
Variable args : Args.

Lemma interactive_image_save (fuel : nat) (image : option string) (rest : list string)
    (w : World) :
  interactive_image env json_dump json_load args (S fuel) image ("/save" :: rest) w
  = interactive_image env json_dump json_load args fuel image rest
      (snd (save_history json_dump (after_line "/save" w))).
Proof.
  cbn [interactive_image]. unfold bind at 1.
  change (log (Input YouPrompt (NL +:+ "You: ") "/save") w)
    with (Ok tt, after_line "/save" w).
  cbv beta iota.
  change (strip "/save") with "/save". change (lower "/save") with "/save".
  rewrite (bool_decide_eq_false_2 ("/save" = "exit")) by discriminate.
  rewrite (bool_decide_eq_false_2 ("/save" = "quit")) by discriminate.
  rewrite (bool_decide_eq_true_2 ("/save" = "/save")) by reflexivity.
  cbn [orb]. unfold bind.
  destruct (save_history_account json_dump (after_line "/save" w)) as (Hok & _).
  destruct (save_history json_dump (after_line "/save" w)) as [[[]|e] w1];
    cbn [fst snd] in *; [reflexivity | discriminate].
Qed.

Lemma interactive_image_load (fuel : nat) (image : option string) (rest : list string)
    (w : World) :
  interactive_image env json_dump json_load args (S fuel) image ("/load" :: rest) w
  = interactive_image env json_dump json_load args fuel image rest
      (after_load json_load "/load" w).
Proof.
  cbn [interactive_image]. unfold bind at 1.
  change (log (Input YouPrompt (NL +:+ "You: ") "/load") w)
    with (Ok tt, after_line "/load" w).
  cbv beta iota.
  change (strip "/load") with "/load". change (lower "/load") with "/load".
  rewrite (bool_decide_eq_false_2 ("/load" = "exit")) by discriminate.
  rewrite (bool_decide_eq_false_2 ("/load" = "quit")) by discriminate.
  rewrite (bool_decide_eq_false_2 ("/load" = "/save")) by discriminate.
  rewrite (bool_decide_eq_true_2 ("/load" = "/load")) by reflexivity.
  cbn [orb]. unfold after_load. unfold bind at 1 2 4.
  destruct (load_history_account json_load (after_line "/load" w)) as (loaded & Hok & _).
  destruct (load_history json_load (after_line "/load" w)) as [[loaded'|e] w1];
    cbn [fst snd] in *; [| discriminate].
  destruct (is_nil loaded'); reflexivity.
Qed.

End Commands.

(** X25: [/load] adds the stored history to the conversation, it does not
    replace it: after [/save] and [/load] in a row the conversation is
    there twice, and the file holds the conversation as it was. *)
Theorem save_then_load_doubles_the_conversation (env : Env)
    (json_dump : list ChatMessage -> string)
    (json_load : string -> string + list ChatMessage) (args : Args) (fuel : nat)
    (image : option string) (rest : list string) (w : World) :
  json_load (json_dump (messages w)) = inr (messages w) ->
  messages w <> [] ->
  Fs.isdir (fs w) history_file = false ->
  exists w',
    interactive_image env json_dump json_load args (S (S fuel)) image
      ("/save" :: "/load" :: rest) w
    = interactive_image env json_dump json_load args fuel image rest w'
    /\ messages w' = (messages w ++ messages w)%list
    /\ Fs.files (fs w') !! history_file = Some (json_dump (messages w))
    /\ runs w' = runs w /\ posts w' = posts w.
Proof.
  intros Hround Hne Hdir.
  rewrite interactive_image_save, interactive_image_load.
  destruct (save_history_account json_dump (after_line "/save" w))
    as (_ & Hm1 & Hp1 & Hr1 & _ & _ & Hfiles).
  change (fs (after_line "/save" w)) with (fs w) in Hfiles.
  rewrite Hdir in Hfiles. destruct Hfiles as [Hfiles _].
  change (messages (after_line "/save" w)) with (messages w) in *.
  change (posts (after_line "/save" w)) with (posts w) in *.
  change (runs (after_line "/save" w)) with (runs w) in *.
  set (w1 := snd (save_history json_dump (after_line "/save" w))) in *.
  assert (Hlook : Fs.files (fs w1) !! history_file = Some (json_dump (messages w)))
    by (rewrite Hfiles; apply lookup_insert_eq).
  destruct (load_history_account json_load (after_line "/load" w1))
    as (_ & _ & _ & _ & _ & _ & _ & _ & _ & Hload).
  specialize (Hload _ _ Hlook Hround).
  assert (H2 : after_load json_load "/load" w1
               = snd (print ("Chat history loaded." +:+ NL)
                        (snd (extend_messages (messages w) (after_line "/load" w1))))).
  { unfold after_load. unfold bind at 1. rewrite Hload.
    destruct (messages w); [contradiction | reflexivity]. }
  exists (after_load json_load "/load" w1). split; [reflexivity |].
  rewrite H2. cbn [extend_messages print log after_line fst snd messages fs runs posts].
  rewrite Hm1. now repeat split.
Qed.

Lemma save_then_load_doubles_the_conversation_witness :
  exists w',
    interactive_image env_chat dump1 load1 args 3 None ["/save"; "/load"; "exit"] studio
    = interactive_image env_chat dump1 load1 args 1 None ["exit"] w'
    /\ messages w' = [system_message; system_message].
Proof.
  destruct (save_then_load_doubles_the_conversation env_chat dump1 load1 args 1 None
              ["exit"] studio) as (w' & H1 & H2 & _); [reflexivity | discriminate | reflexivity |].
  exists w'. split; [exact H1 | exact H2].
Defined.

Section Turns.
Variable env : Env.
Variable json_dump : list ChatMessage -> string.
Variable json_load : string -> string + list ChatMessage.
Variable args : Args.

Lemma interactive_image_leave (fuel : nat) (image : option string) (line : string)
    (rest : list string) (w : World) :
  leaves line = true ->
  interactive_image env json_dump json_load args (S fuel) image (line :: rest) w
  = (Ok (Some rest),
     if arg_save_history args then snd (save_history json_dump (after_line line w))
     else after_line line w).
Proof.
  intros Hleave. cbn [interactive_image]. unfold bind at 1.
  change (log (Input YouPrompt (NL +:+ "You: ") line) w) with (Ok tt, after_line line w).
  cbv beta iota.
  change (bool_decide (lower (strip line) = "exit")
          || bool_decide (lower (strip line) = "quit")) with (leaves line).
  rewrite Hleave. unfold bind.
  destruct (arg_save_history args); [| reflexivity].
  destruct (save_history_account json_dump (after_line line w)) as (Hok & _).
  destruct (save_history json_dump (after_line line w)) as [[[]|e] w1];
    cbn [fst snd] in *; [reflexivity | discriminate].
Qed.

Lemma interactive_image_no_reply (fuel : nat) (image : option string) (line : string)
    (rest : list string) (w : World) (reply : option string) (w4 : World) :
  leaves line = false -> strip line <> "/save" -> strip line <> "/load" ->
  turn_call env args image line w = (Ok reply, w4) ->
  truthy_opt reply = false ->
  interactive_image env json_dump json_load args (S fuel) image (line :: rest) w
  = interactive_image env json_dump json_load args fuel (image_left image line w) rest w4.
Proof.
  intros Hleave Hsave Hload Hcall Hreply. cbn [interactive_image]. unfold bind at 1.
  change (log (Input YouPrompt (NL +:+ "You: ") line) w) with (Ok tt, after_line line w).
  cbv beta iota.
  change (bool_decide (lower (strip line) = "exit")
          || bool_decide (lower (strip line) = "quit")) with (leaves line).
  rewrite Hleave.
  rewrite (bool_decide_eq_false_2 (strip line = "/save")) by exact Hsave.
  rewrite (bool_decide_eq_false_2 (strip line = "/load")) by exact Hload.
  unfold turn_call, after_user_message in Hcall. unfold image_left.
  unfold bind at 1.
  destruct (append_user_message_account interactive_note image (strip line) (after_line line w))
    as (attached & m & added & Hok & _).
  destruct (append_user_message interactive_note image (strip line) (after_line line w))
    as [[attached'|e] w2]; cbn [fst snd] in *; [| discriminate].
  unfold bind at 1. cbn [print log fst snd] in *.
  unfold bind at 1. cbn [get_messages fst snd messages] in *.
  unfold bind at 1. rewrite Hcall, Hreply.
  now destruct attached'.
Qed.

End Turns.

(** X26: a line at the prompt that is neither a command nor a leave puts
    the user's message into the conversation before the call; when the
    call gives nothing (every attempt failed, or the reply is empty) the
    message stays there unanswered, no assistant message is added, and the
    loop goes on to the next line. *)
Theorem unanswered_question_stays (env : Env) (json_dump : list ChatMessage -> string)
    (json_load : string -> string + list ChatMessage) (args : Args) (fuel : nat)
    (image : option string) (line : string) (rest : list string) (w : World)
    (reply : option string) (w4 : World) :
  leaves line = false -> strip line <> "/save" -> strip line <> "/load" ->
  turn_call env args image line w = (Ok reply, w4) ->
  truthy_opt reply = false ->
  interactive_image env json_dump json_load args (S fuel) image (line :: rest) w
  = interactive_image env json_dump json_load args fuel (image_left image line w) rest w4
  /\ exists m,
       messages w4 = (messages w ++ [m])%list /\ role m = user
       /\ (has_image m = false -> image_left image line w = image)
       /\ runs w4 = runs w /\ fs w4 = fs w.
Proof.
  intros Hleave Hsave Hload Hcall Hreply.
  split; [now apply (interactive_image_no_reply env json_dump json_load args fuel image
                       line rest w reply w4) |].
  destruct (turn_call_account _ _ _ _ _ _ _ Hcall) as (Hm4 & Hf4 & Hr4).
  destruct (after_user_message_account image line w)
    as (m & _ & Hm3 & Hrole & Himg & Hf3 & _ & Hr3 & _).
  exists m. rewrite Hm4, Hr4, Hf4. repeat split; try assumption.
  intros Hno. destruct Himg as [(Hleft & _) | (_ & Hyes & _)]; [exact Hleft | congruence].
Qed.

Lemma unanswered_question_stays_witness :
  exists w4,
    interactive_image env_down dump1 load1 args 3 None ["hello"; "exit"] studio
    = interactive_image env_down dump1 load1 args 2 None ["exit"] w4
    /\ messages w4 = [system_message; msg user "hello"].
Proof.
  destruct (unanswered_question_stays env_down dump1 load1 args 2 None "hello" ["exit"]
              studio None (snd (turn_call env_down args None "hello" studio)))
    as (H1 & _); [reflexivity | discriminate | discriminate | reflexivity | reflexivity |].
  exists (snd (turn_call env_down args None "hello" studio)).
  split; [exact H1 | reflexivity].
Defined.

(** X27: a line that says [exit] or [quit] ends the loop at once, with
    the lines after it unread; nothing is posted or run, the conversation
    is as it was, and the history is written exactly when
    [--save-history] was given (and no directory bears its name). *)
Theorem leaving_saves_on_request (env : Env) (json_dump : list ChatMessage -> string)
    (json_load : string -> string + list ChatMessage) (args : Args) (fuel : nat)
    (image : option string) (line : string) (rest : list string) (w : World) :
  leaves line = true ->
  let out := interactive_image env json_dump json_load args (S fuel) image
               (line :: rest) w in
  let w' := snd out in
  fst out = Ok (Some rest)
  /\ messages w' = messages w /\ posts w' = posts w /\ runs w' = runs w
  /\ if arg_save_history args && negb (Fs.isdir (fs w) history_file)
     then Fs.files (fs w') = <[ history_file := json_dump (messages w) ]> (Fs.files (fs w))
     else Fs.files (fs w') = Fs.files (fs w).
Proof.
  intros Hleave. cbv zeta.
  rewrite (interactive_image_leave env json_dump json_load args fuel image line rest w Hleave).
  cbn [fst snd]. destruct (arg_save_history args); cbn [andb].
  - destruct (save_history_account json_dump (after_line line w))
      as (_ & Hm & Hp & Hr & _ & _ & Hfiles).
    change (fs (after_line line w)) with (fs w) in Hfiles.
    change (messages (after_line line w)) with (messages w) in *.
    change (posts (after_line line w)) with (posts w) in *.
    change (runs (after_line line w)) with (runs w) in *.
    repeat split; try assumption.
    destruct (Fs.isdir (fs w) history_file); cbn [negb]; apply Hfiles.
  - now repeat split.
Qed.

Lemma leaving_saves_on_request_witness :
  let out := interactive_image env_chat dump1 load1 args_save 1 None
               ["  QUIT "; "more"] studio in
  fst out = Ok (Some ["more"])
  /\ Fs.files (fs (snd out)) !! history_file = Some "[{...}]".
Proof.
  destruct (leaving_saves_on_request env_chat dump1 load1 args_save 0 None "  QUIT "
              ["more"] studio) as (H1 & _ & _ & _ & H2); [reflexivity |].
  split; [exact H1 |]. cbn [andb negb] in H2.
  change (arg_save_history args_save && negb (Fs.isdir (fs studio) history_file))
    with true in H2.
  cbv iota in H2. rewrite H2. apply lookup_insert_eq.
Defined.

